(** * modules/crypto/pbkdf2v2.c : the PBKDF2 v2 password-credential module

    A shallow embedding of the credential engine of
    [modules/crypto/pbkdf2v2.c]: the PRF resolver, the parameter sanity
    check, the SCRAM key deriver, the database extractor, the credential
    computer and the four public operations (salt, crypt, verify,
    recrypt), together with the configuration handler for the digest.

    C strings are [string]s, binary buffers are [list byte], [unsigned int]
    values are [Z], lengths ([size_t]) are [nat].  Calls into OpenSSL,
    libidn and the base64 layer are taken from an environment, and every
    cryptographic call is logged so that statements about what is reached
    before a computation can be made. *)

From Stdlib Require Import ZArith List Bool Lia Arith.
From Stdlib.Strings Require Import String Ascii Byte.
From Stdlib Require Import DecimalString DecimalN.
Import ListNotations.
Local Open Scope string_scope.
Local Open Scope list_scope.
Local Open Scope Z_scope.

(* ------------------------------------------------------------------ *)
(** ** Bytes, buffers and C strings *)

(** A buffer of [n] bytes after [memset(buf, 0x00, n)]. *)
Definition zero_buf (n : nat) : list byte := repeat x00 n.

(** Writing [data] at the start of a buffer keeps the rest of it. *)
Definition write_buf (data buf : list byte) : list byte :=
  data ++ skipn (List.length data) buf.

(** The C string that starts a buffer: its bytes before the first NUL. *)
Fixpoint until_nul (buf : list byte) : list byte :=
  match buf with
  | [] => []
  | b :: rest => if Byte.eqb b x00 then [] else b :: until_nul rest
  end.

Definition cstring_of_buf (buf : list byte) : string :=
  string_of_list_byte (until_nul buf).

(** [strlen] *)
Definition strlen (s : string) : nat := String.length s.

Fixpoint bytes_eqb (x y : list byte) : bool :=
  match x, y with
  | [], [] => true
  | a :: x', b :: y' => Byte.eqb a b && bytes_eqb x' y'
  | _, _ => false
  end.

(** [memcmp(x, y, n) == 0] on buffers that hold at least [n] bytes. *)
Definition memcmp_eq (x y : list byte) (n : nat) : bool :=
  bytes_eqb (firstn n x) (firstn n y).

(** [strcasecmp(x, y) == 0] for ASCII text. *)
Definition tolower (c : ascii) : ascii :=
  let n := nat_of_ascii c in
  if (Nat.leb 65 n && Nat.leb n 90)%bool then ascii_of_nat (n + 32) else c.

Fixpoint strcasecmp_eq (x y : string) : bool :=
  match x, y with
  | EmptyString, EmptyString => true
  | String a x', String b y' =>
      Ascii.eqb (tolower a) (tolower b) && strcasecmp_eq x' y'
  | _, _ => false
  end.

(* ------------------------------------------------------------------ *)
(** ** sscanf(3) and snprintf(3) for the directives the module uses *)

Module Scan.

(** The three kinds of directive in the module's format strings: an
    ordinary character, [%u], and a scanset [%[...]]. *)
Inductive directive :=
| Lit (c : ascii)
| Uint
| Set_ (allowed : ascii -> bool).

(** What a conversion stores through its pointer argument. *)
Inductive value :=
| VUint (n : Z)
| VStr (s : string).

Definition is_digit (c : ascii) : bool :=
  let n := nat_of_ascii c in (Nat.leb 48 n && Nat.leb n 57)%bool.

Definition is_space (c : ascii) : bool :=
  let n := nat_of_ascii c in
  (Nat.eqb n 32 || (Nat.leb 9 n && Nat.leb n 13))%bool.

Fixpoint skip_space (s : string) : string :=
  match s with
  | String c rest => if is_space c then skip_space rest else s
  | EmptyString => s
  end.

(** The longest prefix made of characters satisfying [p], and the rest. *)
Fixpoint span (p : ascii -> bool) (s : string) : string * string :=
  match s with
  | String c rest =>
      if p c then let '(tok, r) := span p rest in (String c tok, r)
      else (EmptyString, s)
  | EmptyString => (EmptyString, EmptyString)
  end.

Definition digit_value (c : ascii) : Z := Z.of_nat (nat_of_ascii c) - 48.

Fixpoint digits_value (acc : Z) (ds : string) : Z :=
  match ds with
  | String c rest => digits_value (10 * acc + digit_value c) rest
  | EmptyString => acc
  end.

(** [%u]: leading white space is skipped, an optional sign and a non-empty
    run of decimal digits are consumed; the number is converted as by
    [strtoul] (a magnitude above [ULONG_MAX] gives [ULONG_MAX] whatever
    the sign, any other magnitude is negated modulo 2^64 after a minus
    sign) and stored in an [unsigned int], which keeps its low 32 bits. *)
Definition scan_uint (s : string) : option (Z * string) :=
  let s1 := skip_space s in
  let '(neg, s2) :=
    match s1 with
    | String "-" r => (true, r)
    | String "+" r => (false, r)
    | _ => (false, s1)
    end in
  let '(ds, rest) := span is_digit s2 in
  match ds with
  | EmptyString => None
  | _ =>
      let magnitude := digits_value 0 ds in
      let v :=
        if 2 ^ 64 - 1 <? magnitude then 2 ^ 64 - 1
        else if neg then (2 ^ 64 - magnitude) mod 2 ^ 64
        else magnitude in
      Some (v mod 2 ^ 32, rest)
  end.

(** The values assigned by [sscanf(input, fmt, ...)], in order; the value
    [sscanf] returns is their number when at least one was assigned (and 0
    or [EOF] otherwise, neither of which the module tells apart). *)
Fixpoint sscanf (fmt : list directive) (input : string) : list value :=
  match fmt with
  | [] => []
  | Lit c :: fmt' =>
      match input with
      | String c' rest => if Ascii.eqb c c' then sscanf fmt' rest else []
      | EmptyString => []
      end
  | Uint :: fmt' =>
      match scan_uint input with
      | Some (n, rest) => VUint n :: sscanf fmt' rest
      | None => []
      end
  | Set_ p :: fmt' =>
      match span p input with
      | (EmptyString, _) => []
      | (tok, rest) => VStr tok :: sscanf fmt' rest
      end
  end.

(** The kinds of the conversions of a format, in order ([true] for
    [%u]), and the kind of a stored value. *)
Fixpoint conv_kinds (fmt : list directive) : list bool :=
  match fmt with
  | [] => []
  | Lit _ :: fmt' => conv_kinds fmt'
  | Uint :: fmt' => true :: conv_kinds fmt'
  | Set_ _ :: fmt' => false :: conv_kinds fmt'
  end.

Definition kind (v : value) : bool :=
  match v with
  | VUint _ => true
  | VStr _ => false
  end.

(** [%u] of [snprintf]. *)
Definition print_uint (n : Z) : string :=
  NilZero.string_of_uint (N.to_uint (Z.to_N n)).

End Scan.

(* ------------------------------------------------------------------ *)
(** ** What the module takes from its headers and libraries *)

(** OpenSSL's message digests, [<openssl/sha.h>] and [<openssl/evp.h>]. *)
Inductive EVP_MD := EVP_sha1 | EVP_sha256 | EVP_sha512.

Definition SHA_DIGEST_LENGTH : nat := 20.
Definition SHA256_DIGEST_LENGTH : nat := 32.
Definition SHA512_DIGEST_LENGTH : nat := 64.
Definition EVP_MAX_MD_SIZE : nat := 64.

(** The constants of [include/pbkdf2v2.h] and [PASSLEN], none of which is
    defined in the module itself, and whether the build has GNU libidn. *)
Record Header := {
  PBKDF2_PRF_HMAC_SHA1 : Z;
  PBKDF2_PRF_HMAC_SHA2_256 : Z;
  PBKDF2_PRF_HMAC_SHA2_512 : Z;
  PBKDF2_PRF_HMAC_SHA1_S64 : Z;
  PBKDF2_PRF_HMAC_SHA2_256_S64 : Z;
  PBKDF2_PRF_HMAC_SHA2_512_S64 : Z;
  PBKDF2_PRF_SCRAM_SHA1 : Z;
  PBKDF2_PRF_SCRAM_SHA2_256 : Z;
  PBKDF2_PRF_SCRAM_SHA2_512 : Z;
  PBKDF2_PRF_SCRAM_SHA1_S64 : Z;
  PBKDF2_PRF_SCRAM_SHA2_256_S64 : Z;
  PBKDF2_PRF_SCRAM_SHA2_512_S64 : Z;
  PBKDF2_DIGEST_DEF : Z;
  PBKDF2_ITERCNT_MIN : Z;
  PBKDF2_ITERCNT_MAX : Z;
  PBKDF2_ITERCNT_DEF : Z;
  PBKDF2_SALTLEN_MIN : nat;
  PBKDF2_SALTLEN_MAX : nat;
  PBKDF2_SALTLEN_DEF : nat;
  PASSLEN : nat;
  (** [sizeof parsed->salt] *)
  SALT_BUFSIZE : nat;
  HAVE_LIBIDN : bool
}.

(** All PRF identifiers, in the order of the header. *)
Definition prf_ids (h : Header) : list Z :=
  [ PBKDF2_PRF_HMAC_SHA1 h; PBKDF2_PRF_HMAC_SHA2_256 h;
    PBKDF2_PRF_HMAC_SHA2_512 h;
    PBKDF2_PRF_HMAC_SHA1_S64 h; PBKDF2_PRF_HMAC_SHA2_256_S64 h;
    PBKDF2_PRF_HMAC_SHA2_512_S64 h;
    PBKDF2_PRF_SCRAM_SHA1 h; PBKDF2_PRF_SCRAM_SHA2_256 h;
    PBKDF2_PRF_SCRAM_SHA2_512 h;
    PBKDF2_PRF_SCRAM_SHA1_S64 h; PBKDF2_PRF_SCRAM_SHA2_256_S64 h;
    PBKDF2_PRF_SCRAM_SHA2_512_S64 h ].

(** The identifiers are the labels of one [switch], so a header the module
    compiles with gives them pairwise different values. *)
Definition header_ok (h : Header) : Prop := NoDup (prf_ids h).

(** Modelled from the spec: the byte arrays [ServerKeyStr] and
    [ClientKeyStr] of the missing header [include/pbkdf2v2.h]; the ASCII
    literals of RFC 5802 section 3, without a terminating NUL. *)
Definition ServerKeyStr : list byte := list_byte_of_string "Server Key".
Definition ClientKeyStr : list byte := list_byte_of_string "Client Key".

(** Modelled from the spec: the character class of the text fields,
    [PBKDF2_FN_BASE64] of the missing header: the base64 alphabet and its
    padding character. *)
Definition PBKDF2_FN_BASE64 (ch : ascii) : bool :=
  let n := nat_of_ascii ch in
  ((Nat.leb 65 n && Nat.leb n 90) || (Nat.leb 97 n && Nat.leb n 122)
   || (Nat.leb 48 n && Nat.leb n 57)
   || Nat.eqb n 43 || Nat.eqb n 47 || Nat.eqb n 61)%bool.

(** Modelled from the spec: the [sscanf] format macros of the missing
    header.  Fields are joined by a fixed delimiter, numeric fields are
    decimal, the other fields are base64 text; the record shapes have 3, 4
    and 5 fields.  The delimiter is ['$'] and every record starts with the
    tag ["$z$"]. *)
Definition PBKDF2_FN_PREFIX : list Scan.directive :=
  [Scan.Lit "$"; Scan.Lit "z"; Scan.Lit "$"; Scan.Uint; Scan.Lit "$";
   Scan.Uint; Scan.Lit "$"]%char.
Definition PBKDF2_FN_LOADSALT : list Scan.directive :=
  PBKDF2_FN_PREFIX ++ [Scan.Set_ PBKDF2_FN_BASE64; Scan.Lit "$"%char].
Definition PBKDF2_FN_LOADHASH : list Scan.directive :=
  PBKDF2_FN_LOADSALT ++ [Scan.Set_ PBKDF2_FN_BASE64].
Definition PBKDF2_FS_LOADHASH : list Scan.directive :=
  PBKDF2_FN_LOADHASH ++ [Scan.Lit "$"%char; Scan.Set_ PBKDF2_FN_BASE64].

(** The PRF id a record starts with, if it has one. *)
Definition record_prf (parameters : string) : option Z :=
  match Scan.sscanf PBKDF2_FN_PREFIX parameters with
  | Scan.VUint x :: _ => Some x
  | _ => None
  end.

(** Modelled from the spec: the [snprintf] format macros of the missing
    header, the same shapes with [%s] for the text fields. *)
Definition PBKDF2_FN_SAVESALT (a c : Z) (salt : string) : string :=
  ("$z$" ++ Scan.print_uint a ++ "$" ++ Scan.print_uint c ++ "$"
   ++ salt ++ "$")%string.
Definition PBKDF2_FN_SAVEHASH (a c : Z) (salt dg : string) : string :=
  (PBKDF2_FN_SAVESALT a c salt ++ dg)%string.
Definition PBKDF2_FS_SAVEHASH (a c : Z) (salt ssk shk : string) : string :=
  (PBKDF2_FN_SAVEHASH a c salt ssk ++ "$" ++ shk)%string.

(** The library calls.  Each returns [None] where the C function reports
    failure ([NULL], a value other than 1, [(size_t) -1], a return code
    other than [STRINGPREP_OK]). *)
Record Env := {
  (** [HMAC(md, key, key_len, data, data_len, out, NULL)] *)
  HMAC : EVP_MD -> list byte -> list byte -> option (list byte);
  (** [EVP_Digest(data, count, out, NULL, md, NULL)] *)
  EVP_Digest : list byte -> EVP_MD -> option (list byte);
  (** [PKCS5_PBKDF2_HMAC(pass, passlen, salt, saltlen, iter, md, keylen, out)] *)
  PKCS5_PBKDF2_HMAC :
    string -> list byte -> Z -> EVP_MD -> nat -> option (list byte);
  (** [base64_encode(src, srclen, dst, dstlen)] *)
  base64_encode : list byte -> nat -> option string;
  (** [base64_decode(src, dst, dstlen)] *)
  base64_decode : string -> nat -> option (list byte);
  (** [stringprep(buf, maxlen, 0, stringprep_saslprep)], in place *)
  stringprep_saslprep : string -> nat -> option string
}.

(* ------------------------------------------------------------------ *)
(** ** The parsed credential *)

(** [struct pbkdf2v2_parameters], with the fields the module uses. *)
Record pbkdf2v2_parameters := {
  md : option EVP_MD;
  cdg : list byte;
  sdg : list byte;
  ssk : list byte;
  shk : list byte;
  salt : list byte;
  dl : nat;
  sl : nat;
  a : Z;
  c : Z;
  scram : bool;
  salt64 : bool
}.

Definition set_md v p := {| md := v; cdg := cdg p; sdg := sdg p; ssk := ssk p;
  shk := shk p; salt := salt p; dl := dl p; sl := sl p; a := a p; c := c p;
  scram := scram p; salt64 := salt64 p |}.
Definition set_cdg v p := {| md := md p; cdg := v; sdg := sdg p; ssk := ssk p;
  shk := shk p; salt := salt p; dl := dl p; sl := sl p; a := a p; c := c p;
  scram := scram p; salt64 := salt64 p |}.
Definition set_sdg v p := {| md := md p; cdg := cdg p; sdg := v; ssk := ssk p;
  shk := shk p; salt := salt p; dl := dl p; sl := sl p; a := a p; c := c p;
  scram := scram p; salt64 := salt64 p |}.
Definition set_ssk v p := {| md := md p; cdg := cdg p; sdg := sdg p; ssk := v;
  shk := shk p; salt := salt p; dl := dl p; sl := sl p; a := a p; c := c p;
  scram := scram p; salt64 := salt64 p |}.
Definition set_shk v p := {| md := md p; cdg := cdg p; sdg := sdg p; ssk := ssk p;
  shk := v; salt := salt p; dl := dl p; sl := sl p; a := a p; c := c p;
  scram := scram p; salt64 := salt64 p |}.
Definition set_salt v p := {| md := md p; cdg := cdg p; sdg := sdg p;
  ssk := ssk p; shk := shk p; salt := v; dl := dl p; sl := sl p; a := a p;
  c := c p; scram := scram p; salt64 := salt64 p |}.
Definition set_dl v p := {| md := md p; cdg := cdg p; sdg := sdg p; ssk := ssk p;
  shk := shk p; salt := salt p; dl := v; sl := sl p; a := a p; c := c p;
  scram := scram p; salt64 := salt64 p |}.
Definition set_sl v p := {| md := md p; cdg := cdg p; sdg := sdg p; ssk := ssk p;
  shk := shk p; salt := salt p; dl := dl p; sl := v; a := a p; c := c p;
  scram := scram p; salt64 := salt64 p |}.
Definition set_a v p := {| md := md p; cdg := cdg p; sdg := sdg p; ssk := ssk p;
  shk := shk p; salt := salt p; dl := dl p; sl := sl p; a := v; c := c p;
  scram := scram p; salt64 := salt64 p |}.
Definition set_c v p := {| md := md p; cdg := cdg p; sdg := sdg p; ssk := ssk p;
  shk := shk p; salt := salt p; dl := dl p; sl := sl p; a := a p; c := v;
  scram := scram p; salt64 := salt64 p |}.
Definition set_scram v p := {| md := md p; cdg := cdg p; sdg := sdg p;
  ssk := ssk p; shk := shk p; salt := salt p; dl := dl p; sl := sl p; a := a p;
  c := c p; scram := v; salt64 := salt64 p |}.
Definition set_salt64 v p := {| md := md p; cdg := cdg p; sdg := sdg p;
  ssk := ssk p; shk := shk p; salt := salt p; dl := dl p; sl := sl p; a := a p;
  c := c p; scram := scram p; salt64 := v |}.

(** The process-wide defaults, [pbkdf2v2_rounds] and [pbkdf2v2_digest]. *)
Record config := {
  pbkdf2v2_rounds : Z;
  pbkdf2v2_digest : Z
}.

(* ------------------------------------------------------------------ *)
(** ** Logged computations *)

(** The cryptographic calls, each with the credential it is made for. *)
Inductive event :=
| EvHMAC (parsed : pbkdf2v2_parameters) (msg : list byte)
| EvDigest (parsed : pbkdf2v2_parameters) (data : list byte)
| EvPBKDF2 (password : string) (parsed : pbkdf2v2_parameters).

(** A computation logs the calls it makes and returns a value, or fails
    (the C function returns [false] or [NULL]). *)
Definition M (A : Type) : Type := (list event * option A)%type.

Definition ret {A} (x : A) : M A := ([], Some x).
Definition fail {A} : M A := ([], None).
Definition lift {A} (o : option A) : M A := ([], o).
Definition call {A} (e : event) (r : option A) : M A := ([e], r).
Definition bind {A B} (m : M A) (f : A -> M B) : M B :=
  match m with
  | (t, Some x) => let '(t', r) := f x in (t ++ t', r)
  | (t, None) => (t, None)
  end.

Definition trace {A} (m : M A) : list event := fst m.
Definition result {A} (m : M A) : option A := snd m.

Declare Scope m_scope.
Delimit Scope m_scope with m.
Notation "x <- m ;; k" := (bind m (fun x => k))
  (at level 61, m at next level, right associativity) : m_scope.
Notation "' pat <- m ;; k" :=
  (bind m (fun x => match x with pat => k end))
  (at level 61, pat pattern, m at next level, right associativity) : m_scope.
Notation "'check' b ;; k" := (if b then k else fail)
  (at level 61, b at next level, right associativity) : m_scope.

(* ------------------------------------------------------------------ *)
(** ** The module *)

(** How a call ends: it returns, or it has written past the end of an
    array, after which the C program has no defined behaviour. *)
Inductive run (A : Type) :=
| Overrun
| Returns (x : A).
Arguments Overrun {A}.
Arguments Returns {A} x.

Section Pbkdf2v2.

Variable h : Header.
Variable E : Env.

Local Open Scope m_scope.

(** [memset(parsed, 0x00, sizeof *parsed)] *)
Definition zero_parameters : pbkdf2v2_parameters :=
  {| md := None;
     cdg := zero_buf EVP_MAX_MD_SIZE; sdg := zero_buf EVP_MAX_MD_SIZE;
     ssk := zero_buf EVP_MAX_MD_SIZE; shk := zero_buf EVP_MAX_MD_SIZE;
     salt := zero_buf (SALT_BUFSIZE h);
     dl := 0%nat; sl := 0%nat; a := 0; c := 0;
     scram := false; salt64 := false |}.

(** Whether [x] is one of the [case] labels of a group. *)
Definition case_of (x : Z) (labels : list Z) : bool :=
  existsb (Z.eqb x) labels.

Definition atheme_pbkdf2v2_determine_prf (parsed : pbkdf2v2_parameters)
  : option pbkdf2v2_parameters :=
  let x := a parsed in
  let digest_is (m : EVP_MD) (len : nat) (p : pbkdf2v2_parameters) :=
    set_dl len (set_md (Some m) p) in
  let first_switch :=
    if case_of x [PBKDF2_PRF_SCRAM_SHA1 h; PBKDF2_PRF_SCRAM_SHA1_S64 h]
    then Some (digest_is EVP_sha1 SHA_DIGEST_LENGTH (set_scram true parsed))
    else if case_of x [PBKDF2_PRF_HMAC_SHA1 h; PBKDF2_PRF_HMAC_SHA1_S64 h]
    then Some (digest_is EVP_sha1 SHA_DIGEST_LENGTH parsed)
    else if case_of x [PBKDF2_PRF_SCRAM_SHA2_256 h;
                       PBKDF2_PRF_SCRAM_SHA2_256_S64 h]
    then Some (digest_is EVP_sha256 SHA256_DIGEST_LENGTH
                 (set_scram true parsed))
    else if case_of x [PBKDF2_PRF_HMAC_SHA2_256 h;
                       PBKDF2_PRF_HMAC_SHA2_256_S64 h]
    then Some (digest_is EVP_sha256 SHA256_DIGEST_LENGTH parsed)
    else if case_of x [PBKDF2_PRF_SCRAM_SHA2_512 h;
                       PBKDF2_PRF_SCRAM_SHA2_512_S64 h]
    then Some (digest_is EVP_sha512 SHA512_DIGEST_LENGTH
                 (set_scram true parsed))
    else if case_of x [PBKDF2_PRF_HMAC_SHA2_512 h;
                       PBKDF2_PRF_HMAC_SHA2_512_S64 h]
    then Some (digest_is EVP_sha512 SHA512_DIGEST_LENGTH parsed)
    else None in
  match first_switch with
  | None => None
  | Some parsed =>
      let parsed :=
        if case_of x [PBKDF2_PRF_HMAC_SHA1_S64 h;
                      PBKDF2_PRF_HMAC_SHA2_256_S64 h;
                      PBKDF2_PRF_HMAC_SHA2_512_S64 h;
                      PBKDF2_PRF_SCRAM_SHA1_S64 h;
                      PBKDF2_PRF_SCRAM_SHA2_256_S64 h;
                      PBKDF2_PRF_SCRAM_SHA2_512_S64 h]
        then set_salt64 true parsed else parsed in
      match md parsed with
      | None => None
      | Some _ => Some parsed
      end
  end.

Definition atheme_pbkdf2v2_parameters_sane (parsed : pbkdf2v2_parameters)
  : bool :=
  if ((sl parsed <? PBKDF2_SALTLEN_MIN h)%nat
      || (PBKDF2_SALTLEN_MAX h <? sl parsed)%nat)%bool then false
  else if ((c parsed <? PBKDF2_ITERCNT_MIN h)
           || (PBKDF2_ITERCNT_MAX h <? c parsed))%bool then false
  else true.

(** [HMAC(parsed->md, parsed->cdg, (int) parsed->dl, msg, sizeof msg, out,
    NULL)]; OpenSSL writes the digest's length in bytes to [out]. *)
Definition hmac_cdg (parsed : pbkdf2v2_parameters) (msg : list byte)
  : M (list byte) :=
  call (EvHMAC parsed msg)
    match md parsed with
    | Some m => HMAC E m (firstn (dl parsed) (cdg parsed)) msg
    | None => None
    end.

(** [EVP_Digest(data, parsed->dl, out, NULL, parsed->md, NULL)] *)
Definition digest_of (parsed : pbkdf2v2_parameters) (data : list byte)
  : M (list byte) :=
  call (EvDigest parsed (firstn (dl parsed) data))
    match md parsed with
    | Some m => EVP_Digest E (firstn (dl parsed) data) m
    | None => None
    end.

(** [csk] and [chk] say whether the output pointer is non-[NULL]; the
    result is what was written through each (nothing for a [NULL] one). *)
Definition atheme_pbkdf2v2_scram_derive (parsed : pbkdf2v2_parameters)
    (csk chk : bool) : M (list byte * list byte) :=
  csk_out <- (if csk then hmac_cdg parsed ServerKeyStr else ret []) ;;
  cck <- (if chk then hmac_cdg parsed ClientKeyStr else ret []) ;;
  chk_out <- (if chk then digest_of parsed cck else ret []) ;;
  ret (csk_out, chk_out).

Definition ATHEME_SASLPREP_MAXLEN : nat := (PASSLEN h + 1)%nat.

Definition atheme_pbkdf2v2_scram_normalize (input : string) : option string :=
  if (ATHEME_SASLPREP_MAXLEN <=? strlen input)%nat then None
  else stringprep_saslprep E input ATHEME_SASLPREP_MAXLEN.

(** The character arrays on the stack of the parsing functions.  They are
    not initialised: what they hold before [sscanf] stores into them is
    whatever the caller's stack had. *)
Record locals := {
  salt64_ : string;
  sdg64 : string;
  ssk64 : string;
  shk64 : string
}.

(** The stores of [sscanf(parameters, PBKDF2_FS_LOADHASH, &parsed->a,
    &parsed->c, salt64, ssk64, shk64)], as far as the conversions went. *)
Fixpoint store_fs (vs : list Scan.value) (n : nat)
    (st : pbkdf2v2_parameters * locals) : pbkdf2v2_parameters * locals :=
  match vs with
  | [] => st
  | v :: vs' =>
      let '(p, l) := st in
      let st' :=
        match n, v with
        | 0%nat, Scan.VUint x => (set_a x p, l)
        | 1%nat, Scan.VUint x => (set_c x p, l)
        | 2%nat, Scan.VStr s =>
            (p, {| salt64_ := s; sdg64 := sdg64 l; ssk64 := ssk64 l;
                   shk64 := shk64 l |})
        | 3%nat, Scan.VStr s =>
            (p, {| salt64_ := salt64_ l; sdg64 := sdg64 l; ssk64 := s;
                   shk64 := shk64 l |})
        | 4%nat, Scan.VStr s =>
            (p, {| salt64_ := salt64_ l; sdg64 := sdg64 l; ssk64 := ssk64 l;
                   shk64 := s |})
        | _, _ => st
        end in
      store_fs vs' (S n) st'
  end.

(** The stores of [sscanf(parameters, PBKDF2_FN_LOADHASH, &parsed->a,
    &parsed->c, salt64, sdg64)]. *)
Fixpoint store_fn (vs : list Scan.value) (n : nat)
    (st : pbkdf2v2_parameters * locals) : pbkdf2v2_parameters * locals :=
  match vs with
  | [] => st
  | v :: vs' =>
      let '(p, l) := st in
      let st' :=
        match n, v with
        | 0%nat, Scan.VUint x => (set_a x p, l)
        | 1%nat, Scan.VUint x => (set_c x p, l)
        | 2%nat, Scan.VStr s =>
            (p, {| salt64_ := s; sdg64 := sdg64 l; ssk64 := ssk64 l;
                   shk64 := shk64 l |})
        | 3%nat, Scan.VStr s =>
            (p, {| salt64_ := salt64_ l; sdg64 := s; ssk64 := ssk64 l;
                   shk64 := shk64 l |})
        | _, _ => st
        end in
      store_fn vs' (S n) st'
  end.

(** [base64_decode(src, dst, sizeof dst) != parsed->dl] fails; otherwise
    the decoded bytes are in the buffer. *)
Definition decode_exact (src : string) (dst : list byte) (len : nat)
  : M (list byte) :=
  match base64_decode E src EVP_MAX_MD_SIZE with
  | Some raw => if (List.length raw =? len)%nat then ret (write_buf raw dst)
                else fail
  | None => fail
  end.

(** The part of [atheme_pbkdf2v2_scram_dbextract] before its label
    [parsed]: both [sscanf] calls store as far as they get; [stack] is the
    content of the function's uninitialised arrays.  The arrays have
    0x8000 characters and the scansets no field width: the texts are the
    ones [sscanf] scans, inside the arrays for every record shorter than
    that. *)
Definition dbextract_match (stack : locals) (parameters : string)
  : option (pbkdf2v2_parameters * locals) :=
  let st := (zero_parameters, stack) in
  let vs5 := Scan.sscanf PBKDF2_FS_LOADHASH parameters in
  let st := store_fs vs5 0 st in
  if (List.length vs5 =? 5)%nat then Some st
  else
    let vs4 := Scan.sscanf PBKDF2_FN_LOADHASH parameters in
    let st := store_fn vs4 0 st in
    if (List.length vs4 =? 4)%nat then Some st else None.

Definition atheme_pbkdf2v2_scram_dbextract (stack : locals)
    (parameters : string) : M pbkdf2v2_parameters :=
  '(parsed, l) <- lift (dbextract_match stack parameters) ;;
  parsed <- lift (atheme_pbkdf2v2_determine_prf parsed) ;;
  parsed <-
    (if salt64 parsed then
       match base64_decode E (salt64_ l) (SALT_BUFSIZE h) with
       | None => fail
       | Some raw =>
           let parsed :=
             set_sl (List.length raw)
               (set_salt (write_buf raw (salt parsed)) parsed) in
           check atheme_pbkdf2v2_parameters_sane parsed ;;
           ret parsed
       end
     else
       let parsed := set_sl (strlen (salt64_ l)) parsed in
       check atheme_pbkdf2v2_parameters_sane parsed ;;
       ret (set_salt
              (write_buf (list_byte_of_string (salt64_ l)) (salt parsed))
              parsed)) ;;
  parsed <-
    (if case_of (a parsed)
          [PBKDF2_PRF_HMAC_SHA1 h; PBKDF2_PRF_HMAC_SHA1_S64 h;
           PBKDF2_PRF_SCRAM_SHA1 h; PBKDF2_PRF_SCRAM_SHA1_S64 h]
     then ret (set_a (PBKDF2_PRF_SCRAM_SHA1 h) parsed)
     else if case_of (a parsed)
          [PBKDF2_PRF_HMAC_SHA2_256 h; PBKDF2_PRF_HMAC_SHA2_256_S64 h;
           PBKDF2_PRF_SCRAM_SHA2_256 h; PBKDF2_PRF_SCRAM_SHA2_256_S64 h]
     then ret (set_a (PBKDF2_PRF_SCRAM_SHA2_256 h) parsed)
     else fail) ;;
  if scram parsed then
    ssk' <- decode_exact (ssk64 l) (ssk parsed) (dl parsed) ;;
    let parsed := set_ssk ssk' parsed in
    shk' <- decode_exact (shk64 l) (shk parsed) (dl parsed) ;;
    ret (set_shk shk' parsed)
  else
    cdg' <- decode_exact (sdg64 l) (cdg parsed) (dl parsed) ;;
    let parsed := set_cdg cdg' parsed in
    '(csk, chk) <- atheme_pbkdf2v2_scram_derive parsed true true ;;
    ret (set_shk (write_buf chk (shk parsed))
           (set_ssk (write_buf csk (ssk parsed)) parsed)).

(** [sscanf(parameters, fmt, ...) == 3], [== 4] and [== 5] for the three
    formats, with the values stored. *)
Definition stored3 (vs : list Scan.value) : option (Z * Z * string) :=
  match vs with
  | [Scan.VUint x; Scan.VUint n; Scan.VStr s] => Some (x, n, s)
  | _ => None
  end.

Definition stored4 (vs : list Scan.value)
  : option (Z * Z * string * string) :=
  match vs with
  | [Scan.VUint x; Scan.VUint n; Scan.VStr s; Scan.VStr d] =>
      Some (x, n, s, d)
  | _ => None
  end.

Definition stored5 (vs : list Scan.value)
  : option (Z * Z * string * string * string) :=
  match vs with
  | [Scan.VUint x; Scan.VUint n; Scan.VStr s; Scan.VStr k1; Scan.VStr k2] =>
      Some (x, n, s, k1, k2)
  | _ => None
  end.

(** The part of [atheme_pbkdf2v2_compute] before its label [parsed]: which
    shape matched ([matched_ssk_shk]), the credential with its [a] and [c],
    and the text fields [salt64], [sdg64], [ssk64], [shk64] (empty where the
    successful [sscanf] stored nothing; those are not read afterwards).
    The scansets have no field width: the texts are the ones [sscanf]
    scans, and [compute_overruns] below says when one of them does not
    fit its array of 0x2000 characters. *)
Definition compute_match (parameters : string) (verifying : bool)
  : option (bool * pbkdf2v2_parameters * string * string * string * string) :=
  let parsed := zero_parameters in
  if verifying then
    match stored5 (Scan.sscanf PBKDF2_FS_LOADHASH parameters) with
    | Some (x, n, s, k1, k2) =>
        Some (true, set_c n (set_a x parsed), s, "", k1, k2)
    | None =>
        match stored4 (Scan.sscanf PBKDF2_FN_LOADHASH parameters) with
        | Some (x, n, s, d) =>
            Some (false, set_c n (set_a x parsed), s, d, "", "")
        | None => None
        end
    end
  else
    match stored3 (Scan.sscanf PBKDF2_FN_LOADSALT parameters) with
    | Some (x, n, s) => Some (false, set_c n (set_a x parsed), s, "", "", "")
    | None => None
    end.

(** [char salt64[0x2000]] and the three other character arrays of
    [atheme_pbkdf2v2_compute]. *)
Definition COMPUTE_FIELD_BUFSIZE : nat := 2 ^ 13.

(** Whether every text [sscanf] stored fits, with its terminating NUL, an
    array of [n] characters. *)
Definition stores_fit (n : nat) (vs : list Scan.value) : bool :=
  forallb (fun v => match v with
                    | Scan.VStr s => (strlen s <? n)%nat
                    | Scan.VUint _ => true
                    end) vs.

(** Whether one of the [sscanf] calls of [atheme_pbkdf2v2_compute] writes
    past the end of an array: the conversions [%[...]] of the formats have
    no field width, so a text of 0x2000 or more characters does.  In
    verify mode the second call is made only when the first did not store
    five values. *)
Definition compute_overruns (parameters : string) (verifying : bool)
  : bool :=
  if verifying then
    let vs5 := Scan.sscanf PBKDF2_FS_LOADHASH parameters in
    if stores_fit COMPUTE_FIELD_BUFSIZE vs5 then
      if (List.length vs5 =? 5)%nat then false
      else negb (stores_fit COMPUTE_FIELD_BUFSIZE
                   (Scan.sscanf PBKDF2_FN_LOADHASH parameters))
    else true
  else negb (stores_fit COMPUTE_FIELD_BUFSIZE
               (Scan.sscanf PBKDF2_FN_LOADSALT parameters)).

Definition atheme_pbkdf2v2_compute (password parameters : string)
    (verifying : bool) : M pbkdf2v2_parameters :=
  '(matched_ssk_shk, parsed, salt64_, sdg64, ssk64, shk64) <-
    lift (compute_match parameters verifying) ;;
  parsed <- lift (atheme_pbkdf2v2_determine_prf parsed) ;;
  password <-
    (if (HAVE_LIBIDN h && scram parsed)%bool
     then lift (atheme_pbkdf2v2_scram_normalize password)
     else ret password) ;;
  parsed <-
    (if salt64 parsed then
       match base64_decode E salt64_ (SALT_BUFSIZE h) with
       | None => fail
       | Some raw =>
           let parsed :=
             set_sl (List.length raw)
               (set_salt (write_buf raw (salt parsed)) parsed) in
           check atheme_pbkdf2v2_parameters_sane parsed ;;
           ret parsed
       end
     else
       let parsed := set_sl (strlen salt64_) parsed in
       check atheme_pbkdf2v2_parameters_sane parsed ;;
       ret (set_salt
              (write_buf (list_byte_of_string salt64_) (salt parsed))
              parsed)) ;;
  let pl := strlen password in
  check negb (pl =? 0)%nat ;;
  parsed <-
    (if matched_ssk_shk : bool then
       ssk' <- decode_exact ssk64 (ssk parsed) (dl parsed) ;;
       let parsed := set_ssk ssk' parsed in
       shk' <- decode_exact shk64 (shk parsed) (dl parsed) ;;
       ret (set_shk shk' parsed)
     else if verifying then
       sdg' <- decode_exact sdg64 (sdg parsed) (dl parsed) ;;
       ret (set_sdg sdg' parsed)
     else ret parsed) ;;
  dk <- call (EvPBKDF2 password parsed)
          match md parsed with
          | Some m =>
              PKCS5_PBKDF2_HMAC E password
                (firstn (sl parsed) (salt parsed)) (c parsed) m (dl parsed)
          | None => None
          end ;;
  ret (set_cdg (write_buf dk (cdg parsed)) parsed).

(** [rawsalt] is what [arc4random_buf] put into the
    [PBKDF2_SALTLEN_DEF]-byte array. *)
Definition atheme_pbkdf2v2_salt (cfg : config) (rawsalt : list byte)
  : option string :=
  match base64_encode E rawsalt (PBKDF2_SALTLEN_MAX h * 3) with
  | None => None
  | Some salt =>
      let res :=
        PBKDF2_FN_SAVESALT (pbkdf2v2_digest cfg) (pbkdf2v2_rounds cfg) salt in
      if (PASSLEN h <=? strlen res)%nat then None else Some res
  end.

Definition atheme_pbkdf2v2_crypt (password parameters : string) : M string :=
  parsed <- atheme_pbkdf2v2_compute password parameters false ;;
  if scram parsed then
    '(csk, chk) <- atheme_pbkdf2v2_scram_derive parsed true true ;;
    csk64 <- lift (base64_encode E (firstn (dl parsed) csk)
                     (EVP_MAX_MD_SIZE * 3)) ;;
    chk64 <- lift (base64_encode E (firstn (dl parsed) chk)
                     (EVP_MAX_MD_SIZE * 3)) ;;
    let res :=
      PBKDF2_FS_SAVEHASH (a parsed) (c parsed)
        (cstring_of_buf (salt parsed)) csk64 chk64 in
    check negb (PASSLEN h <=? strlen res)%nat ;;
    ret res
  else
    cdg64 <- lift (base64_encode E (firstn (dl parsed) (cdg parsed))
                     (EVP_MAX_MD_SIZE * 3)) ;;
    let res :=
      PBKDF2_FN_SAVEHASH (a parsed) (c parsed)
        (cstring_of_buf (salt parsed)) cdg64 in
    check negb (PASSLEN h <=? strlen res)%nat ;;
    ret res.

Definition atheme_pbkdf2v2_verify (password parameters : string)
  : list event * bool :=
  match atheme_pbkdf2v2_compute password parameters true with
  | (t, None) => (t, false)
  | (t, Some parsed) =>
      if scram parsed then
        match atheme_pbkdf2v2_scram_derive parsed true false with
        | (t', None) => (t ++ t', false)
        | (t', Some (csk, _)) =>
            (t ++ t', memcmp_eq (ssk parsed) csk (dl parsed))
        end
      else (t, memcmp_eq (sdg parsed) (cdg parsed) (dl parsed))
  end.

(** [atheme_pbkdf2v2_verify] with the arrays of the computer as they
    are. *)
Definition verify_run (password parameters : string)
  : run (list event * bool) :=
  if compute_overruns parameters true then Overrun
  else Returns (atheme_pbkdf2v2_verify password parameters).

(** The salt text is scanned into [char salt[0x2000]], again without a
    field width; it is inside the array for every record shorter than
    that. *)
Definition atheme_pbkdf2v2_recrypt (cfg : config) (parameters : string)
  : bool :=
  match stored3 (Scan.sscanf PBKDF2_FN_LOADSALT parameters) with
  | None => false
  | Some (prf, iter, salt) =>
      if negb (prf =? pbkdf2v2_digest cfg) then true
      else if negb (iter =? pbkdf2v2_rounds cfg) then true
      else if negb (strlen salt =? PBKDF2_SALTLEN_DEF h)%nat then true
      else false
  end.

(** The handler of the [DIGEST] configuration item; [vardata] is
    [ce->vardata], [None] for a [NULL] pointer. *)
Definition c_ci_pbkdf2v2_digest (vardata : option string) (cfg : config)
  : config :=
  let set d := {| pbkdf2v2_rounds := pbkdf2v2_rounds cfg;
                  pbkdf2v2_digest := d |} in
  match vardata with
  | None => cfg
  | Some v =>
      if strcasecmp_eq v "SHA1" then set (PBKDF2_PRF_HMAC_SHA1_S64 h)
      else if strcasecmp_eq v "SHA256"
      then set (PBKDF2_PRF_HMAC_SHA2_256_S64 h)
      else if strcasecmp_eq v "SHA512"
      then set (PBKDF2_PRF_HMAC_SHA2_512_S64 h)
      else if (HAVE_LIBIDN h && strcasecmp_eq v "SCRAM-SHA1")%bool
      then set (PBKDF2_PRF_SCRAM_SHA1_S64 h)
      else if (HAVE_LIBIDN h && strcasecmp_eq v "SCRAM-SHA256")%bool
      then set (PBKDF2_PRF_SCRAM_SHA2_256_S64 h)
      else set (PBKDF2_DIGEST_DEF h)
  end.

(** The state the module is loaded with. *)
Definition initial_config : config :=
  {| pbkdf2v2_rounds := PBKDF2_ITERCNT_DEF h;
     pbkdf2v2_digest := PBKDF2_DIGEST_DEF h |}.

End Pbkdf2v2.

(* ------------------------------------------------------------------ *)
(** ** An executable instance *)

(** The values of atheme's headers: [include/pbkdf2v2.h] for the PBKDF2
    constants and [include/common.h] for [PASSLEN], in a build with GNU
    libidn. *)
Definition atheme_header : Header :=
  {| PBKDF2_PRF_HMAC_SHA1 := 4;
     PBKDF2_PRF_HMAC_SHA2_256 := 5;
     PBKDF2_PRF_HMAC_SHA2_512 := 6;
     PBKDF2_PRF_HMAC_SHA1_S64 := 24;
     PBKDF2_PRF_HMAC_SHA2_256_S64 := 25;
     PBKDF2_PRF_HMAC_SHA2_512_S64 := 26;
     PBKDF2_PRF_SCRAM_SHA1 := 44;
     PBKDF2_PRF_SCRAM_SHA2_256 := 45;
     PBKDF2_PRF_SCRAM_SHA2_512 := 46;
     PBKDF2_PRF_SCRAM_SHA1_S64 := 64;
     PBKDF2_PRF_SCRAM_SHA2_256_S64 := 65;
     PBKDF2_PRF_SCRAM_SHA2_512_S64 := 66;
     PBKDF2_DIGEST_DEF := 26;
     PBKDF2_ITERCNT_MIN := 10000;
     PBKDF2_ITERCNT_MAX := 5000000;
     PBKDF2_ITERCNT_DEF := 64000;
     PBKDF2_SALTLEN_MIN := 8;
     PBKDF2_SALTLEN_MAX := 64;
     PBKDF2_SALTLEN_DEF := 32;
     PASSLEN := 288;
     SALT_BUFSIZE := 192;
     HAVE_LIBIDN := true |}.

Module Base64.

(** RFC 4648 base64 with padding. *)
Definition alphabet : string :=
  "ABCDEFGHIJKLMNOPQRSTUVWXYZabcdefghijklmnopqrstuvwxyz0123456789+/".

Definition char_of (n : N) : ascii :=
  match String.get (N.to_nat n) alphabet with
  | Some ch => ch
  | None => "="%char
  end.

Fixpoint index_from (i : N) (ch : ascii) (s : string) : option N :=
  match s with
  | String x rest => if Ascii.eqb x ch then Some i
                     else index_from (N.succ i) ch rest
  | EmptyString => None
  end.

Definition index_of (ch : ascii) : option N := index_from 0%N ch alphabet.

Definition byte_of_N (n : N) : byte :=
  match Byte.of_N (n mod 256) with
  | Some b => b
  | None => x00
  end.

Fixpoint encode (src : list byte) : string :=
  match src with
  | [] => ""
  | [x] =>
      let n := Byte.to_N x in
      String (char_of (n / 4)) (String (char_of ((n mod 4) * 16)) "==")
  | [x; y] =>
      let n := Byte.to_N x in
      let m := Byte.to_N y in
      String (char_of (n / 4))
        (String (char_of ((n mod 4) * 16 + m / 16))
           (String (char_of ((m mod 16) * 4)) "="))
  | x :: y :: z :: rest =>
      let n := Byte.to_N x in
      let m := Byte.to_N y in
      let k := Byte.to_N z in
      String (char_of (n / 4))
        (String (char_of ((n mod 4) * 16 + m / 16))
           (String (char_of ((m mod 16) * 4 + k / 64))
              (String (char_of (k mod 64)) (encode rest))))
  end%N.

Definition quad (i j k l : N) : list byte :=
  [ byte_of_N (i * 4 + j / 16); byte_of_N ((j mod 16) * 16 + k / 4);
    byte_of_N ((k mod 4) * 64 + l) ]%N.

Fixpoint decode (src : string) : option (list byte) :=
  match src with
  | EmptyString => Some []
  | String c1 (String c2 (String c3 (String c4 rest))) =>
      match index_of c1, index_of c2 with
      | Some i, Some j =>
          match rest with
          | EmptyString =>
              if Ascii.eqb c4 "="
              then if Ascii.eqb c3 "="
                   then Some (firstn 1 (quad i j 0 0))
                   else match index_of c3 with
                        | Some k => Some (firstn 2 (quad i j k 0))
                        | None => None
                        end
              else match index_of c3, index_of c4 with
                   | Some k, Some l => Some (quad i j k l)
                   | _, _ => None
                   end
          | _ =>
              match index_of c3, index_of c4, decode rest with
              | Some k, Some l, Some out => Some (quad i j k l ++ out)
              | _, _, _ => None
              end
          end
      | _, _ => None
      end
  | _ => None
  end.

(** [base64_encode]: the text and its NUL have to fit the destination. *)
Definition base64_encode (src : list byte) (dstlen : nat) : option string :=
  let out := encode src in
  if (String.length out <? dstlen)%nat then Some out else None.

(** [base64_decode]: the bytes have to fit the destination. *)
Definition base64_decode (src : string) (dstlen : nat)
  : option (list byte) :=
  match decode src with
  | Some out => if (List.length out <=? dstlen)%nat then Some out else None
  | None => None
  end.

End Base64.

Module Sample.

(** Stand-ins for the OpenSSL and libidn calls, to run the module on
    concrete inputs: deterministic functions with the output lengths of the
    real ones.  Nothing below is proved from what they compute. *)
Definition md_size (m : EVP_MD) : nat :=
  match m with
  | EVP_sha1 => SHA_DIGEST_LENGTH
  | EVP_sha256 => SHA256_DIGEST_LENGTH
  | EVP_sha512 => SHA512_DIGEST_LENGTH
  end.

Definition mix (seed : N) (data : list byte) : N :=
  fold_left (fun acc b => (acc * 31 + Byte.to_N b + 7) mod 65521)%N
    data seed.

Definition digest (m : EVP_MD) (data : list byte) : list byte :=
  map (fun i => Base64.byte_of_N (mix (N.of_nat i + 1) data))
    (seq 0 (md_size m)).

Definition hmac (m : EVP_MD) (key msg : list byte) : option (list byte) :=
  Some (digest m (key ++ x36 :: msg)).

Definition pbkdf2 (pass : string) (salt : list byte) (iter : Z) (m : EVP_MD)
    (keylen : nat) : option (list byte) :=
  Some (firstn keylen
          (digest m (list_byte_of_string pass ++ x5c :: salt
                     ++ [Base64.byte_of_N (Z.to_N iter)]))).

(** A stand-in for the SASLprep profile: SOFT HYPHEN (UTF-8 [C2 AD]) is
    mapped to nothing, ASCII control characters are prohibited. *)
Fixpoint saslprep (s : string) : option string :=
  match s with
  | EmptyString => Some EmptyString
  | String c1 rest =>
      let keep :=
        if (nat_of_ascii c1 <? 32)%nat then None
        else option_map (String c1) (saslprep rest) in
      match rest with
      | String c2 rest' =>
          if (Ascii.eqb c1 (ascii_of_nat 194)
              && Ascii.eqb c2 (ascii_of_nat 173))%bool
          then saslprep rest' else keep
      | EmptyString => keep
      end
  end.

Definition env : Env :=
  {| HMAC := hmac;
     EVP_Digest := fun data m => Some (digest m data);
     PKCS5_PBKDF2_HMAC := pbkdf2;
     base64_encode := Base64.base64_encode;
     base64_decode := Base64.base64_decode;
     stringprep_saslprep := fun s maxlen =>
       match saslprep s with
       | Some out => if (String.length out <? maxlen)%nat then Some out
                     else None
       | None => None
       end |}.

Definition cfg (prf : Z) : config :=
  {| pbkdf2v2_rounds := 64000; pbkdf2v2_digest := prf |}.

End Sample.

(** Encode: a salt record from the salt generator, then [crypt] of the
    password with it. *)
Definition encode_password (h : Header) (E : Env) (cfg : config)
    (rawsalt : list byte) (password : string) : option string :=
  match atheme_pbkdf2v2_salt h E cfg rawsalt with
  | Some parameters => result (atheme_pbkdf2v2_crypt h E password parameters)
  | None => None
  end.

(** The identifiers with a base64 salt. *)
Definition is_s64 (h : Header) (x : Z) : Prop :=
  In x [PBKDF2_PRF_HMAC_SHA1_S64 h; PBKDF2_PRF_HMAC_SHA2_256_S64 h;
        PBKDF2_PRF_HMAC_SHA2_512_S64 h; PBKDF2_PRF_SCRAM_SHA1_S64 h;
        PBKDF2_PRF_SCRAM_SHA2_256_S64 h; PBKDF2_PRF_SCRAM_SHA2_512_S64 h].

(** [Verify] as the specification words it: a record of the SCRAM shape is
    decided by the StoredKey, [Digest(HMAC(derived_key, "Client Key"))],
    against the record's StoredKey field; a record of the HMAC shape by the
    PBKDF2 digest against the decoded stored digest. *)
Definition verify_by_stored_key (h : Header) (E : Env)
    (password parameters : string) : bool :=
  match result (atheme_pbkdf2v2_compute h E password parameters true),
        compute_match h parameters true with
  | Some parsed, Some (true, _, _, _, _, _) =>
      match result (atheme_pbkdf2v2_scram_derive E parsed false true) with
      | Some (_, chk) => memcmp_eq (shk parsed) chk (dl parsed)
      | None => false
      end
  | Some parsed, Some (false, _, _, _, _, _) =>
      memcmp_eq (sdg parsed) (cdg parsed) (dl parsed)
  | _, _ => false
  end.

(** The two identifiers of SCRAM-SHA-512. *)
Definition is_scram_sha512 (h : Header) (x : Z) : Prop :=
  x = PBKDF2_PRF_SCRAM_SHA2_512 h \/ x = PBKDF2_PRF_SCRAM_SHA2_512_S64 h.

(** The four identifiers of SHA-512. *)
Definition is_sha512 (h : Header) (x : Z) : Prop :=
  x = PBKDF2_PRF_HMAC_SHA2_512 h \/ x = PBKDF2_PRF_HMAC_SHA2_512_S64 h
  \/ is_scram_sha512 h x.

Definition is_sha1 (h : Header) (x : Z) : Prop :=
  In x [PBKDF2_PRF_HMAC_SHA1 h; PBKDF2_PRF_HMAC_SHA1_S64 h;
        PBKDF2_PRF_SCRAM_SHA1 h; PBKDF2_PRF_SCRAM_SHA1_S64 h].

Definition is_sha256 (h : Header) (x : Z) : Prop :=
  In x [PBKDF2_PRF_HMAC_SHA2_256 h; PBKDF2_PRF_HMAC_SHA2_256_S64 h;
        PBKDF2_PRF_SCRAM_SHA2_256 h; PBKDF2_PRF_SCRAM_SHA2_256_S64 h].

(** The credential an event was raised for. *)
Definition event_parsed (e : event) : pbkdf2v2_parameters :=
  match e with
  | EvHMAC p _ => p
  | EvDigest p _ => p
  | EvPBKDF2 _ p => p
  end.

Definition is_pbkdf2 (e : event) : bool :=
  match e with
  | EvPBKDF2 _ _ => true
  | _ => false
  end.

(** The entry points that reach a cryptographic computation. *)
Inductive entry :=
| Compute_ (password parameters : string) (verifying : bool)
| Dbextract (stack : locals) (parameters : string)
| Crypt (password parameters : string)
| Verify (password parameters : string).

Definition entry_trace (h : Header) (E : Env) (x : entry) : list event :=
  match x with
  | Compute_ pw ps v => trace (atheme_pbkdf2v2_compute h E pw ps v)
  | Dbextract st ps => trace (atheme_pbkdf2v2_scram_dbextract h E st ps)
  | Crypt pw ps => trace (atheme_pbkdf2v2_crypt h E pw ps)
  | Verify pw ps => fst (atheme_pbkdf2v2_verify h E pw ps)
  end.

(** A text field that does not base64-decode to exactly [len] bytes. *)
Definition field_garbled (E : Env) (src : string) (len : nat) : Prop :=
  match base64_decode E src EVP_MAX_MD_SIZE with
  | Some raw => List.length raw <> len
  | None => True
  end.

(** A base64 salt that does not decode, or a salt whose length, decoded
    if it is base64, is out of bounds. *)
Definition salt_garbled (h : Header) (E : Env) (is_base64 : bool)
    (src : string) : Prop :=
  if is_base64 then
    match base64_decode E src (SALT_BUFSIZE h) with
    | Some raw =>
        ~ (PBKDF2_SALTLEN_MIN h <= List.length raw
           <= PBKDF2_SALTLEN_MAX h)%nat
    | None => True
    end
  else ~ (PBKDF2_SALTLEN_MIN h <= strlen src <= PBKDF2_SALTLEN_MAX h)%nat.

(** A stored record with a truncated or garbled field: none of the two
    stored shapes matches it (as for a record of the salt-only shape), its
    PRF id is not a known one, or its salt, one of its two keys (SCRAM
    shape) or its digest (HMAC shape) is garbled. *)
Definition garbled (h : Header) (E : Env) (parameters : string) : Prop :=
  match compute_match h parameters true with
  | None => True
  | Some (matched_ssk_shk, p0, salt64_, sdg64, ssk64, shk64) =>
      match atheme_pbkdf2v2_determine_prf h p0 with
      | None => True
      | Some p =>
          salt_garbled h E (salt64 p) salt64_
          \/ (if matched_ssk_shk : bool
              then field_garbled E ssk64 (dl p)
                   \/ field_garbled E shk64 (dl p)
              else field_garbled E sdg64 (dl p))
      end
  end.

(** U+00AD SOFT HYPHEN in UTF-8, a password SASLprep maps to nothing. *)
Definition soft_hyphen : string :=
  String (ascii_of_nat 194) (String (ascii_of_nat 173) EmptyString).

(* ------------------------------------------------------------------ *)
(** ** Identifier classes and record fields *)

(** [EVP_MD_size]: the length of a digest in bytes. *)
Definition EVP_MD_size (m : EVP_MD) : nat :=
  match m with
  | EVP_sha1 => SHA_DIGEST_LENGTH
  | EVP_sha256 => SHA256_DIGEST_LENGTH
  | EVP_sha512 => SHA512_DIGEST_LENGTH
  end.

(** The identifiers of the SCRAM record format. *)
Definition is_scram_id (h : Header) (x : Z) : Prop :=
  In x [PBKDF2_PRF_SCRAM_SHA1 h; PBKDF2_PRF_SCRAM_SHA1_S64 h;
        PBKDF2_PRF_SCRAM_SHA2_256 h; PBKDF2_PRF_SCRAM_SHA2_256_S64 h;
        PBKDF2_PRF_SCRAM_SHA2_512 h; PBKDF2_PRF_SCRAM_SHA2_512_S64 h].

(** A value that fits an [unsigned int]. *)
Definition is_uint (x : Z) : Prop := 0 <= x < 2 ^ 32.

(** A text field of a record: not empty, of characters of the scanset. *)
Definition is_field (s : string) : Prop :=
  s <> "" /\ forallb PBKDF2_FN_BASE64 (list_ascii_of_string s) = true.

(** What the steps of [atheme_pbkdf2v2_scram_dbextract] other than its
    switch on the PRF id need in order to succeed, for the credential [p]
    the PRF resolver returned and the arrays [l] as [sscanf] left them:
    the salt decodes (when it is base64) and passes the sanity check with
    the iteration count, and either the two key fields decode to the
    digest length (SCRAM PRF) or the digest field does and the three
    calls of the key derivation succeed (HMAC PRF). *)
Definition dbextract_ready (h : Header) (E : Env) (p : pbkdf2v2_parameters)
    (l : locals) : Prop :=
  (if salt64 p
   then exists raw,
          base64_decode E (salt64_ l) (SALT_BUFSIZE h) = Some raw
          /\ atheme_pbkdf2v2_parameters_sane h (set_sl (List.length raw) p)
             = true
   else atheme_pbkdf2v2_parameters_sane h (set_sl (strlen (salt64_ l)) p)
        = true)
  /\ (if scram p
      then (exists r1, base64_decode E (ssk64 l) EVP_MAX_MD_SIZE = Some r1
                       /\ List.length r1 = dl p)
           /\ (exists r2, base64_decode E (shk64 l) EVP_MAX_MD_SIZE = Some r2
                          /\ List.length r2 = dl p)
      else exists raw m csk cck chk,
             base64_decode E (sdg64 l) EVP_MAX_MD_SIZE = Some raw
             /\ List.length raw = dl p
             /\ md p = Some m
             /\ HMAC E m raw ServerKeyStr = Some csk
             /\ HMAC E m raw ClientKeyStr = Some cck
             /\ EVP_Digest E (firstn (dl p) cck) m = Some chk).

(* ------------------------------------------------------------------ *)
(** ** Logged computations: inversion *)

Lemma result_bind_Some {A B} (m : M A) (f : A -> M B) (y : B) :
  result (bind m f) = Some y <->
  exists x, result m = Some x /\ result (f x) = Some y.
Proof.
  unfold result, bind. destruct m as [t [x|]]; simpl.
  - destruct (f x) as [t' r] eqn:Hf; simpl. split.
    + intros ->. exists x. rewrite Hf. auto.
    + intros (x' & Hx & Hy). inversion Hx; subst. rewrite Hf in Hy. exact Hy.
  - split; [discriminate | intros (x & Hx & _); discriminate].
Qed.

Lemma result_bind_None {A B} (m : M A) (f : A -> M B) :
  result m = None -> result (bind m f) = None.
Proof. unfold result, bind. destruct m as [t [x|]]; simpl; congruence. Qed.

Lemma trace_bind {A B} (m : M A) (f : A -> M B) (e : event) :
  In e (trace (bind m f)) ->
  In e (trace m) \/ exists x, result m = Some x /\ In e (trace (f x)).
Proof.
  unfold trace, result, bind. destruct m as [t [x|]]; simpl; auto.
  destruct (f x) as [t' r] eqn:Hf; simpl. intros Hin.
  apply in_app_or in Hin as [Hin | Hin]; auto.
  right. exists x. rewrite Hf. auto.
Qed.

Lemma trace_lift {A} (o : option A) : trace (lift o) = [].
Proof. reflexivity. Qed.

Lemma check_Some {A} (b : bool) (m : M A) (y : A) :
  result (if b then m else fail) = Some y -> b = true /\ result m = Some y.
Proof. destruct b; simpl; [auto | discriminate]. Qed.

(** Pairwise difference of the identifiers of a well-formed header. *)
Ltac distinct_ids Hok :=
  unfold header_ok, prf_ids in Hok;
  repeat match type of Hok with
         | NoDup (_ :: _) =>
             let Hn := fresh "Hn" in
             apply NoDup_cons_iff in Hok as [Hn Hok]; simpl in Hn
         end;
  repeat match goal with
         | Hn : ~ (_ \/ _) |- _ =>
             let Hd := fresh "Hd" in
             apply Decidable.not_or in Hn as [Hd Hn]
         end.

Ltac eqb_ids :=
  repeat match goal with
         | |- context [Z.eqb ?x ?x] => rewrite (Z.eqb_refl x)
         | Hd : ?x <> ?y |- context [Z.eqb ?x ?y] =>
             rewrite (proj2 (Z.eqb_neq x y) Hd)
         | Hd : ?y <> ?x |- context [Z.eqb ?x ?y] =>
             rewrite (proj2 (Z.eqb_neq x y) (not_eq_sym Hd))
         end.

(* ------------------------------------------------------------------ *)
(** ** The recrypt advisor *)

(** C3, as the code has it by design: [AdviseRecrypt] returns false when
    the salt-only parse of the record's first three fields fails; when
    the parse succeeds it returns true whenever the PRF id or the
    iteration count differs from the configured default, and false only
    if both are the configured ones. *)
Theorem recrypt_guard_and_defaults (h : Header) (cfg : config)
    (parameters : string) :
  (stored3 (Scan.sscanf PBKDF2_FN_LOADSALT parameters) = None ->
   atheme_pbkdf2v2_recrypt h cfg parameters = false)
  /\ forall prf iter salt,
       stored3 (Scan.sscanf PBKDF2_FN_LOADSALT parameters)
       = Some (prf, iter, salt) ->
       (prf <> pbkdf2v2_digest cfg \/ iter <> pbkdf2v2_rounds cfg ->
        atheme_pbkdf2v2_recrypt h cfg parameters = true)
       /\ (atheme_pbkdf2v2_recrypt h cfg parameters = false ->
           prf = pbkdf2v2_digest cfg /\ iter = pbkdf2v2_rounds cfg).
Proof.
  unfold atheme_pbkdf2v2_recrypt. split.
  - intros ->. reflexivity.
  - intros prf iter salt ->.
    destruct (Z.eqb_spec prf (pbkdf2v2_digest cfg)) as [Hp|Hp];
      destruct (Z.eqb_spec iter (pbkdf2v2_rounds cfg)) as [Hi|Hi];
      simpl; split; try tauto; try discriminate; try reflexivity.
Qed.

Lemma recrypt_guard_and_defaults_witness :
  atheme_pbkdf2v2_recrypt atheme_header (Sample.cfg 26) "$z$26$64000$"
  = false
  /\ atheme_pbkdf2v2_recrypt atheme_header (Sample.cfg 26)
       "$z$25$64000$QUJDREVGR0hJSktMTU5PUA==$bBO6YRe+ZQzCaRC3bRS7Ygm/Zg20ahG4XxW8YwqxZw4="
     = true
  /\ atheme_pbkdf2v2_recrypt atheme_header (Sample.cfg 25)
       "$z$25$10000$QUJDREVGR0hJSktMTU5PUA==$bBO6YRe+ZQzCaRC3bRS7Ygm/Zg20ahG4XxW8YwqxZw4="
     = true.
Proof.
  split; [|split].
  - apply (recrypt_guard_and_defaults atheme_header (Sample.cfg 26)
             "$z$26$64000$").
    vm_compute. reflexivity.
  - apply (proj2 (recrypt_guard_and_defaults atheme_header (Sample.cfg 26)
                    "$z$25$64000$QUJDREVGR0hJSktMTU5PUA==$bBO6YRe+ZQzCaRC3bRS7Ygm/Zg20ahG4XxW8YwqxZw4=")
             25 64000 "QUJDREVGR0hJSktMTU5PUA==").
    + vm_compute. reflexivity.
    + left. discriminate.
  - apply (proj2 (recrypt_guard_and_defaults atheme_header (Sample.cfg 25)
                    "$z$25$10000$QUJDREVGR0hJSktMTU5PUA==$bBO6YRe+ZQzCaRC3bRS7Ygm/Zg20ahG4XxW8YwqxZw4=")
             25 10000 "QUJDREVGR0hJSktMTU5PUA==").
    + vm_compute. reflexivity.
    + right. discriminate.
Defined.

(** A record cut off after its iteration count does not parse, and the
    advisor answers false for it. *)
Lemma recrypt_unparsable_false :
  stored3 (Scan.sscanf PBKDF2_FN_LOADSALT "$z$26$64000$") = None
  /\ atheme_pbkdf2v2_recrypt atheme_header (Sample.cfg 26) "$z$26$64000$"
     = false.
Proof. split; vm_compute; reflexivity. Qed.

(* ------------------------------------------------------------------ *)
(** ** The PRF resolver and the configuration handler *)

Lemma determine_prf_scram_sha512 (h : Header) (Hok : header_ok h)
    (parsed : pbkdf2v2_parameters) :
  is_scram_sha512 h (a parsed) ->
  exists p, atheme_pbkdf2v2_determine_prf h parsed = Some p
            /\ md p = Some EVP_sha512 /\ dl p = SHA512_DIGEST_LENGTH
            /\ scram p = true /\ a p = a parsed.
Proof.
  distinct_ids Hok.
  intros [Ha | Ha]; unfold atheme_pbkdf2v2_determine_prf, case_of;
    rewrite Ha; simpl; eqb_ids; simpl; eqb_ids; simpl;
    eexists; (split; [reflexivity|]); simpl; auto.
Qed.

Lemma c_ci_pbkdf2v2_digest_values (h : Header) (v : option string)
    (cfg : config) :
  In (pbkdf2v2_digest (c_ci_pbkdf2v2_digest h v cfg))
     [pbkdf2v2_digest cfg; PBKDF2_PRF_HMAC_SHA1_S64 h;
      PBKDF2_PRF_HMAC_SHA2_256_S64 h; PBKDF2_PRF_HMAC_SHA2_512_S64 h;
      PBKDF2_PRF_SCRAM_SHA1_S64 h; PBKDF2_PRF_SCRAM_SHA2_256_S64 h;
      PBKDF2_DIGEST_DEF h].
Proof.
  unfold c_ci_pbkdf2v2_digest. destruct v as [v|]; [|simpl; auto].
  repeat match goal with
         | |- context [if ?b then _ else _] => destruct b
         end; simpl; auto 10.
Qed.

(** C4, as the code has it: the PRF resolver accepts both SCRAM-SHA-512
    identifiers, resolving them to SHA-512 with its digest length and the
    SCRAM flag set; SCRAM-SHA-512 is withheld at the configuration surface
    only: when the built-in default is not a SCRAM-SHA-512 identifier, the
    DIGEST handler never installs one. *)
Theorem scram_sha512_resolved_not_configured (h : Header)
    (Hok : header_ok h)
    (Hdef : ~ is_scram_sha512 h (PBKDF2_DIGEST_DEF h)) :
  (forall parsed, is_scram_sha512 h (a parsed) ->
     exists p, atheme_pbkdf2v2_determine_prf h parsed = Some p
               /\ md p = Some EVP_sha512 /\ dl p = SHA512_DIGEST_LENGTH
               /\ scram p = true)
  /\ (forall v cfg, ~ is_scram_sha512 h (pbkdf2v2_digest cfg) ->
        ~ is_scram_sha512 h (pbkdf2v2_digest (c_ci_pbkdf2v2_digest h v cfg))).
Proof.
  split.
  - intros parsed Ha.
    destruct (determine_prf_scram_sha512 h Hok parsed Ha)
      as (p & Hp & Hmd & Hdl & Hs & _).
    exists p. auto.
  - intros v cfg Hcfg Hbad.
    pose proof (c_ci_pbkdf2v2_digest_values h v cfg) as Hin.
    distinct_ids Hok. unfold is_scram_sha512 in *. simpl in Hin.
    destruct Hin as [Hin|[Hin|[Hin|[Hin|[Hin|[Hin|[Hin|[]]]]]]]];
      rewrite <- Hin in Hbad; try tauto; destruct Hbad; congruence.
Qed.

Lemma atheme_header_ok : header_ok atheme_header.
Proof.
  unfold header_ok, prf_ids; simpl.
  repeat (apply NoDup_cons; [simpl; intuition discriminate|]).
  apply NoDup_nil.
Qed.

Lemma scram_sha512_resolved_not_configured_witness :
  (exists p, atheme_pbkdf2v2_determine_prf atheme_header
               (set_a 66 (zero_parameters atheme_header)) = Some p
             /\ md p = Some EVP_sha512 /\ dl p = SHA512_DIGEST_LENGTH
             /\ scram p = true)
  /\ ~ is_scram_sha512 atheme_header
         (pbkdf2v2_digest
            (c_ci_pbkdf2v2_digest atheme_header (Some "SCRAM-SHA512")
               (initial_config atheme_header))).
Proof.
  assert (Hdef : ~ is_scram_sha512 atheme_header
                     (PBKDF2_DIGEST_DEF atheme_header)).
  { unfold is_scram_sha512; simpl; intuition discriminate. }
  destruct (scram_sha512_resolved_not_configured atheme_header
              atheme_header_ok Hdef) as [H1 H2].
  split.
  - apply H1. right. reflexivity.
  - apply H2. exact Hdef.
Defined.

(** The resolver succeeds on the identifier of SCRAM-SHA-512. *)
Lemma determine_prf_accepts_scram_sha512 :
  exists p,
    atheme_pbkdf2v2_determine_prf atheme_header
      (set_a (PBKDF2_PRF_SCRAM_SHA2_512 atheme_header)
         (zero_parameters atheme_header)) = Some p
    /\ scram p = true /\ md p = Some EVP_sha512.
Proof. eexists. split; [vm_compute; reflexivity|]. split; reflexivity. Qed.

(* ------------------------------------------------------------------ *)
(** ** The SCRAM key deriver *)

(** C5: for every digest kind and derived key (the first [dl] bytes of
    [cdg]), the deriver computes the ServerKey as HMAC keyed with the
    derived key over the ASCII text "Server Key" and the StoredKey as the
    digest of the HMAC, keyed with the same derived key, over "Client Key";
    each output can be requested alone, and then only its own calls are
    made. *)
Theorem scram_derive_rfc5802 (E : Env) (m : EVP_MD)
    (parsed0 : pbkdf2v2_parameters) :
  let parsed := set_md (Some m) parsed0 in
  let key := firstn (dl parsed) (cdg parsed) in
  let server_key := HMAC E m key (list_byte_of_string "Server Key") in
  let client_key := HMAC E m key (list_byte_of_string "Client Key") in
  let stored_key :=
    match client_key with
    | Some cck => EVP_Digest E (firstn (dl parsed) cck) m
    | None => None
    end in
  (forall csk chk,
     result (atheme_pbkdf2v2_scram_derive E parsed true true)
     = Some (csk, chk)
     <-> server_key = Some csk /\ stored_key = Some chk)
  /\ (forall csk chk,
        result (atheme_pbkdf2v2_scram_derive E parsed true false)
        = Some (csk, chk)
        <-> server_key = Some csk /\ chk = [])
  /\ (forall csk chk,
        result (atheme_pbkdf2v2_scram_derive E parsed false true)
        = Some (csk, chk)
        <-> csk = [] /\ stored_key = Some chk)
  /\ trace (atheme_pbkdf2v2_scram_derive E parsed true false)
     = [EvHMAC parsed ServerKeyStr]
  /\ (forall e,
        In e (trace (atheme_pbkdf2v2_scram_derive E parsed false true)) ->
        e <> EvHMAC parsed ServerKeyStr).
Proof.
  intros parsed key server_key client_key stored_key.
  subst stored_key client_key server_key key.
  change (list_byte_of_string "Server Key") with ServerKeyStr.
  change (list_byte_of_string "Client Key") with ClientKeyStr.
  unfold atheme_pbkdf2v2_scram_derive, hmac_cdg, digest_of, bind, call, ret,
    result, trace.
  change (md parsed) with (Some m). cbv iota.
  set (server_key := HMAC E m _ ServerKeyStr).
  set (client_key := HMAC E m _ ClientKeyStr).
  clearbody server_key client_key.
  split; [|split; [|split; [|split]]].
  - intros csk chk.
    destruct server_key as [k|]; simpl; [|intuition discriminate].
    destruct client_key as [cck|]; simpl; [|intuition discriminate].
    destruct (EVP_Digest E _ m); simpl; [|intuition discriminate].
    split; [intros H; inversion H; auto|].
    intros [Hs Hc]. inversion Hs; inversion Hc; reflexivity.
  - intros csk chk.
    destruct server_key as [k|]; simpl; [|intuition discriminate].
    split; [intros H; inversion H; auto|].
    intros [Hs ->]. inversion Hs; reflexivity.
  - intros csk chk.
    destruct client_key as [cck|]; simpl; [|intuition discriminate].
    destruct (EVP_Digest E _ m); simpl; [|intuition discriminate].
    split; [intros H; inversion H; auto|].
    intros [-> Hc]. inversion Hc; reflexivity.
  - destruct server_key; reflexivity.
  - intros e Hin He. subst e.
    destruct client_key as [cck|]; simpl in Hin.
    + destruct (EVP_Digest E _ m); simpl in Hin;
        destruct Hin as [H|[H|[]]]; discriminate.
    + destruct Hin as [H|[]]. discriminate.
Qed.

(* ------------------------------------------------------------------ *)
(** ** Parameters are validated before any cryptographic call *)

Ltac destruct_inner :=
  match goal with
  | |- context [match ?x with _ => _ end] =>
      lazymatch x with
      | context [match _ with _ => _ end] => fail
      | _ => destruct x eqn:?
      end
  end.

Ltac by_sanity :=
  match goal with
  | Hs : atheme_pbkdf2v2_parameters_sane _ _ = true |- _ => exact Hs
  end.

Lemma parameters_sane_bounds (h : Header) (p : pbkdf2v2_parameters) :
  atheme_pbkdf2v2_parameters_sane h p = true <->
  (PBKDF2_SALTLEN_MIN h <= sl p <= PBKDF2_SALTLEN_MAX h)%nat
  /\ PBKDF2_ITERCNT_MIN h <= c p <= PBKDF2_ITERCNT_MAX h.
Proof.
  unfold atheme_pbkdf2v2_parameters_sane.
  destruct (Nat.ltb_spec (sl p) (PBKDF2_SALTLEN_MIN h));
    destruct (Nat.ltb_spec (PBKDF2_SALTLEN_MAX h) (sl p));
    destruct (Z.ltb_spec (c p) (PBKDF2_ITERCNT_MIN h));
    destruct (Z.ltb_spec (PBKDF2_ITERCNT_MAX h) (c p));
    simpl; split; intros; try discriminate; try lia; auto.
Qed.

Lemma compute_trace_sane (h : Header) (E : Env) (pw ps : string) (v : bool)
    (e : event) :
  In e (trace (atheme_pbkdf2v2_compute h E pw ps v)) ->
  atheme_pbkdf2v2_parameters_sane h (event_parsed e) = true.
Proof.
  unfold atheme_pbkdf2v2_compute, trace, bind, lift, ret, fail, call,
    decode_exact.
  repeat (destruct_inner; simpl; try tauto).
  all: intros [<-|[]]; simpl; by_sanity.
Qed.

Lemma compute_result_sane (h : Header) (E : Env) (pw ps : string) (v : bool)
    (parsed : pbkdf2v2_parameters) :
  result (atheme_pbkdf2v2_compute h E pw ps v) = Some parsed ->
  atheme_pbkdf2v2_parameters_sane h parsed = true.
Proof.
  unfold atheme_pbkdf2v2_compute, result, bind, lift, ret, fail, call,
    decode_exact.
  repeat (destruct_inner; simpl; try discriminate).
  all: intros H; inversion H; subst; simpl; by_sanity.
Qed.

Lemma scram_derive_trace_parsed (E : Env) (p : pbkdf2v2_parameters)
    (csk chk : bool) (e : event) :
  In e (trace (atheme_pbkdf2v2_scram_derive E p csk chk)) ->
  event_parsed e = p /\ is_pbkdf2 e = false.
Proof.
  unfold atheme_pbkdf2v2_scram_derive, hmac_cdg, digest_of, trace, bind,
    call, ret.
  destruct csk, chk; simpl;
    repeat (destruct_inner; simpl; try tauto);
    intuition (subst; auto).
Qed.

Lemma dbextract_trace_sane (h : Header) (E : Env) (stack : locals)
    (ps : string) (e : event) :
  In e (trace (atheme_pbkdf2v2_scram_dbextract h E stack ps)) ->
  atheme_pbkdf2v2_parameters_sane h (event_parsed e) = true
  /\ is_pbkdf2 e = false.
Proof.
  unfold atheme_pbkdf2v2_scram_dbextract, atheme_pbkdf2v2_scram_derive,
    hmac_cdg, digest_of, trace, bind, lift, ret, fail, call, decode_exact.
  repeat (destruct_inner; simpl; try tauto).
  all: intuition (subst; simpl; auto; try by_sanity).
Qed.

(** C6: in every execution of the credential computer, of the dbextract
    entry point, and of [crypt] and [verify], which derive SCRAM keys from
    what the computer returns, every cryptographic call (PBKDF2, and the
    HMAC and digest calls of the SCRAM key derivation) is made for a
    credential whose salt length lies in [SALTLEN_MIN, SALTLEN_MAX] and
    whose iteration count lies in [ITERCNT_MIN, ITERCNT_MAX]. *)
Theorem crypto_calls_validated (h : Header) (E : Env) (x : entry)
    (e : event) :
  In e (entry_trace h E x) ->
  (PBKDF2_SALTLEN_MIN h <= sl (event_parsed e) <= PBKDF2_SALTLEN_MAX h)%nat
  /\ PBKDF2_ITERCNT_MIN h <= c (event_parsed e) <= PBKDF2_ITERCNT_MAX h.
Proof.
  intros Hin. apply parameters_sane_bounds.
  destruct x as [pw ps v | st ps | pw ps | pw ps]; simpl in Hin.
  - eapply compute_trace_sane; eauto.
  - eapply dbextract_trace_sane; eauto.
  - unfold atheme_pbkdf2v2_crypt in Hin.
    apply trace_bind in Hin as [Hin | (p & Hp & Hin)].
    + eapply compute_trace_sane; eauto.
    + apply compute_result_sane in Hp.
      destruct (scram p).
      * apply trace_bind in Hin as [Hin | ([csk chk] & _ & Hin)].
        -- apply scram_derive_trace_parsed in Hin as [-> _]. exact Hp.
        -- revert Hin. unfold trace, bind, lift, ret, fail.
           repeat (destruct_inner; simpl; try tauto).
      * revert Hin. unfold trace, bind, lift, ret, fail.
        repeat (destruct_inner; simpl; try tauto).
  - unfold atheme_pbkdf2v2_verify in Hin.
    destruct (atheme_pbkdf2v2_compute h E pw ps true) as [t [p|]] eqn:Hc.
    + assert (Ht : forall e', In e' t ->
                atheme_pbkdf2v2_parameters_sane h (event_parsed e') = true).
      { intros e' He'. apply (compute_trace_sane h E pw ps true).
        rewrite Hc. exact He'. }
      assert (Hp : atheme_pbkdf2v2_parameters_sane h p = true).
      { apply (compute_result_sane h E pw ps true). rewrite Hc. reflexivity. }
      destruct (scram p); [|simpl in Hin; auto].
      destruct (atheme_pbkdf2v2_scram_derive E p true false)
        as [t' r] eqn:Hd.
      assert (Hin' : In e (t ++ t')).
      { destruct r as [[csk chk]|]; exact Hin. }
      apply in_app_or in Hin' as [Hin' | Hin']; auto.
      assert (Hev : event_parsed e = p).
      { apply (scram_derive_trace_parsed E p true false).
        rewrite Hd. exact Hin'. }
      rewrite Hev. exact Hp.
    + simpl in Hin. apply (compute_trace_sane h E pw ps true).
      rewrite Hc. exact Hin.
Qed.

Lemma crypto_calls_validated_witness :
  match entry_trace atheme_header Sample.env
          (Compute_ "correct horse"
             "$z$25$64000$QUJDREVGR0hJSktMTU5PUA==$bBO6YRe+ZQzCaRC3bRS7Ygm/Zg20ahG4XxW8YwqxZw4="
             true) with
  | e :: _ =>
      is_pbkdf2 e = true
      /\ (8 <= sl (event_parsed e) <= 64)%nat
      /\ 10000 <= c (event_parsed e) <= 5000000
  | [] => False
  end.
Proof.
  pose proof (crypto_calls_validated atheme_header Sample.env
                (Compute_ "correct horse"
                   "$z$25$64000$QUJDREVGR0hJSktMTU5PUA==$bBO6YRe+ZQzCaRC3bRS7Ygm/Zg20ahG4XxW8YwqxZw4="
                   true)) as H.
  destruct (entry_trace _ _ _) as [|e t] eqn:Ht.
  - vm_compute in Ht. discriminate.
  - split.
    + vm_compute in Ht. inversion Ht. reflexivity.
    + apply H. left. reflexivity.
Defined.

(* ------------------------------------------------------------------ *)
(** ** The empty-password check follows normalization *)

(** C10: in a build with libidn, for a record whose PRF is a SCRAM one,
    a password that SASLprep normalizes to the empty string makes the
    credential computer fail, and no cryptographic call is made: the
    emptiness test is on the normalized text. *)
Theorem normalized_empty_password_rejected (h : Header) (E : Env)
    (password parameters : string) (verifying : bool)
    (matched_ssk_shk : bool) (p0 p : pbkdf2v2_parameters)
    (s d k1 k2 : string) :
  HAVE_LIBIDN h = true ->
  compute_match h parameters verifying
  = Some (matched_ssk_shk, p0, s, d, k1, k2) ->
  atheme_pbkdf2v2_determine_prf h p0 = Some p ->
  scram p = true ->
  atheme_pbkdf2v2_scram_normalize h E password = Some "" ->
  atheme_pbkdf2v2_compute h E password parameters verifying = ([], None).
Proof.
  intros Hidn Hm Hprf Hscram Hnorm.
  unfold atheme_pbkdf2v2_compute.
  rewrite Hm. unfold bind, lift at 1. cbv iota beta.
  rewrite Hprf. unfold lift at 1. cbv iota beta.
  rewrite Hidn, Hscram, Hnorm. unfold lift. cbv iota beta. simpl andb.
  cbv iota.
  repeat (destruct_inner; simpl; try reflexivity).
Qed.

Lemma normalized_empty_password_rejected_witness :
  soft_hyphen <> ""
  /\ atheme_pbkdf2v2_compute atheme_header Sample.env soft_hyphen
       "$z$44$64000$c2FsdHNhbHRzYWx0$TmiRuuP9Jk9pkrvk/idQapO85f8=$xOoQNlyCqM70GkBmjLLY/iRKcJY="
       true
     = ([], None).
Proof.
  split; [discriminate|].
  eapply normalized_empty_password_rejected.
  - reflexivity.
  - vm_compute. reflexivity.
  - vm_compute. reflexivity.
  - reflexivity.
  - vm_compute. reflexivity.
Defined.

(* ------------------------------------------------------------------ *)
(** ** Garbled records verify as false *)

(** While no array is overrun, a record with a truncated or garbled
    field makes [verify] return false before any cryptographic call. *)
Lemma verify_garbled_in_bounds (h : Header) (E : Env)
    (password parameters : string) :
  garbled h E parameters ->
  atheme_pbkdf2v2_verify h E password parameters = ([], false).
Proof.
  unfold garbled, atheme_pbkdf2v2_verify, atheme_pbkdf2v2_compute.
  destruct (compute_match h parameters true)
    as [[[[[[matched p0] s] d] k1] k2]|]; [|reflexivity].
  unfold bind, lift at 1. cbv iota beta.
  destruct (atheme_pbkdf2v2_determine_prf h p0) as [p|]; [|reflexivity].
  unfold lift at 1. cbv iota beta.
  unfold salt_garbled, field_garbled, decode_exact, lift, ret, fail, call.
  intros Hg.
  destruct (HAVE_LIBIDN h && scram p)%bool;
    [destruct (atheme_pbkdf2v2_scram_normalize h E password) as [pw'|];
       [|reflexivity]|];
    cbv iota beta.
  all: destruct (salt64 p) eqn:Hs64.
  all: try destruct (base64_decode E s (SALT_BUFSIZE h)) as [raw|] eqn:Hraw;
    try reflexivity.
  all: try (destruct (atheme_pbkdf2v2_parameters_sane h _) eqn:Hsane;
            [|reflexivity]).
  all: try (apply parameters_sane_bounds in Hsane; simpl in Hsane).
  all: cbv iota beta.
  all: try (destruct (negb _); [|reflexivity]).
  all: destruct Hg as [Hg|Hg]; try tauto.
  all: destruct matched; simpl.
  all: repeat (destruct_inner; simpl; try reflexivity).
  all: try (destruct Hg as [Hg|Hg]).
  all: try contradiction.
  all: try (simpl in *;
            match goal with
            | Hl : (_ =? _)%nat = true |- _ =>
                apply Nat.eqb_eq in Hl; contradiction
            end).
Qed.

Lemma span_length (p : ascii -> bool) (s tok rest : string) :
  Scan.span p s = (tok, rest) ->
  (String.length tok + String.length rest = String.length s)%nat.
Proof.
  revert tok rest. induction s as [|x s IH]; intros tok rest; simpl.
  - intros [= <- <-]. reflexivity.
  - destruct (p x); [|intros [= <- <-]; reflexivity].
    destruct (Scan.span p s) as [tok' r']. intros [= <- <-]. simpl.
    f_equal. apply IH. reflexivity.
Qed.

Lemma skip_space_length (s : string) :
  (String.length (Scan.skip_space s) <= String.length s)%nat.
Proof.
  induction s as [|x s IH]; simpl; [lia|].
  destruct (Scan.is_space x); simpl; lia.
Qed.

Lemma scan_uint_length (s rest : string) (n : Z) :
  Scan.scan_uint s = Some (n, rest) ->
  (String.length rest <= String.length s)%nat.
Proof.
  unfold Scan.scan_uint. pose proof (skip_space_length s) as Hs.
  assert (Hsign : forall neg s2,
            match Scan.skip_space s with
            | String "-" r => (true, r)
            | String "+" r => (false, r)
            | _ => (false, Scan.skip_space s)
            end = (neg, s2) ->
            (String.length s2 <= String.length s)%nat).
  { intros neg s2. destruct (Scan.skip_space s) as [|ch r]; simpl in *.
    - intros [= _ <-]. simpl. lia.
    - destruct (Ascii.eqb_spec ch "-") as [->|Hm].
      + intros [= _ <-]. lia.
      + destruct (Ascii.eqb_spec ch "+") as [->|Hp].
        * intros [= _ <-]. lia.
        * destruct ch as [[] [] [] [] [] [] [] []]; intros [= _ <-];
            simpl; lia. }
  destruct (match Scan.skip_space s with
            | String "-" r => (true, r)
            | String "+" r => (false, r)
            | _ => (false, Scan.skip_space s)
            end) as [neg s2].
  specialize (Hsign neg s2 eq_refl).
  destruct (Scan.span Scan.is_digit s2) as [ds r] eqn:Hsp.
  apply span_length in Hsp.
  destruct ds; [discriminate|].
  match goal with
  | |- Some (?v, _) = _ -> _ => generalize v
  end.
  intros v [= _ <-]. lia.
Qed.

(** A record shorter than an array fits it field by field. *)
Lemma sscanf_stores_fit (n : nat) (fmt : list Scan.directive) :
  forall s, (strlen s < n)%nat -> stores_fit n (Scan.sscanf fmt s) = true.
Proof.
  unfold strlen.
  induction fmt as [|d fmt IH]; intros s Hs; simpl; [reflexivity|].
  destruct d as [ch | | allowed].
  - destruct s as [|ch' s']; [reflexivity|].
    destruct (Ascii.eqb ch ch'); [|reflexivity].
    apply IH. simpl in Hs. lia.
  - destruct (Scan.scan_uint s) as [[x s']|] eqn:Hu; [|reflexivity].
    apply scan_uint_length in Hu. simpl. apply IH. lia.
  - destruct (Scan.span allowed s) as [tok s'] eqn:Hsp.
    apply span_length in Hsp.
    destruct tok as [|c0 tok]; [reflexivity|].
    cbn [stores_fit forallb]. fold (stores_fit n (Scan.sscanf fmt s')).
    rewrite IH by lia. unfold strlen.
    destruct (Nat.ltb_spec (String.length (String c0 tok)) n);
      [reflexivity | lia].
Qed.

Lemma short_record_fits (parameters : string) (verifying : bool) :
  (strlen parameters < COMPUTE_FIELD_BUFSIZE)%nat ->
  compute_overruns parameters verifying = false.
Proof.
  intros Hs. unfold compute_overruns.
  rewrite !sscanf_stores_fit by assumption.
  destruct verifying; [|reflexivity].
  destruct (_ =? 5)%nat; reflexivity.
Qed.




(* ------------------------------------------------------------------ *)
(** ** What [sscanf] stores *)

Lemma sscanf_kinds (fmt : list Scan.directive) :
  forall s, exists rest,
    Scan.conv_kinds fmt = map Scan.kind (Scan.sscanf fmt s) ++ rest.
Proof.
  induction fmt as [|d fmt IH]; intros s; simpl.
  - exists []. reflexivity.
  - destruct d as [ch | | allowed].
    + destruct s as [|ch' s']; [eexists; reflexivity|].
      destruct (Ascii.eqb ch ch'); [apply IH | eexists; reflexivity].
    + destruct (Scan.scan_uint s) as [[n s']|]; [|eexists; reflexivity].
      destruct (IH s') as [rest Hr]. exists rest. simpl. rewrite Hr.
      reflexivity.
    + destruct (Scan.span allowed s) as [[|c0 tok] s'];
        [eexists; reflexivity|].
      destruct (IH s') as [rest Hr]. exists rest. simpl. rewrite Hr.
      reflexivity.
Qed.

(** A format that continues another one stores the same values first, and
    nothing more when the first format did not get through its
    conversions. *)
Lemma sscanf_app (f1 f2 : list Scan.directive) :
  forall s, exists tl,
    Scan.sscanf (f1 ++ f2) s = Scan.sscanf f1 s ++ tl
    /\ ((List.length (Scan.sscanf f1 s)
         < List.length (Scan.conv_kinds f1))%nat -> tl = []).
Proof.
  induction f1 as [|d f1 IH]; intros s; simpl.
  - exists (Scan.sscanf f2 s). split; [reflexivity | lia].
  - destruct d as [ch | | allowed].
    + destruct s as [|ch' s']; [exists []; auto|].
      destruct (Ascii.eqb ch ch'); [apply IH | exists []; auto].
    + destruct (Scan.scan_uint s) as [[n s']|]; [|exists []; auto].
      destruct (IH s') as (tl & Heq & Hlt). exists tl. simpl.
      rewrite Heq. split; [reflexivity | intros; apply Hlt; lia].
    + destruct (Scan.span allowed s) as [[|c0 tok] s']; [exists []; auto|].
      destruct (IH s') as (tl & Heq & Hlt). exists tl. simpl.
      rewrite Heq. split; [reflexivity | intros; apply Hlt; lia].
Qed.

(** A format that starts with the prefix and stores at least one value
    stores the record's PRF id first. *)
Lemma sscanf_prefix_prf (rest : list Scan.directive) (s : string)
    (v : Scan.value) (vs : list Scan.value) :
  Scan.sscanf (PBKDF2_FN_PREFIX ++ rest) s = v :: vs ->
  exists x, v = Scan.VUint x /\ record_prf s = Some x.
Proof.
  intros Hs. unfold record_prf.
  destruct (sscanf_app PBKDF2_FN_PREFIX rest s) as (tl & Heq & Hlt).
  destruct (sscanf_kinds PBKDF2_FN_PREFIX s) as (ks & Hk).
  rewrite Hs in Heq.
  destruct (Scan.sscanf PBKDF2_FN_PREFIX s) as [|v1 vs1].
  - simpl in Heq, Hlt. rewrite Hlt in Heq by (simpl; lia). discriminate.
  - simpl in Heq. inversion Heq; subst v1.
    destruct v as [x|str]; [exists x; auto | discriminate].
Qed.

Lemma store_fs_a (vs : list Scan.value) :
  forall n st, (1 <= n)%nat -> a (fst (store_fs vs n st)) = a (fst st).
Proof.
  induction vs as [|v vs IH]; intros n [p l] Hn; simpl; [reflexivity|].
  rewrite IH by lia.
  destruct n as [|[|[|[|[|n]]]]]; [lia| | | | |]; destruct v; reflexivity.
Qed.

Lemma store_fn_a (vs : list Scan.value) :
  forall n st, (1 <= n)%nat -> a (fst (store_fn vs n st)) = a (fst st).
Proof.
  induction vs as [|v vs IH]; intros n [p l] Hn; simpl; [reflexivity|].
  rewrite IH by lia.
  destruct n as [|[|[|[|n]]]]; [lia| | | |]; destruct v; reflexivity.
Qed.

Lemma dbextract_match_prf (h : Header) (stack : locals) (ps : string)
    (p0 : pbkdf2v2_parameters) (l : locals) :
  dbextract_match h stack ps = Some (p0, l) -> record_prf ps = Some (a p0).
Proof.
  unfold dbextract_match.
  remember (Scan.sscanf PBKDF2_FS_LOADHASH ps) as vs5 eqn:H5.
  remember (Scan.sscanf PBKDF2_FN_LOADHASH ps) as vs4 eqn:H4.
  symmetry in H5, H4. cbv zeta.
  destruct (List.length vs5 =? 5)%nat eqn:E5.
  - destruct vs5 as [|v5 vs5]; [discriminate E5|].
    destruct (sscanf_prefix_prf _ _ _ _ H5) as (x & -> & Hx).
    intros H; inversion H as [H1]. rewrite Hx. f_equal.
    change p0 with (fst (p0, l)). rewrite <- H1. simpl.
    rewrite store_fs_a by lia. reflexivity.
  - destruct (List.length vs4 =? 4)%nat eqn:E4; [|discriminate].
    destruct vs4 as [|v4 vs4]; [discriminate E4|].
    destruct (sscanf_prefix_prf _ _ _ _ H4) as (x & -> & Hx).
    intros H; inversion H as [H1]. rewrite Hx. f_equal.
    change p0 with (fst (p0, l)). rewrite <- H1. simpl.
    destruct (store_fs vs5 0 (zero_parameters h, stack)) as [p' l'].
    rewrite store_fn_a by lia. reflexivity.
Qed.

(* ------------------------------------------------------------------ *)
(** ** The database extractor *)

Lemma case_of_In (x : Z) (l : list Z) : case_of x l = true <-> In x l.
Proof.
  unfold case_of. rewrite existsb_exists. split.
  - intros (y & Hy & He). apply Z.eqb_eq in He. subst. exact Hy.
  - intros Hin. exists x. split; [exact Hin | apply Z.eqb_refl].
Qed.

Lemma determine_prf_a (h : Header) (p0 p : pbkdf2v2_parameters) :
  atheme_pbkdf2v2_determine_prf h p0 = Some p -> a p = a p0.
Proof.
  unfold atheme_pbkdf2v2_determine_prf.
  repeat (destruct_inner; simpl; try discriminate).
  all: intros H; inversion H; reflexivity.
Qed.

Lemma determine_prf_sha512 (h : Header) (Hok : header_ok h)
    (parsed : pbkdf2v2_parameters) :
  is_sha512 h (a parsed) ->
  exists p, atheme_pbkdf2v2_determine_prf h parsed = Some p
            /\ md p = Some EVP_sha512.
Proof.
  distinct_ids Hok.
  intros [Ha | [Ha | [Ha | Ha]]];
    unfold atheme_pbkdf2v2_determine_prf, case_of;
    rewrite Ha; simpl; eqb_ids; simpl; eqb_ids; simpl;
    eexists; (split; [reflexivity|]); reflexivity.
Qed.

Lemma sha512_not_sha1_sha256 (h : Header) (Hok : header_ok h) (x : Z) :
  is_sha512 h x ->
  case_of x [PBKDF2_PRF_HMAC_SHA1 h; PBKDF2_PRF_HMAC_SHA1_S64 h;
             PBKDF2_PRF_SCRAM_SHA1 h; PBKDF2_PRF_SCRAM_SHA1_S64 h] = false
  /\ case_of x [PBKDF2_PRF_HMAC_SHA2_256 h; PBKDF2_PRF_HMAC_SHA2_256_S64 h;
                PBKDF2_PRF_SCRAM_SHA2_256 h; PBKDF2_PRF_SCRAM_SHA2_256_S64 h]
     = false.
Proof.
  distinct_ids Hok.
  intros [Ha | [Ha | [Ha | Ha]]]; rewrite Ha; unfold case_of; simpl;
    eqb_ids; auto.
Qed.

Lemma dbextract_result_family (h : Header) (E : Env) (stack : locals)
    (ps : string) (p0 : pbkdf2v2_parameters) (l : locals)
    (p : pbkdf2v2_parameters) :
  dbextract_match h stack ps = Some (p0, l) ->
  result (atheme_pbkdf2v2_scram_dbextract h E stack ps) = Some p ->
  (is_sha1 h (a p0) /\ a p = PBKDF2_PRF_SCRAM_SHA1 h)
  \/ (is_sha256 h (a p0) /\ a p = PBKDF2_PRF_SCRAM_SHA2_256 h).
Proof.
  intros Hm. unfold atheme_pbkdf2v2_scram_dbextract. rewrite Hm.
  unfold bind, lift at 1. cbv iota beta.
  destruct (atheme_pbkdf2v2_determine_prf h p0) as [p1|] eqn:Hprf;
    [|discriminate].
  apply determine_prf_a in Hprf.
  unfold lift, result, atheme_pbkdf2v2_scram_derive, hmac_cdg, digest_of,
    decode_exact, ret, fail, call, bind. cbv iota beta.
  unfold is_sha1, is_sha256. rewrite <- Hprf.
  repeat (destruct_inner; simpl snd; cbv iota beta; try discriminate).
  all: intros H; inversion H; subst; simpl a.
  all: first [ left; split; [apply case_of_In; assumption | reflexivity]
             | right; split; [apply case_of_In; assumption | reflexivity] ].
Qed.

Lemma dbextract_sha512_fails (h : Header) (E : Env) (Hok : header_ok h)
    (stack : locals) (ps : string) (x : Z) :
  record_prf ps = Some x -> is_sha512 h x ->
  result (atheme_pbkdf2v2_scram_dbextract h E stack ps) = None.
Proof.
  intros Hx H512. unfold atheme_pbkdf2v2_scram_dbextract.
  destruct (dbextract_match h stack ps) as [[p0 l]|] eqn:Hm;
    [|reflexivity].
  apply dbextract_match_prf in Hm. rewrite Hx in Hm. inversion Hm; subst x.
  unfold bind, lift at 1. cbv iota beta.
  destruct (atheme_pbkdf2v2_determine_prf h p0) as [p1|] eqn:Hprf;
    [|reflexivity].
  apply determine_prf_a in Hprf. rewrite <- Hprf in H512.
  destruct (sha512_not_sha1_sha256 h Hok _ H512) as [Hc1 Hc2].
  unfold lift, result, decode_exact, ret, fail, call, bind.
  cbv iota beta.
  destruct (salt64 p1).
  - destruct (base64_decode E (salt64_ l) (SALT_BUFSIZE h)); [|reflexivity].
    destruct (atheme_pbkdf2v2_parameters_sane h _); [|reflexivity].
    simpl a. rewrite Hc1, Hc2. reflexivity.
  - destruct (atheme_pbkdf2v2_parameters_sane h _); [|reflexivity].
    simpl a. rewrite Hc1, Hc2. reflexivity.
Qed.


(* ------------------------------------------------------------------ *)
(** ** What [verify] compares *)

Lemma firstn_write_buf (data buf : list byte) (n : nat) :
  List.length data = n -> firstn n (write_buf data buf) = data.
Proof.
  intros <-. unfold write_buf. rewrite firstn_app, firstn_all, Nat.sub_diag.
  simpl. apply app_nil_r.
Qed.

Lemma compute_match_zero (h : Header) (ps : string) (v : bool)
    (m : bool) (p0 : pbkdf2v2_parameters) (s d k1 k2 : string) :
  compute_match h ps v = Some (m, p0, s, d, k1, k2) ->
  exists x n, p0 = set_c n (set_a x (zero_parameters h)).
Proof.
  unfold compute_match.
  repeat (destruct_inner; try discriminate).
  all: intros H; inversion H; eauto.
Qed.

Lemma determine_prf_buffers (h : Header) (p0 p : pbkdf2v2_parameters) :
  atheme_pbkdf2v2_determine_prf h p0 = Some p ->
  ssk p = ssk p0 /\ shk p = shk p0 /\ sdg p = sdg p0 /\ cdg p = cdg p0
  /\ salt p = salt p0 /\ c p = c p0.
Proof.
  unfold atheme_pbkdf2v2_determine_prf.
  repeat (destruct_inner; simpl; try discriminate).
  all: intros H; inversion H; simpl; auto 10.
Qed.

(** What a successful verifying run of the computer leaves in the
    credential: the decoded fields of the shape that matched, and zeroes
    in the buffers of the other shape. *)
Lemma compute_verify_inv (h : Header) (E : Env) (pw ps : string)
    (matched : bool) (p0 parsed : pbkdf2v2_parameters) (s d k1 k2 : string) :
  compute_match h ps true = Some (matched, p0, s, d, k1, k2) ->
  result (atheme_pbkdf2v2_compute h E pw ps true) = Some parsed ->
  exists m, md parsed = Some m
    /\ if matched
       then exists r1 r2,
              base64_decode E k1 EVP_MAX_MD_SIZE = Some r1
              /\ List.length r1 = dl parsed
              /\ ssk parsed = write_buf r1 (zero_buf EVP_MAX_MD_SIZE)
              /\ base64_decode E k2 EVP_MAX_MD_SIZE = Some r2
              /\ List.length r2 = dl parsed
              /\ shk parsed = write_buf r2 (zero_buf EVP_MAX_MD_SIZE)
              /\ sdg parsed = zero_buf EVP_MAX_MD_SIZE
       else exists r,
              base64_decode E d EVP_MAX_MD_SIZE = Some r
              /\ List.length r = dl parsed
              /\ sdg parsed = write_buf r (zero_buf EVP_MAX_MD_SIZE)
              /\ ssk parsed = zero_buf EVP_MAX_MD_SIZE.
Proof.
  intros Hm. unfold atheme_pbkdf2v2_compute. rewrite Hm.
  apply compute_match_zero in Hm as (x & n & ->).
  unfold bind, lift at 1. cbv iota beta.
  destruct (atheme_pbkdf2v2_determine_prf h _) as [p|] eqn:Hprf;
    [|discriminate].
  apply determine_prf_buffers in Hprf as (Hssk & Hshk & Hsdg & _).
  simpl in Hssk, Hshk, Hsdg.
  unfold lift, result, decode_exact, ret, fail, call, bind. cbv iota beta.
  repeat (destruct_inner; simpl snd; cbv iota beta; try discriminate).
  all: intros H; inversion H; subst; simpl.
  all: eexists; (split; [eassumption|]).
  all: rewrite ?Hssk, ?Hshk, ?Hsdg.
  all: repeat match goal with
              | Hl : (_ =? _)%nat = true |- _ => apply Nat.eqb_eq in Hl
              end.
  all: eauto 12.
Qed.

(** The digest the computer returns is what PBKDF2-HMAC gave for the
    password (normalized for a SCRAM PRF in a build with libidn), the
    decoded salt and the iteration count of the record. *)
Lemma compute_cdg_is_pbkdf2 (h : Header) (E : Env) (pw ps : string)
    (v : bool) (parsed : pbkdf2v2_parameters) :
  result (atheme_pbkdf2v2_compute h E pw ps v) = Some parsed ->
  exists pw' m dk,
    (if (HAVE_LIBIDN h && scram parsed)%bool
     then atheme_pbkdf2v2_scram_normalize h E pw = Some pw'
     else pw' = pw)
    /\ md parsed = Some m
    /\ PKCS5_PBKDF2_HMAC E pw' (firstn (sl parsed) (salt parsed)) (c parsed)
         m (dl parsed) = Some dk
    /\ cdg parsed = write_buf dk (zero_buf EVP_MAX_MD_SIZE).
Proof.
  unfold atheme_pbkdf2v2_compute.
  destruct (compute_match h ps v) as [[[[[[matched p0] s] d] k1] k2]|] eqn:Hm;
    [|discriminate].
  apply compute_match_zero in Hm as (x & n & ->).
  unfold bind, lift at 1. cbv iota beta.
  destruct (atheme_pbkdf2v2_determine_prf h _) as [p|] eqn:Hprf;
    [|discriminate].
  apply determine_prf_buffers in Hprf as (_ & _ & _ & Hcdg & _).
  simpl in Hcdg.
  unfold lift, result, decode_exact, ret, fail, call, bind. cbv iota beta.
  repeat (destruct_inner; simpl snd; cbv iota beta; try discriminate).
  all: intros H; inversion H; subst; simpl.
  all: rewrite ?Hcdg.
  all: simpl in *; try congruence.
  all: do 3 eexists; (split; [reflexivity|]);
         (split; [eassumption|]); (split; [eassumption|]); reflexivity.
Qed.

(** C2, as the code has it: for a record of the SCRAM shape with a SCRAM
    PRF, [Verify] decides the match by comparing the ServerKey,
    [HMAC(derived_key, "Server Key")], against the record's stored
    ServerKey field (the StoredKey field only has to decode to the digest
    length); for a record of the HMAC shape with an HMAC PRF it compares
    the computed PBKDF2 digest against the decoded stored digest. *)
Theorem verify_decides_by_server_key (h : Header) (E : Env)
    (password parameters : string) (matched_ssk_shk : bool)
    (p0 parsed : pbkdf2v2_parameters) (s d k1 k2 : string) :
  compute_match h parameters true = Some (matched_ssk_shk, p0, s, d, k1, k2) ->
  result (atheme_pbkdf2v2_compute h E password parameters true)
  = Some parsed ->
  let derived_key := firstn (dl parsed) (cdg parsed) in
  (matched_ssk_shk = true -> scram parsed = true ->
   exists m stored_server_key stored_stored_key,
     md parsed = Some m
     /\ base64_decode E k1 EVP_MAX_MD_SIZE = Some stored_server_key
     /\ base64_decode E k2 EVP_MAX_MD_SIZE = Some stored_stored_key
     /\ List.length stored_stored_key = dl parsed
     /\ snd (atheme_pbkdf2v2_verify h E password parameters)
        = match HMAC E m derived_key (list_byte_of_string "Server Key") with
          | Some server_key =>
              bytes_eqb stored_server_key (firstn (dl parsed) server_key)
          | None => false
          end)
  /\ (matched_ssk_shk = false -> scram parsed = false ->
      exists stored_digest,
        base64_decode E d EVP_MAX_MD_SIZE = Some stored_digest
        /\ snd (atheme_pbkdf2v2_verify h E password parameters)
           = bytes_eqb stored_digest derived_key).
Proof.
  intros Hm Hc derived_key. subst derived_key.
  destruct (compute_verify_inv h E password parameters matched_ssk_shk p0
              parsed s d k1 k2 Hm Hc) as (m & Hmd & Hinv).
  unfold atheme_pbkdf2v2_verify.
  destruct (atheme_pbkdf2v2_compute h E password parameters true)
    as [t [p|]]; simpl in Hc; inversion Hc; subst p.
  split.
  - intros -> Hscram.
    destruct Hinv as (r1 & r2 & Hk1 & Hl1 & Hssk & Hk2 & Hl2 & _).
    exists m, r1, r2. repeat (split; [assumption|]).
    rewrite Hscram.
    unfold atheme_pbkdf2v2_scram_derive, hmac_cdg, bind, call, ret.
    rewrite Hmd. change (list_byte_of_string "Server Key") with ServerKeyStr.
    destruct (HMAC E m _ ServerKeyStr) as [csk|]; simpl; [|reflexivity].
    unfold memcmp_eq. rewrite Hssk, firstn_write_buf by assumption.
    reflexivity.
  - intros -> Hscram.
    destruct Hinv as (r & Hd & Hl & Hsdg & _).
    exists r. split; [assumption|].
    rewrite Hscram. simpl. unfold memcmp_eq.
    rewrite Hsdg, firstn_write_buf by assumption. reflexivity.
Qed.

Lemma verify_decides_by_server_key_witness :
  exists parsed,
    result (atheme_pbkdf2v2_compute atheme_header Sample.env "correct horse"
              "$z$44$64000$//////////////////////////////////////////8=$TmiRuuP9Jk9pkrvk/idQapO85f8=$xOoQNlyCqM70GkBmjLLY/iRKcJY="
              true) = Some parsed
    /\ exists m stored_server_key stored_stored_key,
         md parsed = Some m
         /\ base64_decode Sample.env "TmiRuuP9Jk9pkrvk/idQapO85f8="
              EVP_MAX_MD_SIZE = Some stored_server_key
         /\ base64_decode Sample.env "xOoQNlyCqM70GkBmjLLY/iRKcJY="
              EVP_MAX_MD_SIZE = Some stored_stored_key
         /\ List.length stored_stored_key = dl parsed
         /\ snd (atheme_pbkdf2v2_verify atheme_header Sample.env
                   "correct horse"
                   "$z$44$64000$//////////////////////////////////////////8=$TmiRuuP9Jk9pkrvk/idQapO85f8=$xOoQNlyCqM70GkBmjLLY/iRKcJY=")
            = match HMAC Sample.env m (firstn (dl parsed) (cdg parsed))
                      (list_byte_of_string "Server Key") with
              | Some server_key =>
                  bytes_eqb stored_server_key
                    (firstn (dl parsed) server_key)
              | None => false
              end.
Proof.
  destruct (result (atheme_pbkdf2v2_compute atheme_header Sample.env
                      "correct horse"
                      "$z$44$64000$//////////////////////////////////////////8=$TmiRuuP9Jk9pkrvk/idQapO85f8=$xOoQNlyCqM70GkBmjLLY/iRKcJY="
                      true)) as [parsed|] eqn:Hc;
    [|vm_compute in Hc; discriminate].
  exists parsed. split; [reflexivity|].
  destruct (compute_match atheme_header
              "$z$44$64000$//////////////////////////////////////////8=$TmiRuuP9Jk9pkrvk/idQapO85f8=$xOoQNlyCqM70GkBmjLLY/iRKcJY="
              true) as [[[[[[matched p0] s] d] k1] k2]|] eqn:Hm;
    [|vm_compute in Hm; discriminate].
  destruct (verify_decides_by_server_key atheme_header Sample.env _ _ _ _ _
              _ _ _ _ Hm Hc) as [H1 _].
  assert (Hk : matched = true /\ k1 = "TmiRuuP9Jk9pkrvk/idQapO85f8="
               /\ k2 = "xOoQNlyCqM70GkBmjLLY/iRKcJY=").
  { vm_compute in Hm. inversion Hm. auto. }
  destruct Hk as (-> & -> & ->).
  apply H1; [reflexivity|].
  vm_compute in Hc. inversion Hc. reflexivity.
Defined.

(** On a SCRAM record whose ServerKey field is right and whose StoredKey
    field is not, [Verify] answers true where the comparison of StoredKeys
    answers false; with the fields the other way round it answers false
    where that comparison answers true. *)
Lemma verify_ignores_stored_key :
  let h := atheme_header in
  let E := Sample.env in
  let bad_stored_key :=
    "$z$44$64000$//////////////////////////////////////////8=$TmiRuuP9Jk9pkrvk/idQapO85f8=$AAAAAAAAAAAAAAAAAAAAAAAAAAA=" in
  let bad_server_key :=
    "$z$44$64000$//////////////////////////////////////////8=$AAAAAAAAAAAAAAAAAAAAAAAAAAA=$xOoQNlyCqM70GkBmjLLY/iRKcJY=" in
  snd (atheme_pbkdf2v2_verify h E "correct horse" bad_stored_key) = true
  /\ verify_by_stored_key h E "correct horse" bad_stored_key = false
  /\ snd (atheme_pbkdf2v2_verify h E "correct horse" bad_server_key) = false
  /\ verify_by_stored_key h E "correct horse" bad_server_key = true.
Proof. vm_compute. auto. Qed.

(* ------------------------------------------------------------------ *)
(** ** Encoding with a base64-salt PRF *)

Lemma string_app_assoc (s1 s2 s3 : string) :
  ((s1 ++ s2) ++ s3 = s1 ++ (s2 ++ s3))%string.
Proof. induction s1 as [|x s1 IH]; simpl; [reflexivity | now rewrite IH]. Qed.

(** [crypt] writes, for the salt field, the bytes of the credential's salt
    buffer up to its first NUL. *)
Lemma crypt_output (h : Header) (E : Env) (pw ps rec : string) :
  result (atheme_pbkdf2v2_crypt h E pw ps) = Some rec ->
  exists parsed tail,
    result (atheme_pbkdf2v2_compute h E pw ps false) = Some parsed
    /\ rec = (PBKDF2_FN_SAVESALT (a parsed) (c parsed)
                (cstring_of_buf (salt parsed)) ++ tail)%string.
Proof.
  unfold atheme_pbkdf2v2_crypt. intros H.
  apply result_bind_Some in H as (parsed & Hc & H).
  exists parsed. revert H.
  unfold atheme_pbkdf2v2_scram_derive, hmac_cdg, digest_of, result, bind,
    lift, ret, fail, call.
  repeat (destruct_inner; cbn [snd fst]; cbv iota beta; try discriminate).
  all: intros H; inversion H; eexists; split; [eassumption|].
  - unfold PBKDF2_FS_SAVEHASH, PBKDF2_FN_SAVEHASH.
    rewrite string_app_assoc. reflexivity.
  - reflexivity.
Qed.

(** In generation mode the credential's salt buffer holds the decoded
    bytes of a base64 salt, and the text itself of any other salt. *)
Lemma compute_generation (h : Header) (E : Env) (pw ps : string)
    (x n : Z) (s : string) (parsed : pbkdf2v2_parameters) :
  stored3 (Scan.sscanf PBKDF2_FN_LOADSALT ps) = Some (x, n, s) ->
  result (atheme_pbkdf2v2_compute h E pw ps false) = Some parsed ->
  exists p,
    atheme_pbkdf2v2_determine_prf h (set_c n (set_a x (zero_parameters h)))
    = Some p
    /\ a parsed = x /\ c parsed = n
    /\ if salt64 p
       then exists raw,
              base64_decode E s (SALT_BUFSIZE h) = Some raw
              /\ salt parsed = write_buf raw (zero_buf (SALT_BUFSIZE h))
       else salt parsed
            = write_buf (list_byte_of_string s) (zero_buf (SALT_BUFSIZE h)).
Proof.
  intros Hs. unfold atheme_pbkdf2v2_compute, compute_match. rewrite Hs.
  unfold bind, lift at 1. cbv iota beta.
  destruct (atheme_pbkdf2v2_determine_prf h _) as [p|] eqn:Hprf;
    [|discriminate].
  pose proof (determine_prf_a _ _ _ Hprf) as Ha.
  pose proof (determine_prf_buffers _ _ _ Hprf) as (_ & _ & _ & _ & Hsalt & Hc).
  simpl in Ha, Hsalt, Hc.
  unfold lift, result, decode_exact, ret, fail, call, bind. cbv iota beta.
  intros H. exists p. split; [reflexivity|]. revert H.
  repeat (destruct_inner; cbn [snd fst]; cbv iota beta; try discriminate).
  all: intros H; inversion H; subst; simpl; rewrite ?Hsalt; eauto 10.
Qed.

Lemma span_all (p : ascii -> bool) (s : string) (ch : ascii) (rest : string) :
  forallb p (list_ascii_of_string s) = true -> p ch = false ->
  Scan.span p (s ++ String ch rest)%string = (s, String ch rest).
Proof.
  intros Hall Hch. induction s as [|x s IH]; simpl.
  - rewrite Hch. reflexivity.
  - simpl in Hall. apply andb_prop in Hall as [Hx Hall].
    rewrite Hx, IH by assumption. reflexivity.
Qed.

(** Scanning a record that starts as [snprintf] writes it for a
    base64-salt PRF of atheme's header and 64000 rounds. *)
Lemma sscanf_prefix_s64 (fmt : list Scan.directive) (prf : Z)
    (body : string) :
  is_s64 atheme_header prf ->
  Scan.sscanf (PBKDF2_FN_PREFIX ++ fmt)
    ("$z$" ++ Scan.print_uint prf ++ "$" ++ Scan.print_uint 64000 ++ "$"
     ++ body)%string
  = Scan.VUint prf :: Scan.VUint 64000 :: Scan.sscanf fmt body.
Proof.
  intros [<-|[<-|[<-|[<-|[<-|[<-|[]]]]]]]; reflexivity.
Qed.

Lemma verify_no_match (h : Header) (E : Env) (pw ps : string) :
  compute_match h ps true = None ->
  atheme_pbkdf2v2_verify h E pw ps = ([], false).
Proof.
  intros Hm. unfold atheme_pbkdf2v2_verify, atheme_pbkdf2v2_compute.
  rewrite Hm. reflexivity.
Qed.

(** A record whose salt field starts with a character outside the class
    of the text fields matches neither stored shape. *)
Lemma raw_salt_no_match (prf : Z) (ch : ascii) (body : string) :
  is_s64 atheme_header prf ->
  PBKDF2_FN_BASE64 ch = false ->
  compute_match atheme_header
    ("$z$" ++ Scan.print_uint prf ++ "$" ++ Scan.print_uint 64000 ++ "$"
     ++ String ch body)%string true = None.
Proof.
  intros Hprf Hch. unfold compute_match.
  unfold PBKDF2_FS_LOADHASH, PBKDF2_FN_LOADHASH, PBKDF2_FN_LOADSALT.
  rewrite <- !app_assoc.
  rewrite !sscanf_prefix_s64 by assumption.
  cbn [app Scan.sscanf Scan.span]. rewrite Hch. reflexivity.
Qed.

(** C1 fails for the base64-salt PRFs, the ones the DIGEST handler
    installs.  With atheme's constants, for every environment, password,
    base64-salt PRF installed as the default, and random salt whose first
    byte is not a character of the base64 alphabet: when the base64 layer
    encodes the salt to text it decodes back, and Encode returns a record,
    Verify of the same password against that record returns false,
    because [crypt] writes the decoded salt bytes into the salt field. *)
Theorem encode_then_verify_fails_s64 (E : Env) (prf : Z)
    (b : byte) (rest : list byte) (s64 password rec : string) :
  is_s64 atheme_header prf ->
  PBKDF2_FN_BASE64 (ascii_of_byte b) = false ->
  base64_encode E (b :: rest) (PBKDF2_SALTLEN_MAX atheme_header * 3)
  = Some s64 ->
  s64 <> "" ->
  forallb PBKDF2_FN_BASE64 (list_ascii_of_string s64) = true ->
  base64_decode E s64 (SALT_BUFSIZE atheme_header) = Some (b :: rest) ->
  encode_password atheme_header E (Sample.cfg prf) (b :: rest) password
  = Some rec ->
  snd (atheme_pbkdf2v2_verify atheme_header E password rec) = false.
Proof.
  intros Hprf Hb Henc Hne Hall Hdec.
  unfold encode_password, atheme_pbkdf2v2_salt. rewrite Henc.
  destruct (_ <=? _)%nat; [discriminate|]. intros Hcrypt.
  apply crypt_output in Hcrypt as (parsed & tail & Hc & ->).
  assert (Hscan :
    stored3 (Scan.sscanf PBKDF2_FN_LOADSALT
               (PBKDF2_FN_SAVESALT (pbkdf2v2_digest (Sample.cfg prf))
                  (pbkdf2v2_rounds (Sample.cfg prf)) s64))
    = Some (prf, 64000, s64)).
  { unfold PBKDF2_FN_LOADSALT, PBKDF2_FN_SAVESALT. simpl pbkdf2v2_digest.
    simpl pbkdf2v2_rounds.
    rewrite sscanf_prefix_s64 by assumption.
    cbn [Scan.sscanf]. rewrite span_all by (auto; reflexivity).
    destruct s64; [contradiction|]. reflexivity. }
  destruct (compute_generation _ _ _ _ _ _ _ _ Hscan Hc)
    as (p & Hp & Ha & Hcc & Hsalt).
  assert (Hs64 : salt64 p = true).
  { destruct Hprf as [<-|[<-|[<-|[<-|[<-|[<-|[]]]]]]];
      vm_compute in Hp; inversion Hp; reflexivity. }
  rewrite Hs64 in Hsalt. destruct Hsalt as (raw & Hraw & Hsalt).
  rewrite Hdec in Hraw. inversion Hraw; subst raw.
  rewrite Ha, Hcc, Hsalt.
  rewrite verify_no_match; [reflexivity|].
  unfold PBKDF2_FN_SAVESALT. rewrite !string_app_assoc.
  unfold cstring_of_buf, write_buf. cbn [app until_nul].
  destruct (Byte.eqb b x00).
  - apply raw_salt_no_match; [assumption | reflexivity].
  - apply raw_salt_no_match; assumption.
Qed.

Lemma encode_then_verify_fails_s64_witness :
  exists rec,
    encode_password atheme_header Sample.env (Sample.cfg 25)
      (repeat xff 32) "correct horse" = Some rec
    /\ snd (atheme_pbkdf2v2_verify atheme_header Sample.env
              "correct horse" rec) = false.
Proof.
  destruct (encode_password atheme_header Sample.env (Sample.cfg 25)
              (repeat xff 32) "correct horse") as [rec|] eqn:Henc;
    [|vm_compute in Henc; discriminate].
  exists rec. split; [reflexivity|].
  eapply (encode_then_verify_fails_s64 Sample.env 25 xff (repeat xff 31)
            "//////////////////////////////////////////8=").
  - right. left. reflexivity.
  - reflexivity.
  - vm_compute. reflexivity.
  - discriminate.
  - reflexivity.
  - vm_compute. reflexivity.
  - exact Henc.
Defined.

(* ------------------------------------------------------------------ *)
(** ** Encoding with a literal-salt HMAC PRF *)

(** A run of the computer on a record with an HMAC PRF and a literal
    salt, when every check passes. *)
Lemma compute_hmac_literal (h : Header) (E : Env) (pw ps : string)
    (verifying : bool) (p0 p : pbkdf2v2_parameters) (s d k1 k2 : string)
    (m : EVP_MD) (r dk : list byte) :
  compute_match h ps verifying = Some (false, p0, s, d, k1, k2) ->
  atheme_pbkdf2v2_determine_prf h p0 = Some p ->
  scram p = false -> salt64 p = false -> md p = Some m ->
  atheme_pbkdf2v2_parameters_sane h (set_sl (strlen s) p) = true ->
  pw <> "" ->
  (verifying = true ->
   base64_decode E d EVP_MAX_MD_SIZE = Some r /\ List.length r = dl p) ->
  PKCS5_PBKDF2_HMAC E pw
    (firstn (strlen s) (write_buf (list_byte_of_string s) (salt p)))
    (c p) m (dl p) = Some dk ->
  let p1 := set_salt (write_buf (list_byte_of_string s) (salt p))
              (set_sl (strlen s) p) in
  let p2 := if verifying then set_sdg (write_buf r (sdg p)) p1 else p1 in
  result (atheme_pbkdf2v2_compute h E pw ps verifying)
  = Some (set_cdg (write_buf dk (cdg p)) p2).
Proof.
  intros Hm Hprf Hscram Hs64 Hmd Hsane Hpw Hdec Hkdf p1 p2.
  unfold atheme_pbkdf2v2_compute. rewrite Hm.
  unfold bind, lift at 1. cbv iota beta.
  rewrite Hprf. unfold lift at 1. cbv iota beta.
  rewrite Hscram, andb_false_r. unfold ret at 1. cbv iota beta.
  rewrite Hs64, Hsane. unfold ret at 1. cbv iota beta.
  destruct pw as [|ch pw']; [contradiction|].
  cbn [strlen String.length Nat.eqb negb].
  destruct verifying.
  - destruct (Hdec eq_refl) as [Hd Hl].
    unfold decode_exact. cbn [sdg set_salt set_sl dl].
    rewrite Hd. rewrite (proj2 (Nat.eqb_eq _ _) Hl).
    unfold ret, call, result. cbn [md set_sdg set_salt set_sl].
    rewrite Hmd. cbn [sl salt c dl set_sdg set_salt set_sl].
    cbn [strlen String.length] in Hkdf. rewrite Hkdf. reflexivity.
  - unfold ret, call, result. cbn [md set_sdg set_salt set_sl].
    rewrite Hmd. cbn [sl salt c dl set_sdg set_salt set_sl].
    cbn [strlen String.length] in Hkdf. rewrite Hkdf. reflexivity.
Qed.

Lemma base64_char_not_nul (ch : ascii) :
  PBKDF2_FN_BASE64 ch = true -> Byte.eqb (byte_of_ascii ch) x00 = false.
Proof.
  destruct ch as [[] [] [] [] [] [] [] []]; intros H;
    try discriminate H; reflexivity.
Qed.

Lemma until_nul_zeros (k n : nat) : until_nul (skipn k (zero_buf n)) = [].
Proof.
  unfold zero_buf. revert k. induction n as [|n IH]; intros [|k]; simpl; auto.
Qed.

Lemma cstring_of_text (s : string) (tail : list byte) :
  forallb PBKDF2_FN_BASE64 (list_ascii_of_string s) = true ->
  until_nul tail = [] ->
  cstring_of_buf (list_byte_of_string s ++ tail) = s.
Proof.
  intros Hall Htail. unfold cstring_of_buf, list_byte_of_string,
    string_of_list_byte.
  induction s as [|ch s IH].
  - simpl. rewrite Htail. reflexivity.
  - cbn [list_ascii_of_string forallb] in Hall.
    apply andb_prop in Hall as [Hch Hall].
    cbn [list_ascii_of_string map app until_nul].
    rewrite base64_char_not_nul by assumption.
    cbn [map string_of_list_ascii].
    rewrite ascii_of_byte_of_ascii. f_equal. apply IH. exact Hall.
Qed.

Lemma length_list_byte_of_string (s : string) :
  List.length (list_byte_of_string s) = strlen s.
Proof. induction s; simpl; auto. Qed.

Lemma bytes_eqb_refl (x : list byte) : bytes_eqb x x = true.
Proof.
  induction x as [|b x IH]; simpl; [reflexivity|].
  rewrite IH, andb_true_r. destruct b; reflexivity.
Qed.

Lemma span_end (p : ascii -> bool) (s : string) :
  forallb p (list_ascii_of_string s) = true -> Scan.span p s = (s, "").
Proof.
  induction s as [|x s IH]; simpl; [reflexivity|]. intros Hall.
  apply andb_prop in Hall as [Hx Hall]. rewrite Hx, IH by assumption.
  reflexivity.
Qed.

Lemma determine_prf_dl (h : Header) (p0 p : pbkdf2v2_parameters) :
  atheme_pbkdf2v2_determine_prf h p0 = Some p ->
  (dl p <= EVP_MAX_MD_SIZE)%nat.
Proof.
  unfold atheme_pbkdf2v2_determine_prf.
  repeat (destruct_inner; simpl; try discriminate).
  all: intros H; inversion H; simpl;
    unfold SHA_DIGEST_LENGTH, SHA256_DIGEST_LENGTH, SHA512_DIGEST_LENGTH,
      EVP_MAX_MD_SIZE; lia.
Qed.

Lemma length_write_buf (data : list byte) (n : nat) :
  (n <= List.length (write_buf data (zero_buf n)))%nat.
Proof.
  unfold write_buf, zero_buf.
  rewrite length_app, length_skipn, repeat_length. lia.
Qed.

(** Scanning a record that starts as [snprintf] writes it for a PRF of
    atheme's header and 64000 rounds. *)
Lemma sscanf_prefix_atheme (fmt : list Scan.directive) (prf : Z)
    (body : string) :
  In prf (prf_ids atheme_header) ->
  Scan.sscanf (PBKDF2_FN_PREFIX ++ fmt)
    ("$z$" ++ Scan.print_uint prf ++ "$" ++ Scan.print_uint 64000 ++ "$"
     ++ body)%string
  = Scan.VUint prf :: Scan.VUint 64000 :: Scan.sscanf fmt body.
Proof.
  unfold prf_ids. simpl In.
  intros [<-|[<-|[<-|[<-|[<-|[<-|[<-|[<-|[<-|[<-|[<-|[<-|[]]]]]]]]]]]]];
    reflexivity.
Qed.

Lemma compute_match_salt_record (prf : Z) (s64 : string) :
  In prf (prf_ids atheme_header) ->
  s64 <> "" -> forallb PBKDF2_FN_BASE64 (list_ascii_of_string s64) = true ->
  compute_match atheme_header (PBKDF2_FN_SAVESALT prf 64000 s64) false
  = Some (false, set_c 64000 (set_a prf (zero_parameters atheme_header)),
          s64, "", "", "").
Proof.
  intros Hprf Hne Hall. unfold compute_match.
  unfold PBKDF2_FN_LOADSALT, PBKDF2_FN_SAVESALT.
  rewrite sscanf_prefix_atheme by assumption.
  cbn [Scan.sscanf]. rewrite span_all by (auto; reflexivity).
  destruct s64; [contradiction|]. reflexivity.
Qed.

Lemma compute_match_hmac_record (prf : Z) (s64 d64 : string) :
  In prf (prf_ids atheme_header) ->
  s64 <> "" -> forallb PBKDF2_FN_BASE64 (list_ascii_of_string s64) = true ->
  d64 <> "" -> forallb PBKDF2_FN_BASE64 (list_ascii_of_string d64) = true ->
  compute_match atheme_header (PBKDF2_FN_SAVEHASH prf 64000 s64 d64) true
  = Some (false, set_c 64000 (set_a prf (zero_parameters atheme_header)),
          s64, d64, "", "").
Proof.
  intros Hprf Hne Hall Hne' Hall'. unfold compute_match.
  unfold PBKDF2_FS_LOADHASH, PBKDF2_FN_LOADHASH, PBKDF2_FN_LOADSALT,
    PBKDF2_FN_SAVEHASH, PBKDF2_FN_SAVESALT.
  rewrite <- !app_assoc. rewrite !string_app_assoc.
  rewrite !sscanf_prefix_atheme by assumption.
  change ("$" ++ d64)%string with (String "$" d64).
  cbn [app Scan.sscanf]. rewrite span_all by (auto; reflexivity).
  destruct s64 as [|c0 s64]; [contradiction|].
  cbn [Ascii.eqb Bool.eqb]. rewrite span_end by assumption.
  destruct d64 as [|c1 d64]; [contradiction|]. reflexivity.
Qed.

(** X20: the sibling path: with atheme's constants and an HMAC PRF whose salt
    is literal text installed as the default, the record Encode returns
    verifies, provided the base64 layer gives text for the salt and for
    the digest and decodes the digest text back.  The salt field [crypt]
    writes is then the text [verify] reads. *)
Theorem encode_then_verify_literal_salt (E : Env) (prf : Z)
    (p : pbkdf2v2_parameters) (m : EVP_MD) (rawsalt dk : list byte)
    (s64 d64 password rec : string) :
  In prf (prf_ids atheme_header) ->
  atheme_pbkdf2v2_determine_prf atheme_header
    (set_c 64000 (set_a prf (zero_parameters atheme_header))) = Some p ->
  scram p = false -> salt64 p = false -> md p = Some m ->
  password <> "" ->
  base64_encode E rawsalt (PBKDF2_SALTLEN_MAX atheme_header * 3)
  = Some s64 ->
  (8 <= strlen s64 <= 64)%nat ->
  forallb PBKDF2_FN_BASE64 (list_ascii_of_string s64) = true ->
  PKCS5_PBKDF2_HMAC E password (list_byte_of_string s64) 64000 m (dl p)
  = Some dk ->
  let digest := firstn (dl p) (write_buf dk (zero_buf EVP_MAX_MD_SIZE)) in
  base64_encode E digest (EVP_MAX_MD_SIZE * 3) = Some d64 ->
  d64 <> "" ->
  forallb PBKDF2_FN_BASE64 (list_ascii_of_string d64) = true ->
  base64_decode E d64 EVP_MAX_MD_SIZE = Some digest ->
  encode_password atheme_header E (Sample.cfg prf) rawsalt password
  = Some rec ->
  snd (atheme_pbkdf2v2_verify atheme_header E password rec) = true.
Proof.
  intros Hprf Hp Hscram Hs64 Hmd Hpw Hsalt Hlen Hall Hkdf digest Hd64 Hne
    Hall' Hdec Henc.
  assert (Hne0 : s64 <> "") by (intros ->; simpl in Hlen; lia).
  pose proof (determine_prf_a _ _ _ Hp) as Ha.
  pose proof (determine_prf_buffers _ _ _ Hp)
    as (_ & _ & Hsdg & Hcdg & Hbuf & Hc).
  pose proof (determine_prf_dl _ _ _ Hp) as Hdl.
  simpl in Ha, Hsdg, Hcdg, Hbuf, Hc.
  assert (Hsane : atheme_pbkdf2v2_parameters_sane atheme_header
                    (set_sl (strlen s64) p) = true).
  { apply parameters_sane_bounds. simpl. rewrite Hc. lia. }
  assert (Hfirst : firstn (strlen s64)
                     (write_buf (list_byte_of_string s64) (salt p))
                   = list_byte_of_string s64).
  { apply firstn_write_buf. apply length_list_byte_of_string. }
  assert (Hdigest : List.length digest = dl p).
  { subst digest. rewrite firstn_length_le; [reflexivity|].
    pose proof (length_write_buf dk EVP_MAX_MD_SIZE). lia. }
  (* Encode *)
  unfold encode_password, atheme_pbkdf2v2_salt in Henc.
  rewrite Hsalt in Henc. simpl pbkdf2v2_digest in Henc.
  simpl pbkdf2v2_rounds in Henc.
  destruct (_ <=? _)%nat; [discriminate|].
  unfold atheme_pbkdf2v2_crypt in Henc.
  apply result_bind_Some in Henc as (P1 & Hc1 & Henc).
  rewrite (compute_hmac_literal atheme_header E password _ false _ p s64
             "" "" "" m [] dk
             (compute_match_salt_record prf s64 Hprf Hne0 Hall)
             Hp Hscram Hs64 Hmd Hsane Hpw) in Hc1;
    [|discriminate | rewrite Hfirst, Hc; exact Hkdf].
  inversion Hc1; subst P1; clear Hc1.
  cbn [scram set_cdg set_salt set_sl] in Henc. rewrite Hscram in Henc.
  cbn [dl cdg a c salt set_cdg set_salt set_sl] in Henc.
  rewrite Hcdg in Henc. fold digest in Henc.
  unfold bind, lift in Henc. rewrite Hd64 in Henc.
  destruct (negb _); [|discriminate].
  unfold ret, result in Henc. cbn [snd] in Henc.
  inversion Henc as [Hrec]; clear Henc.
  rewrite Ha, Hc, Hbuf.
  unfold write_buf at 1.
  rewrite cstring_of_text by (auto using until_nul_zeros).
  (* Verify *)
  pose proof (compute_hmac_literal atheme_header E password _ true _ p s64
                d64 "" "" m digest dk
                (compute_match_hmac_record prf s64 d64 Hprf Hne0 Hall Hne
                   Hall')
                Hp Hscram Hs64 Hmd Hsane Hpw) as Hc2.
  cbv zeta in Hc2. rewrite Hfirst, Hc in Hc2.
  specialize (Hc2 (fun _ => conj Hdec Hdigest) Hkdf).
  unfold atheme_pbkdf2v2_verify.
  destruct (atheme_pbkdf2v2_compute atheme_header E password _ true)
    as [t [P2|]]; simpl in Hc2; inversion Hc2; subst P2.
  cbn [scram set_cdg set_sdg set_salt set_sl]. rewrite Hscram.
  cbn [snd sdg cdg dl set_cdg set_sdg set_salt set_sl].
  unfold memcmp_eq. rewrite Hsdg, Hcdg.
  rewrite firstn_write_buf by assumption. apply bytes_eqb_refl.
Qed.

Lemma encode_then_verify_literal_salt_example :
  exists rec,
    encode_password atheme_header Sample.env (Sample.cfg 5)
      (repeat x41 32) "correct horse" = Some rec
    /\ snd (atheme_pbkdf2v2_verify atheme_header Sample.env
              "correct horse" rec) = true.
Proof.
  destruct (encode_password atheme_header Sample.env (Sample.cfg 5)
              (repeat x41 32) "correct horse") as [rec|] eqn:Henc;
    [|vm_compute in Henc; discriminate].
  exists rec. split; [reflexivity|].
  eapply (encode_then_verify_literal_salt Sample.env 5)
    with (rawsalt := repeat x41 32).
  - right. left. reflexivity.
  - vm_compute. reflexivity.
  - reflexivity.
  - reflexivity.
  - reflexivity.
  - discriminate.
  - vm_compute. reflexivity.
  - simpl. lia.
  - reflexivity.
  - vm_compute. reflexivity.
  - vm_compute. reflexivity.
  - discriminate.
  - reflexivity.
  - vm_compute. reflexivity.
  - exact Henc.
Defined.

(* ------------------------------------------------------------------ *)
(** ** Printing and scanning numbers *)

Lemma digits_value_pos (d : Decimal.uint) :
  forall acc : positive,
    Scan.digits_value (Zpos acc) (NilEmpty.string_of_uint d)
    = Zpos (Pos.of_uint_acc d acc).
Proof.
  induction d; intros acc;
    cbn [NilEmpty.string_of_uint Scan.digits_value Pos.of_uint_acc];
    try reflexivity.
  all: rewrite <- IHd; f_equal.
  all: match goal with
       | |- context [Scan.digit_value ?ch] =>
           let v := eval vm_compute in (Scan.digit_value ch) in
           change (Scan.digit_value ch) with v
       end.
  all: lia.
Qed.

Lemma digits_value_uint (d : Decimal.uint) :
  Scan.digits_value 0 (NilEmpty.string_of_uint d) = Z.of_N (N.of_uint d).
Proof.
  induction d; try exact IHd; try reflexivity;
    apply (digits_value_pos d).
Qed.

Lemma span_digits (d : Decimal.uint) (ch : ascii) (rest : string) :
  Scan.is_digit ch = false ->
  Scan.span Scan.is_digit (NilEmpty.string_of_uint d ++ String ch rest)
  = (NilEmpty.string_of_uint d, String ch rest).
Proof.
  intros Hch. induction d; simpl; rewrite ?IHd; try reflexivity.
  rewrite Hch. reflexivity.
Qed.

Ltac eval_char_tests :=
  repeat match goal with
         | |- context [Scan.is_space (Ascii ?b0 ?b1 ?b2 ?b3 ?b4 ?b5 ?b6 ?b7)] =>
             let t := constr:(Scan.is_space (Ascii b0 b1 b2 b3 b4 b5 b6 b7)) in
             let v := eval vm_compute in t in change t with v
         | |- context [Scan.is_digit (Ascii ?b0 ?b1 ?b2 ?b3 ?b4 ?b5 ?b6 ?b7)] =>
             let t := constr:(Scan.is_digit (Ascii b0 b1 b2 b3 b4 b5 b6 b7)) in
             let v := eval vm_compute in t in change t with v
         end.

Lemma scan_uint_print (n : Z) (ch : ascii) (rest : string) :
  0 <= n < 2 ^ 32 -> Scan.is_digit ch = false ->
  Scan.scan_uint (Scan.print_uint n ++ String ch rest)
  = Some (n, String ch rest).
Proof.
  intros Hn Hch. unfold Scan.print_uint.
  assert (Hval : Z.of_N (N.of_uint (N.to_uint (Z.to_N n))) = n).
  { rewrite DecimalN.Unsigned.of_to. lia. }
  rewrite <- digits_value_uint in Hval.
  destruct (N.to_uint (Z.to_N n)) as [|d|d|d|d|d|d|d|d|d|d] eqn:Hd.
  1: { simpl in Hval. subst n. unfold Scan.scan_uint, NilZero.string_of_uint.
       cbn [String.append Scan.skip_space]. eval_char_tests. cbv iota.
       cbn [Scan.span]. eval_char_tests. rewrite Hch. reflexivity. }
  all: unfold Scan.scan_uint, NilZero.string_of_uint;
    cbn [NilEmpty.string_of_uint String.append Scan.skip_space];
    eval_char_tests; cbv iota;
    cbn [Scan.span]; eval_char_tests; cbv iota;
    rewrite span_digits by assumption; cbv iota beta;
    cbn [NilEmpty.string_of_uint] in Hval; rewrite Hval;
    destruct (Z.ltb_spec (2 ^ 64 - 1) n); [lia|];
    rewrite Z.mod_small by lia; reflexivity.
Qed.

Lemma scan_uint_range (s rest : string) (n : Z) :
  Scan.scan_uint s = Some (n, rest) -> 0 <= n < 2 ^ 32.
Proof.
  unfold Scan.scan_uint.
  destruct (match Scan.skip_space s with
            | String "-" r => (true, r)
            | String "+" r => (false, r)
            | _ => (false, Scan.skip_space s)
            end) as [neg s2].
  destruct (Scan.span Scan.is_digit s2) as [[|c0 ds] r]; [discriminate|].
  match goal with
  | |- Some (?v mod ?m, _) = _ -> _ =>
      generalize (Z.mod_pos_bound v m eq_refl); generalize (v mod m)
  end.
  intros x Hx [= <- _]. exact Hx.
Qed.

(** Scanning the start of a record as [snprintf] writes it. *)
Lemma sscanf_prefix_print (fmt : list Scan.directive) (x n : Z)
    (body : string) :
  0 <= x < 2 ^ 32 -> 0 <= n < 2 ^ 32 ->
  Scan.sscanf (PBKDF2_FN_PREFIX ++ fmt)
    ("$z$" ++ Scan.print_uint x ++ "$" ++ Scan.print_uint n ++ "$"
     ++ body)%string
  = Scan.VUint x :: Scan.VUint n :: Scan.sscanf fmt body.
Proof.
  intros Hx Hn. unfold PBKDF2_FN_PREFIX.
  change ("$z$" ++ Scan.print_uint x ++ "$" ++ Scan.print_uint n ++ "$"
          ++ body)%string
    with (String "$" (String "z" (String "$"
            (Scan.print_uint x ++ String "$"
               (Scan.print_uint n ++ String "$" body)))))%string.
  cbn [app Scan.sscanf]. cbn [Ascii.eqb Bool.eqb]. cbv iota.
  rewrite scan_uint_print by (auto; reflexivity).
  cbn [Scan.sscanf Ascii.eqb Bool.eqb]. cbv iota.
  rewrite scan_uint_print by (auto; reflexivity).
  cbn [Scan.sscanf Ascii.eqb Bool.eqb]. cbv iota. reflexivity.
Qed.

Lemma span_forallb (p : ascii -> bool) (s tok rest : string) :
  Scan.span p s = (tok, rest) ->
  forallb p (list_ascii_of_string tok) = true.
Proof.
  revert tok rest. induction s as [|x s IH]; intros tok rest; simpl.
  - intros [= <- _]. reflexivity.
  - destruct (p x) eqn:Hx; [|intros [= <- _]; reflexivity].
    destruct (Scan.span p s) as [tok' r']. intros [= <- _]. simpl.
    rewrite Hx. simpl. eapply IH. reflexivity.
Qed.

(** What [sscanf] stores: numbers that fit an [unsigned int], and
    non-empty texts of characters of the scanset. *)
Lemma sscanf_values (p : ascii -> bool) (fmt : list Scan.directive) :
  (forall q, In (Scan.Set_ q) fmt -> q = p) ->
  forall s,
    Forall (fun v =>
              match v with
              | Scan.VUint n => 0 <= n < 2 ^ 32
              | Scan.VStr t =>
                  t <> "" /\ forallb p (list_ascii_of_string t) = true
              end) (Scan.sscanf fmt s).
Proof.
  induction fmt as [|d fmt IH]; intros Hp s; simpl; [constructor|].
  assert (Hp' : forall q, In (Scan.Set_ q) fmt -> q = p)
    by (intros q Hq; apply Hp; right; exact Hq).
  destruct d as [ch | | allowed].
  - destruct s as [|ch' s']; [constructor|].
    destruct (Ascii.eqb ch ch'); [apply IH; assumption | constructor].
  - destruct (Scan.scan_uint s) as [[n s']|] eqn:Hs; [|constructor].
    constructor; [eapply scan_uint_range; eauto | apply IH; assumption].
  - destruct (Scan.span allowed s) as [[|c0 tok] s'] eqn:Hs; [constructor|].
    constructor; [|apply IH; assumption].
    split; [discriminate|].
    rewrite <- (Hp allowed) by (left; reflexivity).
    eapply span_forallb; eauto.
Qed.

Lemma formats_scanset (q : ascii -> bool) :
  In (Scan.Set_ q) PBKDF2_FS_LOADHASH -> q = PBKDF2_FN_BASE64.
Proof.
  unfold PBKDF2_FS_LOADHASH, PBKDF2_FN_LOADHASH, PBKDF2_FN_LOADSALT,
    PBKDF2_FN_PREFIX. simpl.
  intuition (try discriminate);
    match goal with H : Scan.Set_ _ = Scan.Set_ _ |- _ =>
      inversion H; reflexivity end.
Qed.

(** The fields of a record that matched a shape. *)
Lemma compute_match_fields (h : Header) (ps : string) (v matched : bool)
    (p0 : pbkdf2v2_parameters) (s d k1 k2 : string) :
  compute_match h ps v = Some (matched, p0, s, d, k1, k2) ->
  exists x n,
    p0 = set_c n (set_a x (zero_parameters h))
    /\ 0 <= x < 2 ^ 32 /\ 0 <= n < 2 ^ 32
    /\ s <> "" /\ forallb PBKDF2_FN_BASE64 (list_ascii_of_string s) = true.
Proof.
  unfold compute_match. intros H.
  assert (Hv : forall fmt, (forall q, In (Scan.Set_ q) fmt ->
                                      In (Scan.Set_ q) PBKDF2_FS_LOADHASH) ->
             forall x n t rest,
               Scan.sscanf fmt ps
               = Scan.VUint x :: Scan.VUint n :: Scan.VStr t :: rest ->
               0 <= x < 2 ^ 32 /\ 0 <= n < 2 ^ 32 /\ t <> ""
               /\ forallb PBKDF2_FN_BASE64 (list_ascii_of_string t) = true).
  { intros fmt Hsub x n t rest Hs.
    pose proof (sscanf_values PBKDF2_FN_BASE64 fmt
                  (fun q Hq => formats_scanset q (Hsub q Hq)) ps) as Hall.
    rewrite Hs in Hall.
    inversion Hall as [|? ? H1 Hall1]; subst.
    inversion Hall1 as [|? ? H2 Hall2]; subst.
    inversion Hall2 as [|? ? H3 Hall3]; subst.
    tauto. }
  assert (Hsub5 : forall q, In (Scan.Set_ q) PBKDF2_FS_LOADHASH ->
                            In (Scan.Set_ q) PBKDF2_FS_LOADHASH) by auto.
  assert (Hsub4 : forall q, In (Scan.Set_ q) PBKDF2_FN_LOADHASH ->
                            In (Scan.Set_ q) PBKDF2_FS_LOADHASH).
  { intros q Hq. unfold PBKDF2_FS_LOADHASH. apply in_or_app. auto. }
  assert (Hsub3 : forall q, In (Scan.Set_ q) PBKDF2_FN_LOADSALT ->
                            In (Scan.Set_ q) PBKDF2_FS_LOADHASH).
  { intros q Hq. apply Hsub4. unfold PBKDF2_FN_LOADHASH. apply in_or_app.
    auto. }
  specialize (Hv PBKDF2_FS_LOADHASH Hsub5) as Hv5.
  specialize (Hv PBKDF2_FN_LOADHASH Hsub4) as Hv4.
  specialize (Hv PBKDF2_FN_LOADSALT Hsub3) as Hv3.
  revert H. unfold stored5, stored4, stored3.
  destruct v.
  - destruct (Scan.sscanf PBKDF2_FS_LOADHASH ps)
      as [|[x|] [|[n|] [|[|t] [|[|t1] [|[|t2] [|]]]]]] eqn:H5;
      try (destruct (Scan.sscanf PBKDF2_FN_LOADHASH ps)
             as [|[x'|] [|[n'|] [|[|t'] [|[|t1'] [|]]]]] eqn:H4;
           try discriminate;
           intros [= <- <- <- <- <- <-]; exists x', n';
           split; [reflexivity | eapply Hv4; reflexivity]).
    intros [= <- <- <- <- <- <-]. exists x, n.
    split; [reflexivity | eapply Hv5; reflexivity].
  - destruct (Scan.sscanf PBKDF2_FN_LOADSALT ps)
      as [|[x|] [|[n|] [|[|t] [|]]]] eqn:H3; try discriminate.
    intros [= <- <- <- <- <- <-]. exists x, n.
    split; [reflexivity | eapply Hv3; reflexivity].
Qed.

(* ------------------------------------------------------------------ *)
(** ** The PRF resolver as a table *)

Ltac case_of_facts :=
  repeat match goal with
         | Hc : case_of _ _ = true |- _ =>
             apply case_of_In in Hc; simpl in Hc
         | Hc : case_of _ _ = false |- _ =>
             apply not_true_iff_false in Hc;
             rewrite case_of_In in Hc; simpl in Hc
         end.

Lemma determine_prf_known (h : Header) (parsed : pbkdf2v2_parameters) :
  atheme_pbkdf2v2_determine_prf h parsed <> None <->
  In (a parsed) (prf_ids h).
Proof.
  unfold atheme_pbkdf2v2_determine_prf, prf_ids.
  repeat match goal with
         | |- context [case_of ?x ?l] => destruct (case_of x l) eqn:?
         end; cbn [md set_md set_dl set_scram set_salt64];
    case_of_facts; simpl; split; intros H; try discriminate;
    try congruence; try tauto.
Qed.

Lemma is_scram_id_case (h : Header) (x : Z) :
  is_scram_id h x <->
  case_of x [PBKDF2_PRF_SCRAM_SHA1 h; PBKDF2_PRF_SCRAM_SHA1_S64 h;
             PBKDF2_PRF_SCRAM_SHA2_256 h; PBKDF2_PRF_SCRAM_SHA2_256_S64 h;
             PBKDF2_PRF_SCRAM_SHA2_512 h; PBKDF2_PRF_SCRAM_SHA2_512_S64 h]
  = true.
Proof. symmetry. apply case_of_In. Qed.

Lemma is_s64_case (h : Header) (x : Z) :
  is_s64 h x <->
  case_of x [PBKDF2_PRF_HMAC_SHA1_S64 h; PBKDF2_PRF_HMAC_SHA2_256_S64 h;
             PBKDF2_PRF_HMAC_SHA2_512_S64 h; PBKDF2_PRF_SCRAM_SHA1_S64 h;
             PBKDF2_PRF_SCRAM_SHA2_256_S64 h; PBKDF2_PRF_SCRAM_SHA2_512_S64 h]
  = true.
Proof. symmetry. apply case_of_In. Qed.

(** X1: for a header whose PRF identifiers are pairwise different, the PRF
    resolver succeeds exactly on the twelve known identifiers.  On success
    the SCRAM flag is set exactly for the six SCRAM identifiers, the
    base64-salt flag exactly for the six [_S64] identifiers, the digest is
    SHA-1, SHA-256 or SHA-512 as the family of the identifier says, and
    the digest length is the size of that digest. *)
Theorem determine_prf_table (h : Header) (Hok : header_ok h) (x : Z) :
  match atheme_pbkdf2v2_determine_prf h (set_a x (zero_parameters h)) with
  | None => ~ In x (prf_ids h)
  | Some p =>
      In x (prf_ids h)
      /\ (scram p = true <-> is_scram_id h x)
      /\ (salt64 p = true <-> is_s64 h x)
      /\ ((md p = Some EVP_sha1 /\ is_sha1 h x)
          \/ (md p = Some EVP_sha256 /\ is_sha256 h x)
          \/ (md p = Some EVP_sha512 /\ is_sha512 h x))
      /\ (forall m, md p = Some m -> dl p = EVP_MD_size m)
  end.
Proof.
  destruct (in_dec Z.eq_dec x (prf_ids h)) as [Hin|Hnin].
  2: { destruct (atheme_pbkdf2v2_determine_prf h _) as [p|] eqn:Hp;
         [|exact Hnin].
       exfalso. apply Hnin.
       apply (determine_prf_known h (set_a x (zero_parameters h))).
       rewrite Hp. discriminate. }
  unfold is_sha1, is_sha256, is_sha512, is_scram_sha512.
  distinct_ids Hok.
  unfold prf_ids in Hin. simpl in Hin.
  destruct Hin as [<-|[<-|[<-|[<-|[<-|[<-|[<-|[<-|[<-|[<-|[<-|[<-|[]]]]]]]]]]]]];
    unfold atheme_pbkdf2v2_determine_prf, case_of, prf_ids;
    cbn [a set_a zero_parameters existsb]; eqb_ids;
    cbn [orb md dl scram salt64 set_md set_dl set_scram set_salt64 set_a
         zero_parameters];
    rewrite is_scram_id_case, is_s64_case; unfold case_of;
    cbn [existsb]; eqb_ids; cbn [orb];
    (split; [simpl; auto 15|]);
    (split; [reflexivity|]); (split; [reflexivity|]);
    (split; [|intros m [= <-]; reflexivity]).
  all: first [ left; split; [reflexivity | simpl; auto 6]
             | right; left; split; [reflexivity | simpl; auto 6]
             | right; right; split; [reflexivity | auto 6] ].
Qed.

Lemma determine_prf_table_witness :
  exists p,
    atheme_pbkdf2v2_determine_prf atheme_header
      (set_a 65 (zero_parameters atheme_header)) = Some p
    /\ scram p = true /\ salt64 p = true.
Proof.
  pose proof (determine_prf_table atheme_header atheme_header_ok 65) as H.
  destruct (atheme_pbkdf2v2_determine_prf atheme_header _) as [p|] eqn:Hp;
    [|vm_compute in Hp; discriminate].
  destruct H as (_ & Hs & H64 & _).
  exists p. split; [reflexivity|].
  split; [apply Hs | apply H64]; vm_compute; tauto.
Defined.

(* ------------------------------------------------------------------ *)
(** ** The calls of the credential computer *)

Lemma pw_nonempty (s : string) : negb (strlen s =? 0)%nat = true -> s <> "".
Proof. intros H ->. discriminate H. Qed.

(** What holds when the computer reaches its PBKDF2 call. *)
Lemma compute_trace_inv (h : Header) (E : Env) (pw ps : string) (v : bool)
    (e : event) :
  In e (trace (atheme_pbkdf2v2_compute h E pw ps v)) ->
  exists matched p0 s d k1 k2 p pw' parsed,
    compute_match h ps v = Some (matched, p0, s, d, k1, k2)
    /\ atheme_pbkdf2v2_determine_prf h p0 = Some p
    /\ (if (HAVE_LIBIDN h && scram p)%bool
        then atheme_pbkdf2v2_scram_normalize h E pw = Some pw'
        else pw' = pw)
    /\ pw' <> ""
    /\ e = EvPBKDF2 pw' parsed
    /\ scram parsed = scram p /\ salt64 parsed = salt64 p
    /\ md parsed = md p /\ dl parsed = dl p
    /\ c parsed = c p0 /\ a parsed = a p0
    /\ (if salt64 p
        then base64_decode E s (SALT_BUFSIZE h)
             = Some (firstn (sl parsed) (salt parsed))
        else firstn (sl parsed) (salt parsed) = list_byte_of_string s).
Proof.
  unfold atheme_pbkdf2v2_compute.
  destruct (compute_match h ps v) as [[[[[[matched p0] s] d] k1] k2]|];
    [|simpl; tauto].
  unfold bind, lift at 1. cbv iota beta.
  destruct (atheme_pbkdf2v2_determine_prf h p0) as [p|] eqn:Hprf;
    [|simpl; tauto].
  unfold lift at 1. cbv iota beta.
  pose proof (determine_prf_a _ _ _ Hprf) as Ha.
  pose proof (determine_prf_buffers _ _ _ Hprf) as (_ & _ & _ & _ & _ & Hc).
  intros Hin. exists matched, p0, s, d, k1, k2, p.
  revert Hin.
  unfold trace, lift, ret, fail, call, decode_exact.
  repeat (destruct_inner; simpl fst; cbv iota beta; try (simpl; tauto)).
  all: intros [<-|[]].
  all: do 2 eexists; split; [reflexivity|]; split; [exact Hprf|].
  all: split; [reflexivity|]; split; [eapply pw_nonempty; eassumption|].
  all: split; [reflexivity|].
  all: cbn [scram salt64 md dl sl salt c a set_sl set_salt set_ssk set_shk
            set_sdg].
  all: repeat (split; [first [reflexivity | assumption]|]).
  all: rewrite firstn_write_buf
    by (first [reflexivity | apply length_list_byte_of_string]).
  all: first [assumption | reflexivity].
Qed.

Lemma compute_trace_cases (h : Header) (E : Env) (pw ps : string) (v : bool) :
  (trace (atheme_pbkdf2v2_compute h E pw ps v) = []
   /\ result (atheme_pbkdf2v2_compute h E pw ps v) = None)
  \/ exists pw' p, trace (atheme_pbkdf2v2_compute h E pw ps v)
                   = [EvPBKDF2 pw' p].
Proof.
  unfold atheme_pbkdf2v2_compute, trace, result, bind, lift, ret, fail, call,
    decode_exact.
  repeat (destruct_inner; simpl; auto).
  all: right; eauto.
Qed.

Lemma compute_trace_pbkdf2 (h : Header) (E : Env) (pw ps : string)
    (v : bool) (e : event) :
  In e (trace (atheme_pbkdf2v2_compute h E pw ps v)) -> is_pbkdf2 e = true.
Proof.
  destruct (compute_trace_cases h E pw ps v)
    as [[Ht Hr]|(pw' & p & Ht)]; rewrite Ht; simpl.
  - intros [].
  - intros [<-|[]]. reflexivity.
Qed.

(** X2: a run of the credential computer makes at most one cryptographic
    call, and that call is PBKDF2; a run that returns a credential made
    exactly one. *)
Theorem compute_single_pbkdf2 (h : Header) (E : Env) (pw ps : string)
    (v : bool) :
  (List.length (trace (atheme_pbkdf2v2_compute h E pw ps v)) <= 1)%nat
  /\ (forall e, In e (trace (atheme_pbkdf2v2_compute h E pw ps v)) ->
        is_pbkdf2 e = true)
  /\ (result (atheme_pbkdf2v2_compute h E pw ps v) = None
      \/ List.length (trace (atheme_pbkdf2v2_compute h E pw ps v)) = 1%nat).
Proof.
  destruct (compute_trace_cases h E pw ps v)
    as [[Ht Hr]|(pw' & p & Ht)]; rewrite Ht; simpl.
  - split; [lia|]. split; [intros e []|]. left. exact Hr.
  - split; [lia|]. split; [intros e [<-|[]]; reflexivity|]. right.
    reflexivity.
Qed.

Lemma entry_pbkdf2_from_compute (h : Header) (E : Env) (x : entry)
    (e : event) :
  In e (entry_trace h E x) -> is_pbkdf2 e = true ->
  match x with
  | Compute_ pw ps v => In e (trace (atheme_pbkdf2v2_compute h E pw ps v))
  | Dbextract _ _ => False
  | Crypt pw ps => In e (trace (atheme_pbkdf2v2_compute h E pw ps false))
  | Verify pw ps => In e (trace (atheme_pbkdf2v2_compute h E pw ps true))
  end.
Proof.
  intros Hin Hk.
  destruct x as [pw ps v | st ps | pw ps | pw ps]; simpl in Hin.
  - exact Hin.
  - apply dbextract_trace_sane in Hin as [_ Hn]. congruence.
  - unfold atheme_pbkdf2v2_crypt in Hin.
    apply trace_bind in Hin as [Hin | (p & Hp & Hin)]; [exact Hin|].
    exfalso. destruct (scram p).
    + apply trace_bind in Hin as [Hin | ([csk chk] & _ & Hin)].
      * apply scram_derive_trace_parsed in Hin as [_ Hn]. congruence.
      * revert Hin. unfold trace, bind, lift, ret, fail.
        repeat (destruct_inner; simpl; try tauto).
    + revert Hin. unfold trace, bind, lift, ret, fail.
      repeat (destruct_inner; simpl; try tauto).
  - unfold atheme_pbkdf2v2_verify in Hin.
    destruct (atheme_pbkdf2v2_compute h E pw ps true) as [t [p|]] eqn:Hc;
      [|exact Hin].
    destruct (scram p); [|exact Hin].
    destruct (atheme_pbkdf2v2_scram_derive E p true false)
      as [t' r] eqn:Hd.
    assert (Hin' : In e (t ++ t')).
    { destruct r as [[csk chk]|]; exact Hin. }
    apply in_app_or in Hin' as [Hin' | Hin']; [exact Hin'|].
    exfalso.
    assert (Hn : is_pbkdf2 e = false).
    { apply (scram_derive_trace_parsed E p true false). rewrite Hd.
      exact Hin'. }
    congruence.
Qed.

(** X3: no entry point ever calls PBKDF2 with an empty password. *)
Theorem pbkdf2_password_nonempty (h : Header) (E : Env) (x : entry)
    (pw' : string) (p : pbkdf2v2_parameters) :
  In (EvPBKDF2 pw' p) (entry_trace h E x) -> pw' <> "".
Proof.
  intros Hin.
  pose proof (entry_pbkdf2_from_compute h E x _ Hin eq_refl) as Hc.
  destruct x as [pw ps v | st ps | pw ps | pw ps]; try contradiction;
    apply compute_trace_inv in Hc
      as (? & ? & ? & ? & ? & ? & ? & pw1 & p1 & _ & _ & _ & Hne & He & _);
    inversion He; subst; exact Hne.
Qed.

Lemma pbkdf2_password_nonempty_witness :
  match entry_trace atheme_header Sample.env
          (Verify "correct horse"
             "$z$25$64000$QUJDREVGR0hJSktMTU5PUA==$bBO6YRe+ZQzCaRC3bRS7Ygm/Zg20ahG4XxW8YwqxZw4=")
  with
  | EvPBKDF2 pw' _ :: _ => pw' <> ""
  | _ => False
  end.
Proof.
  pose proof (pbkdf2_password_nonempty atheme_header Sample.env
                (Verify "correct horse"
                   "$z$25$64000$QUJDREVGR0hJSktMTU5PUA==$bBO6YRe+ZQzCaRC3bRS7Ygm/Zg20ahG4XxW8YwqxZw4="))
    as H.
  destruct (entry_trace _ _ _) as [|[p m|p d|pw' p] t] eqn:Ht;
    try (vm_compute in Ht; discriminate).
  apply (H pw' p). left. reflexivity.
Defined.

(** X4: the password the computer hands to PBKDF2 is the SASLprep
    normalization of the given one when the build has libidn and the PRF
    is a SCRAM one, and the given password itself otherwise. *)
Theorem pbkdf2_password_normalized (h : Header) (E : Env)
    (pw ps : string) (v : bool) (pw' : string) (p : pbkdf2v2_parameters) :
  In (EvPBKDF2 pw' p) (trace (atheme_pbkdf2v2_compute h E pw ps v)) ->
  if (HAVE_LIBIDN h && scram p)%bool
  then atheme_pbkdf2v2_scram_normalize h E pw = Some pw'
  else pw' = pw.
Proof.
  intros Hin.
  apply compute_trace_inv in Hin
    as (? & ? & ? & ? & ? & ? & q & pw1 & p1 & _ & _ & Hn & _ & He & Hs & _).
  inversion He; subst. rewrite Hs. exact Hn.
Qed.

Lemma pbkdf2_password_normalized_witness :
  let pw := ("correct" ++ soft_hyphen ++ "horse")%string in
  match trace (atheme_pbkdf2v2_compute atheme_header Sample.env pw
                 "$z$44$64000$c2FsdHNhbHRzYWx0$TmiRuuP9Jk9pkrvk/idQapO85f8=$xOoQNlyCqM70GkBmjLLY/iRKcJY="
                 true)
  with
  | EvPBKDF2 pw' _ :: _ =>
      atheme_pbkdf2v2_scram_normalize atheme_header Sample.env pw = Some pw'
      /\ pw' = "correcthorse"
  | _ => False
  end.
Proof.
  intros pw.
  pose proof (pbkdf2_password_normalized atheme_header Sample.env pw
                "$z$44$64000$c2FsdHNhbHRzYWx0$TmiRuuP9Jk9pkrvk/idQapO85f8=$xOoQNlyCqM70GkBmjLLY/iRKcJY="
                true) as H.
  destruct (trace _) as [|[p m|p d|pw' p] t] eqn:Ht;
    try (vm_compute in Ht; discriminate).
  specialize (H pw' p (or_introl eq_refl)).
  assert (Hp : scram p = true /\ pw' = "correcthorse").
  { vm_compute in Ht. inversion Ht. split; reflexivity. }
  destruct Hp as [Hs Hpw]. rewrite Hs in H.
  split; [exact H | exact Hpw].
Defined.

(** X5: the credential PBKDF2 is called for has the PRF id and the
    iteration count scanned from the record, and its salt is the salt
    field of the record: base64-decoded for a base64-salt PRF, the text
    itself otherwise. *)
Theorem pbkdf2_record_parameters (h : Header) (E : Env)
    (pw ps : string) (v : bool) (pw' : string) (p : pbkdf2v2_parameters) :
  In (EvPBKDF2 pw' p) (trace (atheme_pbkdf2v2_compute h E pw ps v)) ->
  exists matched p0 s d k1 k2,
    compute_match h ps v = Some (matched, p0, s, d, k1, k2)
    /\ a p = a p0 /\ c p = c p0
    /\ (if salt64 p
        then base64_decode E s (SALT_BUFSIZE h)
             = Some (firstn (sl p) (salt p))
        else firstn (sl p) (salt p) = list_byte_of_string s).
Proof.
  intros Hin.
  apply compute_trace_inv in Hin
    as (m & p0 & s & d & k1 & k2 & q & pw1 & p1 & Hm & _ & _ & _ & He & _
        & Hs & _ & _ & Hc & Ha & Hsalt).
  inversion He; subst. exists m, p0, s, d, k1, k2.
  rewrite Hs. auto.
Qed.

Lemma pbkdf2_record_parameters_witness :
  match trace (atheme_pbkdf2v2_compute atheme_header Sample.env
                 "correct horse"
                 "$z$25$64000$QUJDREVGR0hJSktMTU5PUA==$bBO6YRe+ZQzCaRC3bRS7Ygm/Zg20ahG4XxW8YwqxZw4="
                 true)
  with
  | EvPBKDF2 _ p :: _ =>
      a p = 25 /\ c p = 64000
      /\ base64_decode Sample.env "QUJDREVGR0hJSktMTU5PUA==" 192
         = Some (firstn (sl p) (salt p))
  | _ => False
  end.
Proof.
  pose proof (pbkdf2_record_parameters atheme_header Sample.env
                "correct horse"
                "$z$25$64000$QUJDREVGR0hJSktMTU5PUA==$bBO6YRe+ZQzCaRC3bRS7Ygm/Zg20ahG4XxW8YwqxZw4="
                true) as H.
  destruct (trace _) as [|[p m|p d|pw' p] t] eqn:Ht;
    try (vm_compute in Ht; discriminate).
  destruct (H pw' p (or_introl eq_refl))
    as (matched & p0 & s & d & k1 & k2 & Hm & Ha & Hc & Hsalt).
  assert (Hp : salt64 p = true).
  { vm_compute in Ht. inversion Ht. reflexivity. }
  rewrite Hp in Hsalt.
  vm_compute in Hm. inversion Hm; subst.
  split; [exact Ha|]. split; [exact Hc | exact Hsalt].
Defined.

Lemma scram_derive_server_only_trace (E : Env) (p : pbkdf2v2_parameters) :
  trace (atheme_pbkdf2v2_scram_derive E p true false)
  = [EvHMAC p ServerKeyStr].
Proof.
  unfold atheme_pbkdf2v2_scram_derive, hmac_cdg, trace, bind, call, ret.
  destruct (match md p with Some m => _ | None => None end); reflexivity.
Qed.

(** X6: the computer calls nothing but PBKDF2; dbextract never calls
    PBKDF2; [verify] never calls the digest function, and the only HMAC it
    computes is the one over ["Server Key"]. *)
Theorem entry_call_kinds (h : Header) (E : Env) (x : entry) (e : event) :
  In e (entry_trace h E x) ->
  match x with
  | Compute_ _ _ _ => is_pbkdf2 e = true
  | Dbextract _ _ => is_pbkdf2 e = false
  | Crypt _ _ => True
  | Verify _ _ =>
      match e with
      | EvPBKDF2 _ _ => True
      | EvHMAC _ msg => msg = list_byte_of_string "Server Key"
      | EvDigest _ _ => False
      end
  end.
Proof.
  intros Hin.
  destruct x as [pw ps v | st ps | pw ps | pw ps]; simpl in Hin; auto.
  - apply (compute_trace_pbkdf2 h E pw ps v). exact Hin.
  - apply dbextract_trace_sane in Hin. tauto.
  - unfold atheme_pbkdf2v2_verify in Hin.
    assert (Hc : forall e', In e' (trace (atheme_pbkdf2v2_compute h E pw ps
                                            true)) ->
                 is_pbkdf2 e' = true)
      by apply (compute_trace_pbkdf2 h E pw ps true).
    destruct (atheme_pbkdf2v2_compute h E pw ps true) as [t [p|]];
      simpl in Hc.
    + assert (Hin' : In e t \/ (scram p = true /\ e = EvHMAC p ServerKeyStr)).
      { destruct (scram p); [|auto].
        pose proof (scram_derive_server_only_trace E p) as Ht.
        destruct (atheme_pbkdf2v2_scram_derive E p true false)
          as [t' r]. simpl in Ht. subst t'.
        assert (Hin' : In e (t ++ [EvHMAC p ServerKeyStr]))
          by (destruct r as [[csk chk]|]; exact Hin).
        apply in_app_or in Hin' as [Hin'|[Hin'|[]]]; auto. }
      destruct Hin' as [Hin'|[_ ->]]; [|reflexivity].
      apply Hc in Hin'. destruct e; try discriminate; exact I.
    + apply Hc in Hin. destruct e; try discriminate; exact I.
Qed.

Lemma entry_call_kinds_witness :
  match entry_trace atheme_header Sample.env
          (Verify "correct horse"
             "$z$44$64000$c2FsdHNhbHRzYWx0$TmiRuuP9Jk9pkrvk/idQapO85f8=$xOoQNlyCqM70GkBmjLLY/iRKcJY=")
  with
  | [EvPBKDF2 _ _; EvHMAC _ msg] => msg = list_byte_of_string "Server Key"
  | _ => False
  end.
Proof.
  pose proof (entry_call_kinds atheme_header Sample.env
                (Verify "correct horse"
                   "$z$44$64000$c2FsdHNhbHRzYWx0$TmiRuuP9Jk9pkrvk/idQapO85f8=$xOoQNlyCqM70GkBmjLLY/iRKcJY="))
    as H.
  destruct (entry_trace _ _ _)
    as [|[p m|p d|pw' p] [|[p1 m1|p1 d1|pw1 p1] [|e2 t]]] eqn:Ht;
    try (vm_compute in Ht; discriminate).
  apply (H (EvHMAC p1 m1)). right. left. reflexivity.
Defined.

(** X7: a record [crypt] returns is shorter than [PASSLEN] and is printed
    from the credential the computer returned: its PRF id, its iteration
    count and the C string in its salt buffer, followed, for a SCRAM PRF,
    by the base64 texts of the ServerKey and the StoredKey derived from
    the computed digest, and otherwise by the base64 text of the computed
    digest. *)
Theorem crypt_record (h : Header) (E : Env) (pw ps rec : string) :
  result (atheme_pbkdf2v2_crypt h E pw ps) = Some rec ->
  exists parsed m,
    result (atheme_pbkdf2v2_compute h E pw ps false) = Some parsed
    /\ md parsed = Some m
    /\ (strlen rec < PASSLEN h)%nat
    /\ let derived_key := firstn (dl parsed) (cdg parsed) in
       let salt_text := cstring_of_buf (salt parsed) in
       if scram parsed
       then exists server_key client_key stored_key k1 k2,
              HMAC E m derived_key (list_byte_of_string "Server Key")
              = Some server_key
              /\ HMAC E m derived_key (list_byte_of_string "Client Key")
                 = Some client_key
              /\ EVP_Digest E (firstn (dl parsed) client_key) m
                 = Some stored_key
              /\ base64_encode E (firstn (dl parsed) server_key)
                   (EVP_MAX_MD_SIZE * 3) = Some k1
              /\ base64_encode E (firstn (dl parsed) stored_key)
                   (EVP_MAX_MD_SIZE * 3) = Some k2
              /\ rec = PBKDF2_FS_SAVEHASH (a parsed) (c parsed) salt_text
                         k1 k2
       else exists dg,
              base64_encode E derived_key (EVP_MAX_MD_SIZE * 3) = Some dg
              /\ rec = PBKDF2_FN_SAVEHASH (a parsed) (c parsed) salt_text dg.
Proof.
  unfold atheme_pbkdf2v2_crypt. intros H.
  apply result_bind_Some in H as (parsed & Hc & H).
  destruct (compute_cdg_is_pbkdf2 h E pw ps false parsed Hc)
    as (_ & m & _ & _ & Hmd & _).
  exists parsed, m. split; [exact Hc|]. split; [exact Hmd|]. revert H.
  change (list_byte_of_string "Server Key") with ServerKeyStr.
  change (list_byte_of_string "Client Key") with ClientKeyStr.
  unfold atheme_pbkdf2v2_scram_derive, hmac_cdg, digest_of, result, bind,
    lift, ret, fail, call. rewrite Hmd. cbv zeta.
  repeat (destruct_inner; cbn [snd fst]; cbv iota beta; try discriminate).
  all: intros [= <-].
  all: match goal with
       | Hl : negb (_ <=? _)%nat = true |- _ =>
           apply negb_true_iff, Nat.leb_gt in Hl; split; [exact Hl|]
       end.
  all: first [ do 5 eexists;
               repeat (split; [first [reflexivity | eassumption]|]);
               reflexivity
             | eexists; split; reflexivity ].
Qed.

Lemma crypt_record_witness :
  exists rec parsed dg,
    result (atheme_pbkdf2v2_crypt atheme_header Sample.env "correct horse"
              "$z$5$64000$c2FsdHNhbHRzYWx0$") = Some rec
    /\ result (atheme_pbkdf2v2_compute atheme_header Sample.env
                 "correct horse" "$z$5$64000$c2FsdHNhbHRzYWx0$" false)
       = Some parsed
    /\ (strlen rec < 288)%nat
    /\ base64_encode Sample.env (firstn (dl parsed) (cdg parsed))
         (EVP_MAX_MD_SIZE * 3) = Some dg
    /\ rec = PBKDF2_FN_SAVEHASH 5 64000 "c2FsdHNhbHRzYWx0" dg.
Proof.
  destruct (result (atheme_pbkdf2v2_crypt atheme_header Sample.env
                      "correct horse" "$z$5$64000$c2FsdHNhbHRzYWx0$"))
    as [rec|] eqn:Hr; [|vm_compute in Hr; discriminate].
  destruct (crypt_record atheme_header Sample.env _ _ rec Hr)
    as (parsed & m & Hc & Hmd & Hlen & H).
  cbv zeta in H.
  assert (Hp : scram parsed = false /\ a parsed = 5 /\ c parsed = 64000
               /\ cstring_of_buf (salt parsed) = "c2FsdHNhbHRzYWx0").
  { vm_compute in Hc. inversion Hc. repeat split; reflexivity. }
  destruct Hp as (Hs & Ha & Hcc & Hsalt).
  rewrite Hs, Ha, Hcc, Hsalt in H. destruct H as (dg & Hdg & Hrec).
  exists rec, parsed, dg. auto.
Defined.

(* ------------------------------------------------------------------ *)
(** ** The extractor of SCRAM credentials *)

Lemma kinds_shape5 (vs : list Scan.value) (r : list bool) :
  [true; true; false; false; false] = map Scan.kind vs ++ r ->
  (exists x n s k1 k2,
     vs = [Scan.VUint x; Scan.VUint n; Scan.VStr s; Scan.VStr k1;
           Scan.VStr k2])
  \/ ((List.length vs < 5)%nat /\ stored5 vs = None).
Proof.
  destruct vs as [|[x|?] [|[n|?] [|[?|s] [|[?|k1] [|[?|k2] [|]]]]]];
    simpl; intros H; try discriminate H;
    try (right; split; [lia | reflexivity]).
  left. eauto 10.
Qed.

Lemma kinds_shape4 (vs : list Scan.value) (r : list bool) :
  [true; true; false; false] = map Scan.kind vs ++ r ->
  (exists x n s d,
     vs = [Scan.VUint x; Scan.VUint n; Scan.VStr s; Scan.VStr d])
  \/ ((List.length vs < 4)%nat /\ stored4 vs = None).
Proof.
  destruct vs as [|[x|?] [|[n|?] [|[?|s] [|[?|d] [|]]]]];
    simpl; intros H; try discriminate H;
    try (right; split; [lia | reflexivity]).
  left. eauto 10.
Qed.

(** The two parsers of stored records agree: the extractor matches the
    shape the computer matches in verify mode, with the same fields. *)
Lemma dbextract_match_compute_match (h : Header) (stack : locals)
    (ps : string) :
  match compute_match h ps true with
  | Some (true, p0, s, _, k1, k2) =>
      dbextract_match h stack ps
      = Some (p0, {| salt64_ := s; sdg64 := sdg64 stack; ssk64 := k1;
                     shk64 := k2 |})
  | Some (false, p0, s, d, _, _) =>
      dbextract_match h stack ps
      = Some (p0, {| salt64_ := s; sdg64 := d; ssk64 := d;
                     shk64 := shk64 stack |})
  | None => dbextract_match h stack ps = None
  end.
Proof.
  unfold compute_match, dbextract_match.
  destruct (sscanf_kinds PBKDF2_FS_LOADHASH ps) as (r5 & Hk5).
  destruct (sscanf_kinds PBKDF2_FN_LOADHASH ps) as (r4 & Hk4).
  destruct (sscanf_app PBKDF2_FN_LOADHASH
              [Scan.Lit "$"%char; Scan.Set_ PBKDF2_FN_BASE64] ps)
    as (tl & Happ & Htl).
  change (PBKDF2_FN_LOADHASH
          ++ [Scan.Lit "$"%char; Scan.Set_ PBKDF2_FN_BASE64])
    with PBKDF2_FS_LOADHASH in Happ.
  change (Scan.conv_kinds PBKDF2_FS_LOADHASH)
    with [true; true; false; false; false] in Hk5.
  change (Scan.conv_kinds PBKDF2_FN_LOADHASH)
    with [true; true; false; false] in Hk4, Htl.
  remember (Scan.sscanf PBKDF2_FS_LOADHASH ps) as vs5 eqn:E5.
  remember (Scan.sscanf PBKDF2_FN_LOADHASH ps) as vs4 eqn:E4.
  clear E5 E4. cbv zeta.
  destruct (kinds_shape5 vs5 r5 Hk5)
    as [(x & n & s & k1 & k2 & ->) | [Hlt5 Hs5]].
  - reflexivity.
  - rewrite Hs5.
    replace (List.length vs5 =? 5)%nat with false
      by (symmetry; apply Nat.eqb_neq; lia).
    destruct (kinds_shape4 vs4 r4 Hk4)
      as [(x & n & s & d & ->) | [Hlt4 Hs4]].
    + assert (Htl0 : tl = []).
      { destruct tl as [|v tl]; [reflexivity|].
        rewrite Happ, length_app in Hlt5. simpl in Hlt5. lia. }
      subst tl. rewrite app_nil_r in Happ. subst vs5. reflexivity.
    + rewrite Hs4.
      replace (List.length vs4 =? 4)%nat with false
        by (symmetry; apply Nat.eqb_neq; lia).
      reflexivity.
Qed.

(** X8: when the shape a record matches agrees with its PRF (the SCRAM
    shape for a SCRAM PRF, the HMAC shape for an HMAC PRF), and for every
    record that matches no shape or has no known PRF, what dbextract
    returns and calls does not depend on what its uninitialised character
    arrays held. *)
Theorem dbextract_ignores_stack (h : Header) (E : Env) (ps : string)
    (st1 st2 : locals) :
  (forall matched p0 s d k1 k2 p,
     compute_match h ps true = Some (matched, p0, s, d, k1, k2) ->
     atheme_pbkdf2v2_determine_prf h p0 = Some p ->
     scram p = matched) ->
  atheme_pbkdf2v2_scram_dbextract h E st1 ps
  = atheme_pbkdf2v2_scram_dbextract h E st2 ps.
Proof.
  intros Hagree. unfold atheme_pbkdf2v2_scram_dbextract.
  pose proof (dbextract_match_compute_match h st1 ps) as H1.
  pose proof (dbextract_match_compute_match h st2 ps) as H2.
  destruct (compute_match h ps true)
    as [[[[[[matched p0] s] d] k1] k2]|] eqn:Hm.
  2: { rewrite H1, H2. reflexivity. }
  specialize (Hagree matched p0 s d k1 k2).
  destruct matched; rewrite H1, H2; clear H1 H2;
    unfold bind, lift at 1 3; cbv iota beta;
    (destruct (atheme_pbkdf2v2_determine_prf h p0) as [p|];
       [|reflexivity]);
    specialize (Hagree p eq_refl eq_refl);
    unfold lift, ret, fail, call, decode_exact,
      atheme_pbkdf2v2_scram_derive, hmac_cdg, digest_of, bind;
    cbn [salt64_ sdg64 ssk64 shk64]; cbv iota beta;
    repeat (destruct_inner; simpl in *; try reflexivity; try congruence).
Qed.

Lemma dbextract_ignores_stack_witness :
  atheme_pbkdf2v2_scram_dbextract atheme_header Sample.env
    {| salt64_ := "junk"; sdg64 := "junk"; ssk64 := "junk";
       shk64 := "junk" |}
    "$z$44$64000$c2FsdHNhbHRzYWx0$TmiRuuP9Jk9pkrvk/idQapO85f8=$xOoQNlyCqM70GkBmjLLY/iRKcJY="
  = atheme_pbkdf2v2_scram_dbextract atheme_header Sample.env
      {| salt64_ := ""; sdg64 := "AAAA"; ssk64 := "AAAA"; shk64 := "AAAA" |}
      "$z$44$64000$c2FsdHNhbHRzYWx0$TmiRuuP9Jk9pkrvk/idQapO85f8=$xOoQNlyCqM70GkBmjLLY/iRKcJY=".
Proof.
  apply dbextract_ignores_stack.
  intros matched p0 s d k1 k2 p Hm Hp.
  vm_compute in Hm. inversion Hm; subst.
  vm_compute in Hp. inversion Hp; subst. reflexivity.
Defined.

Lemma determine_prf_md (h : Header) (p0 p : pbkdf2v2_parameters) :
  atheme_pbkdf2v2_determine_prf h p0 = Some p -> exists m, md p = Some m.
Proof.
  unfold atheme_pbkdf2v2_determine_prf.
  repeat (destruct_inner; simpl; try discriminate).
  all: intros H; inversion H; subst; simpl in *; eauto.
Qed.

Ltac nat_eqs :=
  repeat match goal with
         | Hl : (_ =? _)%nat = true |- _ => apply Nat.eqb_eq in Hl
         end.

(** X9: from a record of the HMAC shape with an HMAC PRF, dbextract
    returns the decoded stored digest as the salted password, and the
    ServerKey and StoredKey derived from it: the HMACs over ["Server
    Key"] and ["Client Key"], the latter digested. *)
Theorem dbextract_hmac_record (h : Header) (E : Env) (st : locals)
    (ps : string) (p0 p out : pbkdf2v2_parameters) (s d k1 k2 : string) :
  compute_match h ps true = Some (false, p0, s, d, k1, k2) ->
  atheme_pbkdf2v2_determine_prf h p0 = Some p ->
  scram p = false ->
  result (atheme_pbkdf2v2_scram_dbextract h E st ps) = Some out ->
  exists m raw csk cck chk,
    md out = Some m
    /\ base64_decode E d EVP_MAX_MD_SIZE = Some raw
    /\ List.length raw = dl out
    /\ HMAC E m raw ServerKeyStr = Some csk
    /\ HMAC E m raw ClientKeyStr = Some cck
    /\ EVP_Digest E (firstn (dl out) cck) m = Some chk
    /\ cdg out = write_buf raw (zero_buf EVP_MAX_MD_SIZE)
    /\ ssk out = write_buf csk (zero_buf EVP_MAX_MD_SIZE)
    /\ shk out = write_buf chk (zero_buf EVP_MAX_MD_SIZE)
    /\ c out = c p0.
Proof.
  intros Hm Hprf Hscram.
  pose proof (dbextract_match_compute_match h st ps) as Hd.
  rewrite Hm in Hd.
  unfold atheme_pbkdf2v2_scram_dbextract. rewrite Hd. clear Hd.
  apply compute_match_zero in Hm as (x & n & ->).
  unfold bind, lift at 1. cbv iota beta. rewrite Hprf.
  destruct (determine_prf_md _ _ _ Hprf) as [m Hmd].
  apply determine_prf_buffers in Hprf
    as (Hssk & Hshk & Hsdg & Hcdg & _ & Hc).
  simpl in Hssk, Hshk, Hsdg, Hcdg, Hc.
  unfold lift, result, decode_exact, ret, fail, call, bind,
    atheme_pbkdf2v2_scram_derive, hmac_cdg, digest_of.
  cbn [salt64_ sdg64 ssk64 shk64]. cbv iota beta.
  repeat (destruct_inner; simpl in *; try discriminate; try congruence).
  all: intros H; inversion H; subst; simpl.
  all: nat_eqs.
  all: rewrite ?Hssk, ?Hshk, ?Hcdg, ?Hc in *.
  all: match goal with
       | Hl : List.length ?r = _,
         Hh : HMAC _ _ (firstn _ (write_buf ?r _)) _ = _ |- _ =>
           rewrite (firstn_write_buf r _ _ Hl) in *
       end.
  all: do 5 eexists; repeat (split; [eassumption || reflexivity|]);
    try reflexivity.
Qed.

Lemma dbextract_hmac_record_witness :
  let st := {| salt64_ := "junk"; sdg64 := "junk"; ssk64 := "junk";
               shk64 := "junk" |} in
  exists out m raw csk cck chk,
    result (atheme_pbkdf2v2_scram_dbextract atheme_header Sample.env st
              "$z$25$64000$QUJDREVGR0hJSktMTU5PUA==$bBO6YRe+ZQzCaRC3bRS7Ygm/Zg20ahG4XxW8YwqxZw4=")
    = Some out
    /\ md out = Some m
    /\ base64_decode Sample.env
         "bBO6YRe+ZQzCaRC3bRS7Ygm/Zg20ahG4XxW8YwqxZw4=" EVP_MAX_MD_SIZE
       = Some raw
    /\ HMAC Sample.env m raw ServerKeyStr = Some csk
    /\ HMAC Sample.env m raw ClientKeyStr = Some cck
    /\ EVP_Digest Sample.env (firstn (dl out) cck) m = Some chk
    /\ ssk out = write_buf csk (zero_buf EVP_MAX_MD_SIZE)
    /\ shk out = write_buf chk (zero_buf EVP_MAX_MD_SIZE).
Proof.
  intros st.
  destruct (result (atheme_pbkdf2v2_scram_dbextract atheme_header
                      Sample.env st _)) as [out|] eqn:Hr;
    [|vm_compute in Hr; discriminate].
  destruct (dbextract_hmac_record atheme_header Sample.env st
              "$z$25$64000$QUJDREVGR0hJSktMTU5PUA==$bBO6YRe+ZQzCaRC3bRS7Ygm/Zg20ahG4XxW8YwqxZw4="
              (set_c 64000 (set_a 25 (zero_parameters atheme_header)))
              (set_salt64 true
                 (set_dl SHA256_DIGEST_LENGTH
                    (set_md (Some EVP_sha256)
                       (set_c 64000
                          (set_a 25 (zero_parameters atheme_header))))))
              out "QUJDREVGR0hJSktMTU5PUA=="
              "bBO6YRe+ZQzCaRC3bRS7Ygm/Zg20ahG4XxW8YwqxZw4=" "" "")
    as (m & raw & csk & cck & chk & H1 & H2 & _ & H4 & H5 & H6 & _ & H8
        & H9 & _).
  - vm_compute. reflexivity.
  - vm_compute. reflexivity.
  - reflexivity.
  - exact Hr.
  - exists out, m, raw, csk, cck, chk. auto 10.
Defined.

(** X10: on a record of the SCRAM shape with a SCRAM PRF, dbextract makes
    no cryptographic call; when it succeeds, the ServerKey and StoredKey
    it returns are the record's two key fields, each decoding to exactly
    the digest length, and the computed-digest buffer stays zero. *)
Theorem dbextract_scram_record (h : Header) (E : Env) (st : locals)
    (ps : string) (p0 p : pbkdf2v2_parameters) (s d k1 k2 : string) :
  compute_match h ps true = Some (true, p0, s, d, k1, k2) ->
  atheme_pbkdf2v2_determine_prf h p0 = Some p ->
  scram p = true ->
  trace (atheme_pbkdf2v2_scram_dbextract h E st ps) = []
  /\ forall out,
       result (atheme_pbkdf2v2_scram_dbextract h E st ps) = Some out ->
       exists r1 r2,
         base64_decode E k1 EVP_MAX_MD_SIZE = Some r1
         /\ List.length r1 = dl out
         /\ ssk out = write_buf r1 (zero_buf EVP_MAX_MD_SIZE)
         /\ base64_decode E k2 EVP_MAX_MD_SIZE = Some r2
         /\ List.length r2 = dl out
         /\ shk out = write_buf r2 (zero_buf EVP_MAX_MD_SIZE)
         /\ cdg out = zero_buf EVP_MAX_MD_SIZE
         /\ c out = c p0.
Proof.
  intros Hm Hprf Hscram.
  assert (Hgen : exists r,
            atheme_pbkdf2v2_scram_dbextract h E st ps = ([], r)
            /\ forall out, r = Some out ->
                 exists r1 r2,
                   base64_decode E k1 EVP_MAX_MD_SIZE = Some r1
                   /\ List.length r1 = dl out
                   /\ ssk out = write_buf r1 (zero_buf EVP_MAX_MD_SIZE)
                   /\ base64_decode E k2 EVP_MAX_MD_SIZE = Some r2
                   /\ List.length r2 = dl out
                   /\ shk out = write_buf r2 (zero_buf EVP_MAX_MD_SIZE)
                   /\ cdg out = zero_buf EVP_MAX_MD_SIZE
                   /\ c out = c p0).
  { pose proof (dbextract_match_compute_match h st ps) as Hd.
    rewrite Hm in Hd.
    unfold atheme_pbkdf2v2_scram_dbextract. rewrite Hd. clear Hd.
    apply compute_match_zero in Hm as (x & n & ->).
    unfold bind, lift at 1. cbv iota beta. rewrite Hprf.
    apply determine_prf_buffers in Hprf
      as (Hssk & Hshk & Hsdg & Hcdg & _ & Hc).
    simpl in Hssk, Hshk, Hsdg, Hcdg, Hc.
    unfold lift, decode_exact, ret, fail, call, bind,
      atheme_pbkdf2v2_scram_derive, hmac_cdg, digest_of.
    cbn [salt64_ sdg64 ssk64 shk64]. cbv iota beta.
    repeat (destruct_inner; simpl in *; try discriminate; try congruence).
    all: eexists; (split; [reflexivity|]); try (intros out H; discriminate H).
    all: intros out H; inversion H; subst; simpl.
    all: nat_eqs.
    all: rewrite ?Hssk, ?Hshk, ?Hcdg, ?Hc in *.
    all: do 2 eexists; repeat (split; [eassumption || reflexivity|]);
      try reflexivity. }
  destruct Hgen as (r & -> & Hr). split; [reflexivity|exact Hr].
Qed.

Lemma dbextract_scram_record_witness :
  let st := {| salt64_ := "junk"; sdg64 := "junk"; ssk64 := "junk";
               shk64 := "junk" |} in
  let ps := "$z$44$64000$c2FsdHNhbHRzYWx0$TmiRuuP9Jk9pkrvk/idQapO85f8=$xOoQNlyCqM70GkBmjLLY/iRKcJY=" in
  trace (atheme_pbkdf2v2_scram_dbextract atheme_header Sample.env st ps) = []
  /\ exists out r1 r2,
       result (atheme_pbkdf2v2_scram_dbextract atheme_header Sample.env st
                 ps) = Some out
       /\ base64_decode Sample.env "TmiRuuP9Jk9pkrvk/idQapO85f8="
            EVP_MAX_MD_SIZE = Some r1
       /\ ssk out = write_buf r1 (zero_buf EVP_MAX_MD_SIZE)
       /\ base64_decode Sample.env "xOoQNlyCqM70GkBmjLLY/iRKcJY="
            EVP_MAX_MD_SIZE = Some r2
       /\ shk out = write_buf r2 (zero_buf EVP_MAX_MD_SIZE).
Proof.
  intros st ps.
  destruct (dbextract_scram_record atheme_header Sample.env st ps
              (set_c 64000 (set_a 44 (zero_parameters atheme_header)))
              (set_dl SHA_DIGEST_LENGTH
                 (set_md (Some EVP_sha1)
                    (set_scram true
                       (set_c 64000
                          (set_a 44 (zero_parameters atheme_header))))))
              "c2FsdHNhbHRzYWx0" "" "TmiRuuP9Jk9pkrvk/idQapO85f8="
              "xOoQNlyCqM70GkBmjLLY/iRKcJY=") as [Ht Hout].
  - vm_compute. reflexivity.
  - vm_compute. reflexivity.
  - reflexivity.
  - split; [exact Ht|].
    destruct (result (atheme_pbkdf2v2_scram_dbextract atheme_header
                        Sample.env st ps)) as [out|] eqn:Hr;
      [|vm_compute in Hr; discriminate].
    destruct (Hout out eq_refl)
      as (r1 & r2 & H1 & _ & H3 & H4 & _ & H6 & _).
    exists out, r1, r2. auto 10.
Defined.

(** X11: when the shape a record matches disagrees with its PRF, a
    successful dbextract has read an array the matching [sscanf] did not
    store into.  For the HMAC shape with a SCRAM PRF the ServerKey is the
    decoded digest field (left in [ssk64] by the first, failed [sscanf])
    and the StoredKey is decoded from the uninitialised [shk64]; for the
    SCRAM shape with an HMAC PRF the salted password is decoded from the
    uninitialised [sdg64]. *)
Theorem dbextract_shape_mismatch (h : Header) (E : Env) (st : locals)
    (ps : string) (matched : bool) (p0 p out : pbkdf2v2_parameters)
    (s d k1 k2 : string) :
  compute_match h ps true = Some (matched, p0, s, d, k1, k2) ->
  atheme_pbkdf2v2_determine_prf h p0 = Some p ->
  scram p = negb matched ->
  result (atheme_pbkdf2v2_scram_dbextract h E st ps) = Some out ->
  if matched
  then exists r,
         base64_decode E (sdg64 st) EVP_MAX_MD_SIZE = Some r
         /\ cdg out = write_buf r (zero_buf EVP_MAX_MD_SIZE)
  else exists r1 r2,
         base64_decode E d EVP_MAX_MD_SIZE = Some r1
         /\ ssk out = write_buf r1 (zero_buf EVP_MAX_MD_SIZE)
         /\ base64_decode E (shk64 st) EVP_MAX_MD_SIZE = Some r2
         /\ shk out = write_buf r2 (zero_buf EVP_MAX_MD_SIZE).
Proof.
  intros Hm Hprf Hscram.
  pose proof (dbextract_match_compute_match h st ps) as Hd.
  rewrite Hm in Hd.
  unfold atheme_pbkdf2v2_scram_dbextract.
  destruct matched; rewrite Hd; clear Hd.
  all: apply compute_match_zero in Hm as (x & n & ->).
  all: unfold bind, lift at 1; cbv iota beta; rewrite Hprf.
  all: apply determine_prf_buffers in Hprf
         as (Hssk & Hshk & Hsdg & Hcdg & _ & Hc).
  all: simpl in Hssk, Hshk, Hsdg, Hcdg, Hc, Hscram.
  all: unfold lift, result, decode_exact, ret, fail, call, bind,
         atheme_pbkdf2v2_scram_derive, hmac_cdg, digest_of.
  all: cbn [salt64_ sdg64 ssk64 shk64]; cbv iota beta.
  all: repeat (destruct_inner; simpl in *; try discriminate;
               try congruence).
  all: intros H; inversion H; subst; simpl.
  all: rewrite ?Hssk, ?Hshk, ?Hcdg, ?Hc in *.
  all: repeat eexists; eassumption || reflexivity.
Qed.

Lemma dbextract_shape_mismatch_witness :
  let st := {| salt64_ := "junk"; sdg64 := "junk"; ssk64 := "junk";
               shk64 := "xOoQNlyCqM70GkBmjLLY/iRKcJY=" |} in
  exists out r,
    result (atheme_pbkdf2v2_scram_dbextract atheme_header Sample.env st
              "$z$44$64000$c2FsdHNhbHRzYWx0$TmiRuuP9Jk9pkrvk/idQapO85f8=")
    = Some out
    /\ base64_decode Sample.env (shk64 st) EVP_MAX_MD_SIZE = Some r
    /\ shk out = write_buf r (zero_buf EVP_MAX_MD_SIZE).
Proof.
  intros st.
  destruct (result (atheme_pbkdf2v2_scram_dbextract atheme_header
                      Sample.env st _)) as [out|] eqn:Hr;
    [|vm_compute in Hr; discriminate].
  destruct (dbextract_shape_mismatch atheme_header Sample.env st
              "$z$44$64000$c2FsdHNhbHRzYWx0$TmiRuuP9Jk9pkrvk/idQapO85f8="
              false
              (set_c 64000 (set_a 44 (zero_parameters atheme_header)))
              (set_dl SHA_DIGEST_LENGTH
                 (set_md (Some EVP_sha1)
                    (set_scram true
                       (set_c 64000
                          (set_a 44 (zero_parameters atheme_header))))))
              out "c2FsdHNhbHRzYWx0" "TmiRuuP9Jk9pkrvk/idQapO85f8=" "" "")
    as (r1 & r2 & _ & _ & H3 & H4).
  - vm_compute. reflexivity.
  - vm_compute. reflexivity.
  - reflexivity.
  - exact Hr.
  - exists out, r2. auto.
Defined.

(** X12: on a record whose shape agrees with its PRF, dbextract and the
    computer in verify mode end with the same digest, digest length,
    iteration count, salt and flags; for the SCRAM shape they hold the
    same ServerKey and StoredKey, for the HMAC shape the salted password
    of dbextract is the stored digest of the computer. *)
Theorem dbextract_compute_agree (h : Header) (E : Env) (st : locals)
    (pw ps : string) (matched : bool) (p0 p out parsed : pbkdf2v2_parameters)
    (s d k1 k2 : string) :
  compute_match h ps true = Some (matched, p0, s, d, k1, k2) ->
  atheme_pbkdf2v2_determine_prf h p0 = Some p ->
  scram p = matched ->
  result (atheme_pbkdf2v2_scram_dbextract h E st ps) = Some out ->
  result (atheme_pbkdf2v2_compute h E pw ps true) = Some parsed ->
  md out = md parsed /\ dl out = dl parsed /\ c out = c parsed
  /\ sl out = sl parsed /\ salt out = salt parsed
  /\ scram out = scram parsed /\ salt64 out = salt64 parsed
  /\ if matched
     then ssk out = ssk parsed /\ shk out = shk parsed
     else cdg out = sdg parsed.
Proof.
  intros Hm Hprf Hscram.
  pose proof (dbextract_match_compute_match h st ps) as Hd.
  rewrite Hm in Hd.
  unfold atheme_pbkdf2v2_scram_dbextract, atheme_pbkdf2v2_compute.
  rewrite Hm.
  destruct matched; rewrite Hd; clear Hd.
  all: apply compute_match_zero in Hm as (x & n & ->).
  all: unfold bind, lift at 1 3; cbv iota beta; rewrite Hprf.
  all: apply determine_prf_buffers in Hprf
         as (Hssk & Hshk & Hsdg & Hcdg & _ & Hc).
  all: simpl in Hssk, Hshk, Hsdg, Hcdg, Hc.
  all: unfold lift, result, decode_exact, ret, fail, call, bind,
         atheme_pbkdf2v2_scram_derive, hmac_cdg, digest_of.
  all: cbn [salt64_ sdg64 ssk64 shk64]; cbv iota beta.
  all: repeat (destruct_inner; simpl in *; try discriminate;
               try congruence).
  all: intros H H'; inversion H; inversion H'; subst; simpl.
  all: rewrite ?Hssk, ?Hshk, ?Hcdg, ?Hsdg, ?Hc in *.
  all: repeat split; reflexivity.
Qed.

Lemma dbextract_compute_agree_witness :
  let st := {| salt64_ := "junk"; sdg64 := "junk"; ssk64 := "junk";
               shk64 := "junk" |} in
  let ps := "$z$44$64000$c2FsdHNhbHRzYWx0$TmiRuuP9Jk9pkrvk/idQapO85f8=$xOoQNlyCqM70GkBmjLLY/iRKcJY=" in
  exists out parsed,
    result (atheme_pbkdf2v2_scram_dbextract atheme_header Sample.env st ps)
    = Some out
    /\ result (atheme_pbkdf2v2_compute atheme_header Sample.env
                 "correct horse" ps true) = Some parsed
    /\ salt out = salt parsed /\ sl out = sl parsed /\ c out = c parsed
    /\ ssk out = ssk parsed /\ shk out = shk parsed.
Proof.
  intros st ps.
  destruct (result (atheme_pbkdf2v2_scram_dbextract atheme_header
                      Sample.env st ps)) as [out|] eqn:Hr;
    [|vm_compute in Hr; discriminate].
  destruct (result (atheme_pbkdf2v2_compute atheme_header Sample.env
                      "correct horse" ps true)) as [parsed|] eqn:Hc;
    [|vm_compute in Hc; discriminate].
  destruct (dbextract_compute_agree atheme_header Sample.env st
              "correct horse" ps true
              (set_c 64000 (set_a 44 (zero_parameters atheme_header)))
              (set_dl SHA_DIGEST_LENGTH
                 (set_md (Some EVP_sha1)
                    (set_scram true
                       (set_c 64000
                          (set_a 44 (zero_parameters atheme_header))))))
              out parsed
              "c2FsdHNhbHRzYWx0" "" "TmiRuuP9Jk9pkrvk/idQapO85f8="
              "xOoQNlyCqM70GkBmjLLY/iRKcJY=")
    as (_ & _ & H3 & H4 & H5 & _ & _ & H8 & H9).
  - vm_compute. reflexivity.
  - vm_compute. reflexivity.
  - reflexivity.
  - exact Hr.
  - exact Hc.
  - exists out, parsed. auto 10.
Defined.

(* ------------------------------------------------------------------ *)
(** ** The identifiers the extractor accepts *)

Lemma sane_set_salt (h : Header) (n : nat) (s : list byte)
    (p : pbkdf2v2_parameters) :
  atheme_pbkdf2v2_parameters_sane h (set_sl n (set_salt s p))
  = atheme_pbkdf2v2_parameters_sane h (set_sl n p).
Proof. reflexivity. Qed.

(** When its steps other than the switch on the PRF id succeed, dbextract
    accepts every identifier of the SHA-1 and SHA-256 families, and
    nothing else makes it succeed. *)
Lemma dbextract_success_iff (h : Header) (E : Env) (stack : locals)
    (ps : string) (p0 p : pbkdf2v2_parameters) (l : locals) :
  dbextract_match h stack ps = Some (p0, l) ->
  atheme_pbkdf2v2_determine_prf h p0 = Some p ->
  (exists out,
     result (atheme_pbkdf2v2_scram_dbextract h E stack ps) = Some out)
  <-> dbextract_ready h E p l /\ (is_sha1 h (a p0) \/ is_sha256 h (a p0)).
Proof.
  intros Hm Hprf. unfold atheme_pbkdf2v2_scram_dbextract. rewrite Hm.
  unfold bind, lift at 1. cbv iota beta. rewrite Hprf.
  pose proof (determine_prf_a _ _ _ Hprf) as Ha.
  destruct (determine_prf_md _ _ _ Hprf) as [m Hmd].
  apply determine_prf_buffers in Hprf
    as (Hssk & Hshk & Hsdg & Hcdg & _ & Hc).
  unfold is_sha1, is_sha256. rewrite <- !case_of_In, <- Ha.
  unfold dbextract_ready.
  unfold atheme_pbkdf2v2_scram_derive, hmac_cdg, digest_of.
  unfold lift, result, decode_exact, ret, fail, call, bind.
  cbv iota beta.
  destruct (salt64 p) eqn:Hs64; destruct (scram p) eqn:Hscram;
    cbn [scram set_sl set_salt set_a set_cdg set_ssk a dl md cdg ssk shk];
    rewrite ?Hscram, ?Hmd.
  all: repeat (destruct_inner;
               cbn [snd fst scram set_sl set_salt set_a set_cdg set_ssk a dl
                    md cdg ssk shk];
               rewrite ?Hscram, ?Hmd; cbv iota beta).
  all: rewrite ?sane_set_salt in *.
  all: nat_eqs.
  all: repeat match goal with
              | Hl : (_ =? _)%nat = false |- _ => apply Nat.eqb_neq in Hl
              | Hl : List.length ?r = ?n,
                Hh : context [firstn ?n (write_buf ?r ?b)] |- _ =>
                  rewrite (firstn_write_buf r b n Hl) in Hh
              end.
  all: split;
    [ intros [out H]; try discriminate H
    | intros [[Hsalt Hkeys] Hfam] ].
  all: try (eexists; reflexivity).
  all: try (split; [split|]; [ | | tauto ]).
  all: try (exfalso;
            repeat match goal with
                   | Hx : exists _, _ |- _ => destruct Hx
                   | Hx : _ /\ _ |- _ => destruct Hx
                   | Hx : _ \/ _ |- _ => destruct Hx
                   | Hx : Some _ = Some _ |- _ => injection Hx as Hx; subst
                   end; congruence).
  all: first [ reflexivity
             | eexists; split; [reflexivity | eassumption]
             | split; eexists; (split; [reflexivity | eassumption])
             | do 5 eexists;
               repeat (split; [first [reflexivity | eassumption]|]);
               eassumption ].
Qed.

Lemma sha1_not_sha256 (h : Header) (Hok : header_ok h) (x : Z) :
  is_sha1 h x -> is_sha256 h x -> False.
Proof.
  distinct_ids Hok. unfold is_sha1, is_sha256. simpl.
  intros [<-|[<-|[<-|[<-|[]]]]] [H|[H|[H|[H|[]]]]]; congruence.
Qed.

(** C9: the dbextract entry point succeeds only for records whose PRF id
    is of the SHA-1 or the SHA-256 family, and then leaves the SCRAM-SHA1,
    respectively the SCRAM-SHA2-256, identifier in the credential; every
    one of the four identifiers of each of these families is accepted and
    rewritten so, whenever the other steps of dbextract succeed; a record
    with any of the four SHA-512 identifiers makes it fail, although the
    PRF resolver accepts that identifier. *)
Theorem dbextract_sha1_sha256_only (h : Header) (E : Env)
    (Hok : header_ok h) (stack : locals) (parameters : string) :
  (forall p,
     result (atheme_pbkdf2v2_scram_dbextract h E stack parameters) = Some p ->
     exists x, record_prf parameters = Some x
       /\ ((is_sha1 h x /\ a p = PBKDF2_PRF_SCRAM_SHA1 h)
           \/ (is_sha256 h x /\ a p = PBKDF2_PRF_SCRAM_SHA2_256 h)))
  /\ (forall p0 l p,
        dbextract_match h stack parameters = Some (p0, l) ->
        atheme_pbkdf2v2_determine_prf h p0 = Some p ->
        dbextract_ready h E p l ->
        (is_sha1 h (a p0) ->
         exists out,
           result (atheme_pbkdf2v2_scram_dbextract h E stack parameters)
           = Some out
           /\ a out = PBKDF2_PRF_SCRAM_SHA1 h)
        /\ (is_sha256 h (a p0) ->
            exists out,
              result (atheme_pbkdf2v2_scram_dbextract h E stack parameters)
              = Some out
              /\ a out = PBKDF2_PRF_SCRAM_SHA2_256 h))
  /\ (forall x, record_prf parameters = Some x -> is_sha512 h x ->
        result (atheme_pbkdf2v2_scram_dbextract h E stack parameters) = None
        /\ exists p,
             atheme_pbkdf2v2_determine_prf h (set_a x (zero_parameters h))
             = Some p /\ md p = Some EVP_sha512).
Proof.
  split; [|split].
  - intros p Hr.
    destruct (dbextract_match h stack parameters) as [[p0 l]|] eqn:Hm.
    + exists (a p0). split; [eapply dbextract_match_prf; eauto|].
      eapply dbextract_result_family; eauto.
    + unfold atheme_pbkdf2v2_scram_dbextract in Hr. rewrite Hm in Hr.
      discriminate.
  - intros p0 l p Hm Hprf Hready.
    pose proof (dbextract_success_iff h E stack parameters p0 p l Hm Hprf)
      as Hiff.
    split; intros Hfam.
    + destruct (proj2 Hiff (conj Hready (or_introl Hfam))) as [out Hout].
      exists out. split; [exact Hout|].
      destruct (dbextract_result_family h E stack parameters p0 l out Hm
                  Hout) as [[_ Ha]|[H256 _]]; [exact Ha|].
      destruct (sha1_not_sha256 h Hok _ Hfam H256).
    + destruct (proj2 Hiff (conj Hready (or_intror Hfam))) as [out Hout].
      exists out. split; [exact Hout|].
      destruct (dbextract_result_family h E stack parameters p0 l out Hm
                  Hout) as [[H1 _]|[_ Ha]]; [|exact Ha].
      destruct (sha1_not_sha256 h Hok _ H1 Hfam).
  - intros x Hx H512. split.
    + eapply dbextract_sha512_fails; eauto.
    + apply determine_prf_sha512; auto.
Qed.

(** The steps of the examples below: [fact] is the theorem about the
    extractor at the stack content of the examples, [ps] the record. *)
Ltac dbextract_accepts fact ps sha1 :=
  let stack := constr:({| salt64_ := "junk"; sdg64 := "junk";
                          ssk64 := "junk"; shk64 := "junk" |}) in
  let Hacc := fresh "Hacc" in
  destruct (fact ps) as (_ & Hacc & _);
  let p0 := fresh "p0" in
  let l := fresh "l" in
  let Hm := fresh "Hm" in
  destruct (dbextract_match atheme_header stack ps) as [[p0 l]|] eqn:Hm;
    [|vm_compute in Hm; discriminate];
  let Hm' := fresh "Hm" in
  pose proof Hm as Hm';
  vm_compute in Hm'; injection Hm' as <- <-;
  let p := fresh "p" in
  let Hp := fresh "Hp" in
  match type of Hm with
  | _ = Some (?q, _) =>
      destruct (atheme_pbkdf2v2_determine_prf atheme_header q)
        as [p|] eqn:Hp; [|vm_compute in Hp; discriminate]
  end;
  let Hp' := fresh "Hp" in
  pose proof Hp as Hp';
  vm_compute in Hp'; injection Hp' as <-;
  match type of Hp with
  | _ = Some ?q =>
      match type of Hm with
      | _ = Some (_, ?l0) =>
          let Hr := fresh "Hr" in
          assert (Hr : dbextract_ready atheme_header Sample.env q l0)
            by (vm_compute; repeat first [eexists | split]; reflexivity);
          let H1 := fresh "H1" in
          let H256 := fresh "H256" in
          let out := fresh "out" in
          let Hout := fresh "Hout" in
          let Ha := fresh "Ha" in
          destruct (Hacc _ _ _ eq_refl Hp Hr) as [H1 H256];
          match sha1 with
          | true => destruct H1 as (out & Hout & Ha); [vm_compute; tauto|]
          | false => destruct H256 as (out & Hout & Ha); [vm_compute; tauto|]
          end;
          exists out; split; [exact Hout | exact Ha]
      end
  end.

Ltac dbextract_rejects fact ps x :=
  let Hrej := fresh "Hrej" in
  destruct (fact ps) as (_ & _ & Hrej);
  apply (Hrej x); [vm_compute; reflexivity | vm_compute; tauto].

Lemma dbextract_sha1_sha256_only_witness :
  let stack := {| salt64_ := "junk"; sdg64 := "junk"; ssk64 := "junk";
                  shk64 := "junk" |} in
  let accepted ps x :=
    exists out,
      result (atheme_pbkdf2v2_scram_dbextract atheme_header Sample.env stack
                ps) = Some out
      /\ a out = x in
  let rejected ps :=
    result (atheme_pbkdf2v2_scram_dbextract atheme_header Sample.env stack
              ps) = None in
  let sha1 := PBKDF2_PRF_SCRAM_SHA1 atheme_header in
  let sha256 := PBKDF2_PRF_SCRAM_SHA2_256 atheme_header in
  (* the four SHA-1 identifiers *)
  accepted "$z$4$64000$c2FsdHNhbHRzYWx0$TmiRuuP9Jk9pkrvk/idQapO85f8=" sha1
  /\ accepted
       "$z$24$64000$QUJDREVGR0hJSktMTU5PUA==$TmiRuuP9Jk9pkrvk/idQapO85f8="
       sha1
  /\ accepted
       "$z$44$64000$c2FsdHNhbHRzYWx0$TmiRuuP9Jk9pkrvk/idQapO85f8=$xOoQNlyCqM70GkBmjLLY/iRKcJY="
       sha1
  /\ accepted
       "$z$64$64000$QUJDREVGR0hJSktMTU5PUA==$TmiRuuP9Jk9pkrvk/idQapO85f8=$xOoQNlyCqM70GkBmjLLY/iRKcJY="
       sha1
  (* the four SHA-256 identifiers *)
  /\ accepted
       "$z$5$64000$c2FsdHNhbHRzYWx0$21jVUs9MyUbDQL06tzSxLqsopSKfDYoHhAF++3j1cu8="
       sha256
  /\ accepted
       "$z$25$64000$QUJDREVGR0hJSktMTU5PUA==$bBO6YRe+ZQzCaRC3bRS7Ygm/Zg20ahG4XxW8YwqxZw4="
       sha256
  /\ accepted
       "$z$45$64000$c2FsdHNhbHRzYWx0$bBO6YRe+ZQzCaRC3bRS7Ygm/Zg20ahG4XxW8YwqxZw4=$21jVUs9MyUbDQL06tzSxLqsopSKfDYoHhAF++3j1cu8="
       sha256
  /\ accepted
       "$z$65$64000$QUJDREVGR0hJSktMTU5PUA==$bBO6YRe+ZQzCaRC3bRS7Ygm/Zg20ahG4XxW8YwqxZw4=$21jVUs9MyUbDQL06tzSxLqsopSKfDYoHhAF++3j1cu8="
       sha256
  (* the four SHA-512 identifiers *)
  /\ rejected
       "$z$6$64000$c2FsdHNhbHRzYWx0$bBO6YRe+ZQzCaRC3bRS7Ygm/Zg20ahG4XxW8YwqxZw4="
  /\ rejected
       "$z$26$64000$QUJDREVGR0hJSktMTU5PUA==$bBO6YRe+ZQzCaRC3bRS7Ygm/Zg20ahG4XxW8YwqxZw4="
  /\ rejected
       "$z$46$64000$c2FsdHNhbHRzYWx0$TmiRuuP9Jk9pkrvk/idQapO85f8=$xOoQNlyCqM70GkBmjLLY/iRKcJY="
  /\ rejected
       "$z$66$64000$QUJDREVGR0hJSktMTU5PUA==$TmiRuuP9Jk9pkrvk/idQapO85f8=$xOoQNlyCqM70GkBmjLLY/iRKcJY=".
Proof.
  intros stack accepted rejected sha1 sha256.
  subst stack accepted rejected sha1 sha256. cbv beta.
  pose proof (dbextract_sha1_sha256_only atheme_header Sample.env
                atheme_header_ok
                {| salt64_ := "junk"; sdg64 := "junk"; ssk64 := "junk";
                   shk64 := "junk" |}) as fact.
  split; [|split; [|split; [|split; [|split; [|split; [|split; [|split;
    [|split; [|split; [|split]]]]]]]]]].
  - dbextract_accepts fact
      "$z$4$64000$c2FsdHNhbHRzYWx0$TmiRuuP9Jk9pkrvk/idQapO85f8=" true.
  - dbextract_accepts fact
      "$z$24$64000$QUJDREVGR0hJSktMTU5PUA==$TmiRuuP9Jk9pkrvk/idQapO85f8="
      true.
  - dbextract_accepts fact
      "$z$44$64000$c2FsdHNhbHRzYWx0$TmiRuuP9Jk9pkrvk/idQapO85f8=$xOoQNlyCqM70GkBmjLLY/iRKcJY="
      true.
  - dbextract_accepts fact
      "$z$64$64000$QUJDREVGR0hJSktMTU5PUA==$TmiRuuP9Jk9pkrvk/idQapO85f8=$xOoQNlyCqM70GkBmjLLY/iRKcJY="
      true.
  - dbextract_accepts fact
      "$z$5$64000$c2FsdHNhbHRzYWx0$21jVUs9MyUbDQL06tzSxLqsopSKfDYoHhAF++3j1cu8="
      false.
  - dbextract_accepts fact
      "$z$25$64000$QUJDREVGR0hJSktMTU5PUA==$bBO6YRe+ZQzCaRC3bRS7Ygm/Zg20ahG4XxW8YwqxZw4="
      false.
  - dbextract_accepts fact
      "$z$45$64000$c2FsdHNhbHRzYWx0$bBO6YRe+ZQzCaRC3bRS7Ygm/Zg20ahG4XxW8YwqxZw4=$21jVUs9MyUbDQL06tzSxLqsopSKfDYoHhAF++3j1cu8="
      false.
  - dbextract_accepts fact
      "$z$65$64000$QUJDREVGR0hJSktMTU5PUA==$bBO6YRe+ZQzCaRC3bRS7Ygm/Zg20ahG4XxW8YwqxZw4=$21jVUs9MyUbDQL06tzSxLqsopSKfDYoHhAF++3j1cu8="
      false.
  - dbextract_rejects fact
      "$z$6$64000$c2FsdHNhbHRzYWx0$bBO6YRe+ZQzCaRC3bRS7Ygm/Zg20ahG4XxW8YwqxZw4="
      6.
  - dbextract_rejects fact
      "$z$26$64000$QUJDREVGR0hJSktMTU5PUA==$bBO6YRe+ZQzCaRC3bRS7Ygm/Zg20ahG4XxW8YwqxZw4="
      26.
  - dbextract_rejects fact
      "$z$46$64000$c2FsdHNhbHRzYWx0$TmiRuuP9Jk9pkrvk/idQapO85f8=$xOoQNlyCqM70GkBmjLLY/iRKcJY="
      46.
  - dbextract_rejects fact
      "$z$66$64000$QUJDREVGR0hJSktMTU5PUA==$TmiRuuP9Jk9pkrvk/idQapO85f8=$xOoQNlyCqM70GkBmjLLY/iRKcJY="
      66.
Defined.

(* ------------------------------------------------------------------ *)
(** ** Records whose shape disagrees with their PRF *)

Lemma firstn_zero_buf (n k : nat) :
  (n <= k)%nat -> firstn n (zero_buf k) = repeat x00 n.
Proof.
  intros Hle. unfold zero_buf.
  replace k with (n + (k - n))%nat by lia.
  rewrite repeat_app, firstn_app, repeat_length, Nat.sub_diag.
  simpl. rewrite app_nil_r. rewrite <- (repeat_length x00 n) at 1.
  apply firstn_all.
Qed.

Lemma compute_result_prf (h : Header) (E : Env) (pw ps : string) (v : bool)
    (matched : bool) (p0 p parsed : pbkdf2v2_parameters)
    (s d k1 k2 : string) :
  compute_match h ps v = Some (matched, p0, s, d, k1, k2) ->
  atheme_pbkdf2v2_determine_prf h p0 = Some p ->
  result (atheme_pbkdf2v2_compute h E pw ps v) = Some parsed ->
  scram parsed = scram p /\ dl parsed = dl p /\ md parsed = md p
  /\ salt64 parsed = salt64 p /\ a parsed = a p /\ c parsed = c p.
Proof.
  intros Hm Hprf. unfold atheme_pbkdf2v2_compute. rewrite Hm.
  unfold bind, lift at 1. cbv iota beta. rewrite Hprf.
  unfold lift, result, decode_exact, ret, fail, call, bind. cbv iota beta.
  repeat (destruct_inner; simpl snd; cbv iota beta; try discriminate).
  all: intros H; inversion H; subst; simpl; auto 10.
Qed.

(** X13: when the shape a record matches disagrees with its PRF, [verify]
    compares against a buffer no field was decoded into: for the SCRAM
    shape with an HMAC PRF it answers whether the computed digest is all
    zero bytes, for the HMAC shape with a SCRAM PRF whether the computed
    ServerKey is. *)
Theorem verify_shape_mismatch (h : Header) (E : Env) (pw ps : string)
    (matched : bool) (p0 p parsed : pbkdf2v2_parameters)
    (s d k1 k2 : string) :
  compute_match h ps true = Some (matched, p0, s, d, k1, k2) ->
  atheme_pbkdf2v2_determine_prf h p0 = Some p ->
  scram p = negb matched ->
  result (atheme_pbkdf2v2_compute h E pw ps true) = Some parsed ->
  snd (atheme_pbkdf2v2_verify h E pw ps)
  = if matched
    then bytes_eqb (repeat x00 (dl parsed))
           (firstn (dl parsed) (cdg parsed))
    else match md parsed with
         | Some m =>
             match HMAC E m (firstn (dl parsed) (cdg parsed)) ServerKeyStr
             with
             | Some csk =>
                 bytes_eqb (repeat x00 (dl parsed)) (firstn (dl parsed) csk)
             | None => false
             end
         | None => false
         end.
Proof.
  intros Hm Hprf Hscram Hres. unfold atheme_pbkdf2v2_verify.
  destruct (compute_verify_inv _ _ _ _ _ _ _ _ _ _ _ Hm Hres)
    as (m & Hmd & Hinv).
  destruct (compute_result_prf _ _ _ _ _ _ _ _ _ _ _ _ _ Hm Hprf Hres)
    as (Hs & Hdl & _).
  pose proof (determine_prf_dl _ _ _ Hprf) as Hle. rewrite <- Hdl in Hle.
  destruct (atheme_pbkdf2v2_compute h E pw ps true) as [t [parsed'|]];
    [|discriminate].
  simpl in Hres. injection Hres as ->.
  rewrite Hs, Hscram.
  destruct matched; simpl negb; cbv iota.
  - destruct Hinv as (r1 & r2 & _ & _ & _ & _ & _ & _ & Hsdg).
    simpl. unfold memcmp_eq. rewrite Hsdg, (firstn_zero_buf _ _ Hle).
    reflexivity.
  - destruct Hinv as (r & _ & _ & _ & Hssk).
    unfold atheme_pbkdf2v2_scram_derive, hmac_cdg, bind, call, ret.
    rewrite Hmd. cbv iota beta.
    destruct (HMAC E m _ ServerKeyStr) as [csk|] eqn:Hh; simpl;
      [|reflexivity].
    unfold memcmp_eq. rewrite Hssk, (firstn_zero_buf _ _ Hle).
    reflexivity.
Qed.

Lemma verify_shape_mismatch_witness :
  let ps := "$z$4$64000$c2FsdHNhbHRzYWx0$TmiRuuP9Jk9pkrvk/idQapO85f8=$xOoQNlyCqM70GkBmjLLY/iRKcJY=" in
  exists parsed,
    result (atheme_pbkdf2v2_compute atheme_header Sample.env
              "correct horse" ps true) = Some parsed
    /\ snd (atheme_pbkdf2v2_verify atheme_header Sample.env
              "correct horse" ps)
       = bytes_eqb (repeat x00 (dl parsed))
           (firstn (dl parsed) (cdg parsed)).
Proof.
  intros ps.
  destruct (result (atheme_pbkdf2v2_compute atheme_header Sample.env
                      "correct horse" ps true)) as [parsed|] eqn:Hc;
    [|vm_compute in Hc; discriminate].
  exists parsed. split; [reflexivity|].
  apply (verify_shape_mismatch atheme_header Sample.env "correct horse" ps
           true
           (set_c 64000 (set_a 4 (zero_parameters atheme_header)))
           (set_dl SHA_DIGEST_LENGTH
              (set_md (Some EVP_sha1)
                 (set_c 64000 (set_a 4 (zero_parameters atheme_header)))))
           parsed
           "c2FsdHNhbHRzYWx0" "" "TmiRuuP9Jk9pkrvk/idQapO85f8="
           "xOoQNlyCqM70GkBmjLLY/iRKcJY=").
  - vm_compute. reflexivity.
  - vm_compute. reflexivity.
  - reflexivity.
  - exact Hc.
Defined.

(* ------------------------------------------------------------------ *)
(** ** The DIGEST option *)

Lemma ascii_eqb_trans (x y z : ascii) :
  Ascii.eqb x y = true -> Ascii.eqb x z = Ascii.eqb y z.
Proof. intros H. apply Ascii.eqb_eq in H. subst. reflexivity. Qed.

Lemma strcasecmp_eq_trans (x y z : string) :
  strcasecmp_eq x y = true -> strcasecmp_eq x z = strcasecmp_eq y z.
Proof.
  revert y z. induction x as [|a x IH]; intros [|b y] [|c z]; simpl;
    try discriminate; try reflexivity.
  intros H. apply andb_prop in H as [Hab Hxy].
  rewrite (ascii_eqb_trans _ _ _ Hab), (IH _ z Hxy). reflexivity.
Qed.

(** X14: the DIGEST handler does not tell apart two values that differ
    in the case of their letters only. *)
Theorem digest_option_case_insensitive (h : Header) (v w : string)
    (cfg : config) :
  strcasecmp_eq v w = true ->
  c_ci_pbkdf2v2_digest h (Some v) cfg = c_ci_pbkdf2v2_digest h (Some w) cfg.
Proof.
  intros H. unfold c_ci_pbkdf2v2_digest.
  rewrite !(strcasecmp_eq_trans v w _ H). reflexivity.
Qed.

Lemma digest_option_case_insensitive_witness :
  c_ci_pbkdf2v2_digest atheme_header (Some "Scram-Sha256") (Sample.cfg 5)
  = c_ci_pbkdf2v2_digest atheme_header (Some "SCRAM-SHA256") (Sample.cfg 5).
Proof.
  apply digest_option_case_insensitive. reflexivity.
Defined.

(** X15: when the built-in default is a base64-salt identifier, and a
    SCRAM one only in a build with libidn, every identifier the DIGEST
    handler installs for a value is one the PRF resolver accepts, with a
    base64 salt, and a SCRAM one only in a build with libidn. *)
Theorem configured_digest_resolves (h : Header) (Hok : header_ok h)
    (v : string) (cfg : config) :
  is_s64 h (PBKDF2_DIGEST_DEF h) ->
  (is_scram_id h (PBKDF2_DIGEST_DEF h) -> HAVE_LIBIDN h = true) ->
  exists p,
    atheme_pbkdf2v2_determine_prf h
      (set_a (pbkdf2v2_digest (c_ci_pbkdf2v2_digest h (Some v) cfg))
         (zero_parameters h)) = Some p
    /\ salt64 p = true
    /\ (scram p = true -> HAVE_LIBIDN h = true).
Proof.
  intros Hdef Hidn. unfold is_s64, is_scram_id in *. simpl in Hdef, Hidn.
  distinct_ids Hok.
  unfold c_ci_pbkdf2v2_digest.
  repeat match goal with
         | |- context [if ?b then _ else _] =>
             let Hb := fresh "Hb" in destruct b eqn:Hb
         end.
  6: destruct Hdef as [Hdef|[Hdef|[Hdef|[Hdef|[Hdef|[Hdef|[]]]]]]].
  all: cbn [pbkdf2v2_digest];
    unfold atheme_pbkdf2v2_determine_prf, case_of; simpl;
    rewrite <- ?Hdef; eqb_ids; simpl; eqb_ids; simpl;
    eexists; (split; [reflexivity|]); simpl; split; try reflexivity;
    try discriminate; intros _.
  all: try (apply andb_prop in Hb2 as [Hb2 _]; exact Hb2).
  all: try (apply andb_prop in Hb3 as [Hb3 _]; exact Hb3).
  all: apply Hidn; rewrite <- Hdef; tauto.
Qed.

Lemma configured_digest_resolves_witness :
  exists p,
    atheme_pbkdf2v2_determine_prf atheme_header
      (set_a (pbkdf2v2_digest
                (c_ci_pbkdf2v2_digest atheme_header (Some "scram-sha1")
                   (Sample.cfg 5)))
         (zero_parameters atheme_header)) = Some p
    /\ salt64 p = true
    /\ (scram p = true -> HAVE_LIBIDN atheme_header = true).
Proof.
  apply (configured_digest_resolves atheme_header atheme_header_ok).
  - vm_compute. tauto.
  - intros _. reflexivity.
Defined.

(* ------------------------------------------------------------------ *)
(** ** Printing and scanning records *)

Lemma dollar_not_base64 : PBKDF2_FN_BASE64 "$" = false.
Proof. reflexivity. Qed.

Lemma sscanf_salt_field (fmt : list Scan.directive) (s tail : string) :
  is_field s ->
  Scan.sscanf (Scan.Set_ PBKDF2_FN_BASE64 :: Scan.Lit "$" :: fmt)
    (s ++ "$" ++ tail)%string
  = Scan.VStr s :: Scan.sscanf fmt tail.
Proof.
  intros [Hne Hall]. cbn [Scan.sscanf].
  change ("$" ++ tail)%string with (String "$" tail).
  rewrite span_all by (auto using dollar_not_base64).
  destruct s as [|c0 s]; [contradiction|].
  cbn [Ascii.eqb Bool.eqb]. reflexivity.
Qed.

Lemma sscanf_last_field (s : string) :
  is_field s ->
  Scan.sscanf [Scan.Set_ PBKDF2_FN_BASE64] s = [Scan.VStr s].
Proof.
  intros [Hne Hall]. cbn [Scan.sscanf]. rewrite span_end by assumption.
  destruct s; [contradiction|]. reflexivity.
Qed.

Lemma string_app_nil_r (s : string) : (s ++ "")%string = s.
Proof. induction s as [|x s IH]; simpl; [reflexivity | now rewrite IH]. Qed.

(** Scanning a record that starts as [snprintf] writes its first three
    fields. *)
Lemma sscanf_savesalt (fmt : list Scan.directive) (x n : Z)
    (s tail : string) :
  is_uint x -> is_uint n -> is_field s ->
  Scan.sscanf (PBKDF2_FN_LOADSALT ++ fmt) (PBKDF2_FN_SAVESALT x n s ++ tail)
  = Scan.VUint x :: Scan.VUint n :: Scan.VStr s :: Scan.sscanf fmt tail.
Proof.
  intros Hx Hn Hs. unfold PBKDF2_FN_LOADSALT, PBKDF2_FN_SAVESALT.
  rewrite <- !app_assoc. rewrite !string_app_assoc.
  rewrite sscanf_prefix_print by assumption.
  cbn [app]. rewrite (sscanf_salt_field fmt s tail Hs). reflexivity.
Qed.

Lemma sscanf_two_fields (k1 k2 : string) :
  is_field k1 -> is_field k2 ->
  Scan.sscanf [Scan.Set_ PBKDF2_FN_BASE64; Scan.Lit "$";
               Scan.Set_ PBKDF2_FN_BASE64] (k1 ++ "$" ++ k2)%string
  = [Scan.VStr k1; Scan.VStr k2].
Proof.
  intros Hk1 Hk2. rewrite <- (string_app_nil_r k2) at 1.
  rewrite (sscanf_salt_field _ k1 _ Hk1).
  rewrite string_app_nil_r, (sscanf_last_field k2 Hk2). reflexivity.
Qed.

Lemma sscanf_one_of_two (d : string) :
  is_field d ->
  Scan.sscanf [Scan.Set_ PBKDF2_FN_BASE64; Scan.Lit "$";
               Scan.Set_ PBKDF2_FN_BASE64] d
  = [Scan.VStr d].
Proof.
  intros [Hne Hall]. cbn [Scan.sscanf]. rewrite span_end by assumption.
  destruct d; [contradiction|]. reflexivity.
Qed.

(** X16: scanning what [snprintf] prints gives the fields back: a printed
    salt record matches in generation mode, a printed HMAC record and a
    printed SCRAM record match their own shape in verify mode, each with
    the numbers and texts that were printed; a salt record matches no
    shape in verify mode. *)
Theorem record_shapes_round_trip (h : Header) (x n : Z)
    (s d k1 k2 : string) :
  is_uint x -> is_uint n ->
  is_field s -> is_field d -> is_field k1 -> is_field k2 ->
  let p0 := set_c n (set_a x (zero_parameters h)) in
  compute_match h (PBKDF2_FN_SAVESALT x n s) false
  = Some (false, p0, s, "", "", "")
  /\ compute_match h (PBKDF2_FN_SAVEHASH x n s d) true
     = Some (false, p0, s, d, "", "")
  /\ compute_match h (PBKDF2_FS_SAVEHASH x n s k1 k2) true
     = Some (true, p0, s, "", k1, k2)
  /\ compute_match h (PBKDF2_FN_SAVESALT x n s) true = None.
Proof.
  intros Hx Hn Hs Hd Hk1 Hk2 p0. unfold compute_match.
  rewrite <- (string_app_nil_r (PBKDF2_FN_SAVESALT x n s)).
  unfold PBKDF2_FS_SAVEHASH, PBKDF2_FN_SAVEHASH.
  rewrite !string_app_assoc.
  rewrite <- (app_nil_r PBKDF2_FN_LOADSALT) at 1.
  unfold PBKDF2_FS_LOADHASH, PBKDF2_FN_LOADHASH.
  rewrite <- !app_assoc.
  rewrite !sscanf_savesalt by assumption.
  cbn [app].
  rewrite (sscanf_last_field d Hd), (sscanf_one_of_two d Hd),
    (sscanf_two_fields k1 k2 Hk1 Hk2).
  repeat split; reflexivity.
Qed.

Lemma record_shapes_round_trip_witness :
  compute_match atheme_header
    (PBKDF2_FS_SAVEHASH 44 64000 "c2FsdHNhbHRzYWx0"
       "TmiRuuP9Jk9pkrvk/idQapO85f8=" "xOoQNlyCqM70GkBmjLLY/iRKcJY=") true
  = Some (true, set_c 64000 (set_a 44 (zero_parameters atheme_header)),
          "c2FsdHNhbHRzYWx0", "", "TmiRuuP9Jk9pkrvk/idQapO85f8=",
          "xOoQNlyCqM70GkBmjLLY/iRKcJY=").
Proof.
  apply (record_shapes_round_trip atheme_header 44 64000
           "c2FsdHNhbHRzYWx0" "AAAA" "TmiRuuP9Jk9pkrvk/idQapO85f8="
           "xOoQNlyCqM70GkBmjLLY/iRKcJY=");
    try (split; [discriminate | reflexivity]);
    unfold is_uint; lia.
Defined.

(** X17: on every record that starts with the three fields as [snprintf]
    prints them, whatever follows, the recrypt advisor answers false
    exactly when the PRF id and the iteration count are the configured
    ones and the salt field is [PBKDF2_SALTLEN_DEF] characters long. *)
Theorem recrypt_printed_record (h : Header) (cfg : config) (x n : Z)
    (s tail : string) :
  is_uint x -> is_uint n -> is_field s ->
  atheme_pbkdf2v2_recrypt h cfg (PBKDF2_FN_SAVESALT x n s ++ tail)
  = negb ((x =? pbkdf2v2_digest cfg) && (n =? pbkdf2v2_rounds cfg)
          && (strlen s =? PBKDF2_SALTLEN_DEF h)%nat).
Proof.
  intros Hx Hn Hs. unfold atheme_pbkdf2v2_recrypt.
  rewrite <- (app_nil_r PBKDF2_FN_LOADSALT).
  rewrite sscanf_savesalt by assumption. cbn [Scan.sscanf stored3].
  destruct (x =? pbkdf2v2_digest cfg), (n =? pbkdf2v2_rounds cfg),
    (strlen s =? PBKDF2_SALTLEN_DEF h)%nat; reflexivity.
Qed.

Lemma recrypt_printed_record_witness :
  atheme_pbkdf2v2_recrypt atheme_header (Sample.cfg 25)
    (PBKDF2_FN_SAVESALT 25 64000 "QUJDREVGR0hJSktMTU5PUA=="
     ++ "bBO6YRe+ZQzCaRC3bRS7Ygm/Zg20ahG4XxW8YwqxZw4=")
  = true.
Proof.
  rewrite recrypt_printed_record.
  - reflexivity.
  - unfold is_uint. lia.
  - unfold is_uint. lia.
  - split; [discriminate | reflexivity].
Defined.

(** X18: in a build with libidn, for a record whose PRF is a SCRAM one, a
    password of more than [PASSLEN] bytes makes the computer fail before
    any cryptographic call. *)
Theorem overlong_password_rejected (h : Header) (E : Env)
    (password parameters : string) (verifying : bool)
    (matched_ssk_shk : bool) (p0 p : pbkdf2v2_parameters)
    (s d k1 k2 : string) :
  HAVE_LIBIDN h = true ->
  compute_match h parameters verifying
  = Some (matched_ssk_shk, p0, s, d, k1, k2) ->
  atheme_pbkdf2v2_determine_prf h p0 = Some p ->
  scram p = true ->
  (PASSLEN h < strlen password)%nat ->
  atheme_pbkdf2v2_compute h E password parameters verifying = ([], None).
Proof.
  intros Hidn Hm Hprf Hscram Hlen.
  assert (Hnorm : atheme_pbkdf2v2_scram_normalize h E password = None).
  { unfold atheme_pbkdf2v2_scram_normalize, ATHEME_SASLPREP_MAXLEN.
    destruct (Nat.leb_spec (PASSLEN h + 1) (strlen password));
      [reflexivity | lia]. }
  unfold atheme_pbkdf2v2_compute.
  rewrite Hm. unfold bind, lift at 1. cbv iota beta.
  rewrite Hprf. unfold lift at 1. cbv iota beta.
  rewrite Hidn, Hscram, Hnorm. reflexivity.
Qed.

Lemma overlong_password_rejected_witness :
  let pw := string_of_list_ascii (repeat "a"%char 289) in
  atheme_pbkdf2v2_compute atheme_header Sample.env pw
    "$z$44$64000$c2FsdHNhbHRzYWx0$TmiRuuP9Jk9pkrvk/idQapO85f8=$xOoQNlyCqM70GkBmjLLY/iRKcJY="
    true
  = ([], None).
Proof.
  intros pw.
  eapply overlong_password_rejected.
  - reflexivity.
  - vm_compute. reflexivity.
  - vm_compute. reflexivity.
  - reflexivity.
  - vm_compute. lia.
Defined.

(** X19: a record the salt generator returns is shorter than [PASSLEN] and
    the computer parses it back in generation mode to the configured PRF
    id, the configured iteration count and the base64 text of the salt;
    it matches no shape in verify mode; and the recrypt advisor answers
    false for it exactly when the PRF id and iteration count are the
    current ones and the base64 text, not the raw salt, is
    [PBKDF2_SALTLEN_DEF] characters long. *)
Theorem salt_record_parses (h : Header) (E : Env) (cfg cfg' : config)
    (rawsalt : list byte) (rec s : string) :
  is_uint (pbkdf2v2_digest cfg) -> is_uint (pbkdf2v2_rounds cfg) ->
  base64_encode E rawsalt (PBKDF2_SALTLEN_MAX h * 3) = Some s ->
  is_field s ->
  atheme_pbkdf2v2_salt h E cfg rawsalt = Some rec ->
  (strlen rec < PASSLEN h)%nat
  /\ compute_match h rec false
     = Some (false,
             set_c (pbkdf2v2_rounds cfg)
               (set_a (pbkdf2v2_digest cfg) (zero_parameters h)),
             s, "", "", "")
  /\ compute_match h rec true = None
  /\ atheme_pbkdf2v2_recrypt h cfg' rec
     = negb ((pbkdf2v2_digest cfg =? pbkdf2v2_digest cfg')
             && (pbkdf2v2_rounds cfg =? pbkdf2v2_rounds cfg')
             && (strlen s =? PBKDF2_SALTLEN_DEF h)%nat).
Proof.
  intros Hd Hr Hb Hs. unfold atheme_pbkdf2v2_salt. rewrite Hb.
  destruct (Nat.leb_spec (PASSLEN h)
              (strlen (PBKDF2_FN_SAVESALT (pbkdf2v2_digest cfg)
                         (pbkdf2v2_rounds cfg) s))) as [Hle|Hlt];
    [discriminate|].
  intros [= <-]. split; [exact Hlt|].
  unfold compute_match, atheme_pbkdf2v2_recrypt.
  rewrite <- (string_app_nil_r (PBKDF2_FN_SAVESALT _ _ s)).
  rewrite <- (app_nil_r PBKDF2_FN_LOADSALT).
  unfold PBKDF2_FS_LOADHASH, PBKDF2_FN_LOADHASH.
  rewrite <- !app_assoc.
  rewrite !sscanf_savesalt by assumption.
  cbn [app Scan.sscanf stored3 stored4 stored5].
  repeat split.
  destruct (_ =? pbkdf2v2_digest cfg'), (_ =? pbkdf2v2_rounds cfg'),
    (strlen s =? PBKDF2_SALTLEN_DEF h)%nat; reflexivity.
Qed.

Lemma salt_record_parses_witness :
  exists rec s,
    atheme_pbkdf2v2_salt atheme_header Sample.env (Sample.cfg 25)
      (repeat x41 32) = Some rec
    /\ base64_encode Sample.env (repeat x41 32)
         (PBKDF2_SALTLEN_MAX atheme_header * 3) = Some s
    /\ compute_match atheme_header rec false
       = Some (false, set_c 64000 (set_a 25 (zero_parameters atheme_header)),
               s, "", "", "")
    /\ atheme_pbkdf2v2_recrypt atheme_header (Sample.cfg 25) rec = true.
Proof.
  destruct (atheme_pbkdf2v2_salt atheme_header Sample.env (Sample.cfg 25)
              (repeat x41 32)) as [rec|] eqn:Hr;
    [|vm_compute in Hr; discriminate].
  destruct (base64_encode Sample.env (repeat x41 32)
              (PBKDF2_SALTLEN_MAX atheme_header * 3)) as [s|] eqn:Hs;
    [|vm_compute in Hs; discriminate].
  assert (Hf : is_field s /\ (strlen s =? 32)%nat = false).
  { vm_compute in Hs. inversion Hs.
    split; [split; [discriminate | reflexivity] | reflexivity]. }
  destruct Hf as [Hf Hl].
  destruct (salt_record_parses atheme_header Sample.env (Sample.cfg 25)
              (Sample.cfg 25) (repeat x41 32) rec s)
    as (_ & Hm & _ & Hre); try assumption;
    try (unfold is_uint; simpl; lia).
  exists rec, s. split; [reflexivity|]. split; [reflexivity|].
  split; [exact Hm|]. rewrite Hre.
  change (PBKDF2_SALTLEN_DEF atheme_header) with 32%nat. rewrite Hl.
  reflexivity.
Defined.
